(** * iota-sdk: logging middleware, integration-test harness and fp.Reduce

    A shallow embedding of
    - [pkg/middleware] (the logging middleware [WithLogger], its response
      writer wrapper and helpers),
    - [pkg/itf/suite.go] (the test suite's context pipeline and the request
      builder),
    - [pkg/fp/reduce.go],
    followed by the properties established about them.

    Conventions.  Go [string] and [[]byte] are Rocq [string] (a sequence of
    bytes); [error] is an optional message; a Go map is a [gmap]; a pointer
    receiver that is mutated becomes explicit state passing. *)

From Stdlib Require Import ZArith Ascii String List.
From stdpp Require Import gmap strings list fin_maps.
Import ListNotations.

Local Open Scope Z_scope.
#[local] Set Warnings "-register-all".

Abbreviation error := string (only parsing).

(** ** Go's [strings] package (the functions the sources call) *)
Module Strings.

(** Lower-casing of the ASCII letters, byte by byte.  [strings.ToLower]
    does this to a string of ASCII bytes; what it does to other strings
    is left to the interface [Decoders] below. *)
Definition lower_ascii (c : ascii) : ascii :=
  let n := N_of_ascii c in
  if ((65 <=? n) && (n <=? 90))%N then ascii_of_N (n + 32) else c.

Definition upper_ascii (c : ascii) : ascii :=
  let n := N_of_ascii c in
  if ((97 <=? n) && (n <=? 122))%N then ascii_of_N (n - 32) else c.

Fixpoint lower (s : string) : string :=
  match s with
  | EmptyString => EmptyString
  | String c s' => String (lower_ascii c) (lower s')
  end.

(** Every byte is below [utf8.RuneSelf]. *)
Fixpoint is_ascii (s : string) : bool :=
  match s with
  | EmptyString => true
  | String c s' => (N_of_ascii c <? 128)%N && is_ascii s'
  end.

Fixpoint HasPrefix (s prefix : string) {struct prefix} : bool :=
  match prefix, s with
  | EmptyString, _ => true
  | String _ _, EmptyString => false
  | String p prefix', String c s' => Ascii.eqb c p && HasPrefix s' prefix'
  end.

(** [strings.Contains s substr]: [substr] occurs somewhere within [s]. *)
Fixpoint Contains (s substr : string) : bool :=
  HasPrefix s substr ||
  match s with
  | EmptyString => false
  | String _ s' => Contains s' substr
  end.

(** [strings.Join elems sep]. *)
Fixpoint Join (elems : list string) (sep : string) : string :=
  match elems with
  | [] => EmptyString
  | [x] => x
  | x :: rest => x +:+ sep +:+ Join rest sep
  end.

End Strings.

(** ** [pkg/fp]: [Reduce] *)
Module Fp.
Section Reduce.
Context {T R : Type}.

(** The function value returned by [Reduce]: the callback together with
    the captured variable [acc].  Go closures capture variables, not
    values, so the cell lives as long as the closure and every call
    reads and writes the same cell. *)
Record Reducer := { callback : R -> T -> R; acc : R }.

Definition Reduce (callback : R -> T -> R) (acc : R) : Reducer :=
  {| callback := callback; acc := acc |}.

(** The loop [for _, x := range xs { acc = callback(acc, x) }]. *)
Fixpoint range (callback : R -> T -> R) (acc : R) (xs : list T) : R :=
  match xs with
  | [] => acc
  | x :: xs' => range callback (callback acc x) xs'
  end.

(** One application of the returned function to a slice: the result and
    the closure afterwards. *)
Definition call (f : Reducer) (xs : list T) : R * Reducer :=
  let acc' := range (callback f) (acc f) xs in
  (acc', {| callback := callback f; acc := acc' |}).
End Reduce.
Arguments Reducer : clear implicits.
End Fp.

(** ** Values of type [interface{}] as the decoders produce them *)
Inductive Any :=
| ANil
| ABool (b : bool)
| ANumber (digits : string)
| AString (s : string)
| AArray (elems : list Any)
| AObject (members : list (string * Any)).

(** ** [logrus]: entries with fields, appended to the logger's output *)
Module Logrus.

Inductive Level := ErrorLevel | InfoLevel.

Inductive FieldValue :=
| FString (s : string)
| FInt (z : Z)
| FBool (b : bool)
| FStrings (m : gmap string string)
| FAny (v : Any)
| FError (e : error).

(** [logrus.Fields] *)
Abbreviation Fields := (gmap string FieldValue).

(** What a logger writes for one call of [Info] or [Error]. *)
Record Event := { level : Level; message : string; data : Fields }.

(** [entry.WithFields(fs)]: the new fields win over the entry's. *)
Definition WithFields (entry : Fields) (fs : Fields) : Fields := fs ∪ entry.

Definition WithField (entry : Fields) (key : string) (v : FieldValue) : Fields :=
  WithFields entry {[ key := v ]}.

(** [entry.WithError(err)] stores the error under the key [error]. *)
Definition WithError (entry : Fields) (err : error) : Fields :=
  WithField entry "error" (FError err).

Definition Info (entry : Fields) (msg : string) : Event :=
  {| level := InfoLevel; message := msg; data := entry |}.

Definition Error (entry : Fields) (msg : string) : Event :=
  {| level := ErrorLevel; message := msg; data := entry |}.

End Logrus.

(** ** [go.opentelemetry.io/otel/trace]: span contexts *)
Module Otel.

(** The identifiers of a span as [TraceID().String()] and
    [SpanID().String()] render them. *)
Record SpanContext := {
  TraceID : string;
  SpanID : string
}.

Definition zeroTraceID : string := "00000000000000000000000000000000".
Definition zeroSpanID : string := "0000000000000000".

Definition HasTraceID (sc : SpanContext) : bool := negb (String.eqb (TraceID sc) zeroTraceID).

End Otel.

(** ** [context]: a chain of key/value layers, the newest first *)
Module Ctx.

(** Handles of the collaborators the harness passes through the context. *)
Record Params := { IP : string; UserAgent : string; Authenticated : bool }.
Record PageContext := { Locale : string; URL : string; Localizer : string }.

(** The context keys of [pkg/constants] and [pkg/composables], the key
    under which [otel/trace] keeps the current span, and keys of the
    callers' own. *)
Inductive Key :=
| UserKey | PoolKey | SessionKey | TenantIDKey | AppKey | HeadKey | LogoKey
| LoggerKey | RequestStart | ParamsKey | PageContextKey
| SpanKey
| CallerKey (name : string).

Inductive Value :=
| VUser (u : string)
| VPool (pool : nat)
| VSession
| VTenantID (id : string)
| VApp (app : nat)
| VNopComponent
| VLogger (entry : Logrus.Fields)
| VTime (unixNano : Z)
| VParams (p : Params)
| VPageContext (p : PageContext)
| VSpan (sc : Otel.SpanContext)
| VBool (b : bool)
| VString (s : string).

#[export] Instance Key_eq_dec : EqDecision Key.
Proof. solve_decision. Defined.

Definition Context := list (Key * Value).

(** [context.WithValue(ctx, key, val)] returns a new layer over [ctx]. *)
Definition WithValue (ctx : Context) (key : Key) (val : Value) : Context :=
  (key, val) :: ctx.

(** [ctx.Value(key)]: the newest layer with that key. *)
Fixpoint Lookup (ctx : Context) (key : Key) : option Value :=
  match ctx with
  | [] => None
  | (k, v) :: parent => if decide (k = key) then Some v else Lookup parent key
  end.

End Ctx.

(** ** [net/http], [io], [net/textproto]: what the sources use of them *)
Module Http.

(** *** Header maps *)
Abbreviation Header := (gmap string (list string)).

(** [url.Values] has the same shape. *)
Abbreviation Values := (gmap string (list string)).

Definition is_alnum (n : N) : bool :=
  (((48 <=? n) && (n <=? 57)) || ((65 <=? n) && (n <=? 90))
   || ((97 <=? n) && (n <=? 122)))%N.

(** [textproto.validHeaderFieldByte]: the token characters of RFC 7230. *)
Definition validHeaderFieldByte (c : ascii) : bool :=
  let n := N_of_ascii c in
  is_alnum n ||
  existsb (N.eqb n) [33; 35; 36; 37; 38; 39; 42; 43; 45; 46; 94; 95; 96; 124; 126]%N.

Fixpoint all_valid (s : string) : bool :=
  match s with
  | EmptyString => true
  | String c s' => validHeaderFieldByte c && all_valid s'
  end.

Fixpoint canon_from (upper : bool) (s : string) : string :=
  match s with
  | EmptyString => EmptyString
  | String c s' =>
      let c' := if upper then Strings.upper_ascii c else Strings.lower_ascii c in
      String c' (canon_from (Ascii.eqb c' "-"%char) s')
  end.

(** [textproto.CanonicalMIMEHeaderKey]: a key that is not a token is
    returned as it is. *)
Definition CanonicalMIMEHeaderKey (s : string) : string :=
  if all_valid s then canon_from true s else s.

Definition Get (h : Header) (key : string) : string :=
  match h !! CanonicalMIMEHeaderKey key with
  | Some (v :: _) => v
  | _ => EmptyString
  end.

Definition Set_ (h : Header) (key value : string) : Header :=
  <[ CanonicalMIMEHeaderKey key := [value] ]> h.

Definition Add (h : Header) (key value : string) : Header :=
  <[ CanonicalMIMEHeaderKey key := default [] (h !! CanonicalMIMEHeaderKey key) ++ [value] ]> h.

Definition Del (h : Header) (key : string) : Header :=
  delete (CanonicalMIMEHeaderKey key) h.

(** *** Readers *)

(** An [io.Reader] seen from its consumer: the bytes it still yields and,
    when reading ends in a failure instead of EOF, the error. *)
Record Reader := { pending : string; failure : option error }.

(** [io.NopCloser(bytes.NewBuffer(b))] *)
Definition NewBuffer (b : string) : Reader := {| pending := b; failure := None |}.

(** [io.Copy(dst, src)] with [dst] an empty [bytes.Buffer]: the bytes
    read, the error if any, and the reader afterwards. *)
Definition Copy (src : Reader) : string * option error * Reader :=
  (pending src, failure src, {| pending := EmptyString; failure := failure src |}).

Fixpoint take_bytes (n : N) (s : string) : string :=
  match s with
  | EmptyString => EmptyString
  | String c s' => if (n =? 0)%N then EmptyString else String c (take_bytes (N.pred n) s')
  end.

Fixpoint drop_bytes (n : N) (s : string) : string :=
  match s with
  | EmptyString => EmptyString
  | String c s' => if (n =? 0)%N then s else drop_bytes (N.pred n) s'
  end.

Fixpoint len (s : string) : N :=
  match s with
  | EmptyString => 0%N
  | String _ s' => N.succ (len s')
  end.

(** [io.ReadAll(io.LimitReader(src, n))] *)
Definition ReadAllLimited (n : N) (src : Reader) : string * option error * Reader :=
  if (len (pending src) <? n)%N
  then Copy src
  else (take_bytes n (pending src), None,
        {| pending := drop_bytes n (pending src); failure := failure src |}).

(** *** Response writers *)

Record Conn := { conn_id : nat }.
Record ReadWriter := { rw_id : nat }.
Definition HijackResult : Type := option Conn * option ReadWriter * option error.

(** What the client is to receive: the header map, the status with the
    headers sent along with it (once the header is written), and the
    body. *)
Definition Content : Type := Header * option (Z * Header) * string.

(** [io.Copy(buf, w)] on a sink that is an [io.Reader]: the bytes it
    yields, the error if reading fails, and what the reads make of the
    response.  Neither the sources nor [net/http] say what a sink's
    [Read] does, so it is whatever the sink brings along. *)
Definition ReadBack : Type := Content -> string * option error * Content.

(** A response sink behind the [http.ResponseWriter] interface, as the
    server's own writer and [httptest.ResponseRecorder] behave: the
    header map stays editable, the first [WriteHeader] with a final
    status fixes the status together with a snapshot of the headers,
    later ones are ignored, and a [Write] or [Flush] before any
    [WriteHeader] sends 200.  [interims] are the 1xx responses sent
    ahead of the final one, by a sink that sends them ([interim]: the
    server's writer does, the recorder takes a 1xx code as the status).
    The last three fields are the optional interfaces the dynamic type
    may implement. *)
Record ResponseWriter := {
  header : Header;
  sent : option (Z * Header);
  body : string;
  flushed : bool;
  interims : list Z;
  interim : bool;
  flusher : bool;
  hijacker : option HijackResult;
  reader : option ReadBack
}.

Definition with_header (w : ResponseWriter) (h : Header) : ResponseWriter :=
  {| header := h; sent := sent w; body := body w; flushed := flushed w;
     interims := interims w; interim := interim w;
     flusher := flusher w; hijacker := hijacker w; reader := reader w |}.

(** [checkWriteHeaderCode]: a code outside 100..999 makes [WriteHeader]
    panic. *)
Definition validCode (code : Z) : bool := (100 <=? code) && (code <=? 999).

(** The codes the server sends as an interim response: 1xx but 101. *)
Definition interimCode (code : Z) : bool :=
  (100 <=? code) && (code <=? 199) && negb (code =? 101).

(** [w.WriteHeader(code)].  After the header was written the call is
    ignored.  With a code outside 100..999 the call panics before it
    touches the sink: the sink is returned as it was (the panic itself,
    which ends the handler, is not part of this model of the sink). *)
Definition WriteHeader (w : ResponseWriter) (code : Z) : ResponseWriter :=
  match sent w with
  | Some _ => w
  | None =>
      if negb (validCode code) then w
      else if interim w && interimCode code then
        {| header := header w; sent := None; body := body w;
           flushed := flushed w; interims := interims w ++ [code];
           interim := interim w;
           flusher := flusher w; hijacker := hijacker w; reader := reader w |}
      else
        {| header := header w; sent := Some (code, header w); body := body w;
           flushed := flushed w; interims := interims w; interim := interim w;
           flusher := flusher w; hijacker := hijacker w; reader := reader w |}
  end.

Definition StatusOK : Z := 200.
Definition StatusBadRequest : Z := 400.
Definition StatusInternalServerError : Z := 500.

Definition Write (w : ResponseWriter) (b : string) : ResponseWriter :=
  let w := WriteHeader w StatusOK in
  {| header := header w; sent := sent w; body := body w +:+ b;
     flushed := flushed w; interims := interims w; interim := interim w;
     flusher := flusher w; hijacker := hijacker w; reader := reader w |}.

(** [Flush] of a sink that implements [http.Flusher]. *)
Definition Flush (w : ResponseWriter) : ResponseWriter :=
  let w := WriteHeader w StatusOK in
  {| header := header w; sent := sent w; body := body w;
     flushed := true; interims := interims w; interim := interim w;
     flusher := flusher w; hijacker := hijacker w; reader := reader w |}.

Definition content (w : ResponseWriter) : Content := (header w, sent w, body w).

(** The sink after its [Read] made [c] of the response. *)
Definition with_content (w : ResponseWriter) (c : Content) : ResponseWriter :=
  {| header := fst (fst c); sent := snd (fst c); body := snd c;
     flushed := flushed w; interims := interims w; interim := interim w;
     flusher := flusher w; hijacker := hijacker w; reader := reader w |}.

(** The sink is not an [io.Reader], or reading it leaves the response as
    it is. *)
Definition readsAside (w : ResponseWriter) : Prop :=
  match reader w with
  | Some read => forall c, snd (read c) = c
  | None => True
  end.

(** What the client receives: status, headers and body.  A sink that
    never had its header written answers 200 with the current map. *)
Definition response (w : ResponseWriter) : Z * Header * string :=
  match sent w with
  | Some (code, h) => (code, h, body w)
  | None => (StatusOK, header w, body w)
  end.

Definition newline : string := String (ascii_of_N 10) EmptyString.

(** [http.Error(w, msg, code)] *)
Definition Error (w : ResponseWriter) (msg : string) (code : Z) : ResponseWriter :=
  let h := Del (header w) "Content-Length" in
  let h := Set_ h "Content-Type" "text/plain; charset=utf-8" in
  let h := Set_ h "X-Content-Type-Options" "nosniff" in
  let w := WriteHeader (with_header w h) code in
  Write w (msg +:+ newline).

(** *** Requests *)
Record Request := {
  Method : string;
  RequestURI : string;
  Host : string;
  RemoteAddr : string;
  Path : string;
  RawQuery : string;
  Header_ : Header;
  Body : option Reader;
  Form : option Values;
  PostForm : option Values;
  Context_ : Ctx.Context
}.

Definition UserAgent (r : Request) : string := Get (Header_ r) "User-Agent".

Definition WithContext (r : Request) (ctx : Ctx.Context) : Request :=
  {| Method := Method r; RequestURI := RequestURI r; Host := Host r;
     RemoteAddr := RemoteAddr r; Path := Path r; RawQuery := RawQuery r;
     Header_ := Header_ r; Body := Body r; Form := Form r;
     PostForm := PostForm r; Context_ := ctx |}.

Definition with_body (r : Request) (b : option Reader) : Request :=
  {| Method := Method r; RequestURI := RequestURI r; Host := Host r;
     RemoteAddr := RemoteAddr r; Path := Path r; RawQuery := RawQuery r;
     Header_ := Header_ r; Body := b; Form := Form r;
     PostForm := PostForm r; Context_ := Context_ r |}.

Definition with_forms (r : Request) (form postForm : option Values) : Request :=
  {| Method := Method r; RequestURI := RequestURI r; Host := Host r;
     RemoteAddr := RemoteAddr r; Path := Path r; RawQuery := RawQuery r;
     Header_ := Header_ r; Body := Body r; Form := form;
     PostForm := postForm; Context_ := Context_ r |}.

End Http.

(** ** [go.opentelemetry.io/otel/propagation] *)
Module Propagation.

(** [propagator.Inject(ctx, propagation.HeaderCarrier(h))]: the carrier's
    [Set] is [h.Set], called once for each field the propagator writes
    for the span held by [ctx] ([traceparent], [tracestate]).  Which
    fields, with which values, is the library's business: they are the
    argument [fields]. *)
Definition Inject (fields : list (string * string)) (h : Http.Header) : Http.Header :=
  fold_left (fun h field => Http.Set_ h (fst field) (snd field)) fields h.

End Propagation.

(** ** The functions of the Go standard library the middleware calls

    [encoding/json], [encoding/xml], [mime] and [net/url] are not part of
    the repository; the middleware only branches on whether they return an
    error, so they are an interface here.  So is [strings.ToLower], whose
    result on a string with bytes outside ASCII depends on the Unicode
    tables: the interface fixes what it does to the ASCII bytes, which
    is all the middleware's allow-list can rely on. *)
Class Decoders := {
  (** [json.Unmarshal(data, &v)] with [v] an empty [interface{}] *)
  json_Unmarshal : string -> Any + error;
  (** [xml.Unmarshal(data, &v)] with [v] an empty [interface{}]: the
      decoder skips the root element and leaves [v] nil, or fails *)
  xml_Unmarshal : string -> option error;
  (** [mime.ParseMediaType(v)], without the parameters *)
  mime_ParseMediaType : string -> string * option error;
  (** [url.ParseQuery(query)]: the map is returned also on error *)
  url_ParseQuery : string -> Http.Values * option error;
  (** [strings.ToLower(s)] *)
  strings_ToLower : string -> string;
  (** on a string of ASCII bytes it lowers the letters A to Z *)
  strings_ToLower_ascii :
    forall s, Strings.is_ascii s = true -> strings_ToLower s = Strings.lower s;
  (** it maps rune by rune and every ASCII byte is a rune of its own: a
      run of ASCII bytes comes out lowered, and in one piece, whatever
      surrounds it *)
  strings_ToLower_run :
    forall s p, Strings.is_ascii p = true ->
      Strings.Contains (Strings.lower s) p = true ->
      Strings.Contains (strings_ToLower s) p = true
}.

(** ** [net/http]: [Request.ParseForm] *)
Module HttpForm.
Import Http.
Section WithDecoders.
Context `{Decoders}.

(** 10 MB, the cap [parsePostForm] puts on a body that is not already
    wrapped by [http.MaxBytesReader]. *)
Definition maxFormSize : N := 10485760.

Definition first_error (err e : option error) : option error :=
  match err with Some _ => err | None => e end.

(** [copyValues(dst, src)] appends the values of [src] key by key. *)
Definition copyValues (dst src : Values) : Values :=
  union_with (fun a b => Some (a ++ b)) dst src.

Definition parsePostForm (r : Request) : option Values * option error * Request :=
  match Body r with
  | None => (None, Some "missing form body"%string, r)
  | Some rd =>
      let ct := Get (Header_ r) "Content-Type" in
      let ct := if String.eqb ct EmptyString then "application/octet-stream"%string else ct in
      let '(ct, err) := mime_ParseMediaType ct in
      if String.eqb ct "application/x-www-form-urlencoded" then
        let '(b, e, rd') := ReadAllLimited (maxFormSize + 1) rd in
        let r' := with_body r (Some rd') in
        match e with
        | Some _ => (None, first_error err e, r')
        | None =>
            if (maxFormSize <? len b)%N
            then (None, Some "http: POST too large"%string, r')
            else let '(vs, e) := url_ParseQuery b in
                 (Some vs, first_error err e, r')
        end
      else (None, err, r)
  end.

Definition reads_body (method : string) : bool :=
  String.eqb method "POST" || String.eqb method "PUT" || String.eqb method "PATCH".

(** [r.ParseForm()]: the error and the request afterwards.  For POST,
    PUT and PATCH it reads the body. *)
Definition ParseForm (r : Request) : option error * Request :=
  let '(postForm, err, r1) :=
    match PostForm r with
    | Some pf => (pf, None, r)
    | None =>
        let '(pf, err, r1) :=
          if reads_body (Method r) then parsePostForm r else (None, None, r) in
        (default ∅ pf, err, r1)
    end in
  match Form r1 with
  | Some f => (err, with_forms r1 (Some f) (Some postForm))
  | None =>
      let '(newValues, e) := url_ParseQuery (RawQuery r1) in
      let form :=
        if decide (map_size postForm = 0%nat) then newValues
        else copyValues (copyValues ∅ postForm) newValues in
      (first_error err e, with_forms r1 (Some form) (Some postForm))
  end.
End WithDecoders.
End HttpForm.

(** ** [pkg/middleware]: the logging middleware *)
Module Middleware.
Import Logrus.

Record LoggerOptions := {
  LogRequestBody : bool;
  LogResponseBody : bool;
  MaxBodyLength : Z
}.

Definition NewLoggerOptions (logRequestBody logResponseBody : bool) (maxBodyLength : Z)
  : LoggerOptions :=
  {| LogRequestBody := logRequestBody;
     LogResponseBody := logResponseBody;
     MaxBodyLength := maxBodyLength |}.

Definition DefaultLoggerOptions : LoggerOptions := NewLoggerOptions true true 512.

(** The fields of [configuration.Configuration] the middleware reads. *)
Record Configuration := { RealIPHeader : string; RequestIDHeader : string }.

(** *** The response writer wrapper *)

Record statusResponseWriter := {
  ResponseWriter : Http.ResponseWriter;
  statusCode : Z
}.

Definition WriteHeader (w : statusResponseWriter) (code : Z) : statusResponseWriter :=
  {| ResponseWriter := Http.WriteHeader (ResponseWriter w) code; statusCode := code |}.

Definition Status (w : statusResponseWriter) : Z :=
  if statusCode w =? 0 then Http.StatusOK else statusCode w.

Definition Flush (w : statusResponseWriter) : statusResponseWriter :=
  if Http.flusher (ResponseWriter w)
  then {| ResponseWriter := Http.Flush (ResponseWriter w); statusCode := statusCode w |}
  else w.

Definition Hijack (w : statusResponseWriter) : Http.HijackResult :=
  match Http.hijacker (ResponseWriter w) with
  | Some result => result
  | None => (None, None, Some "underlying ResponseWriter does not implement http.Hijacker"%string)
  end.

Definition wrapResponseWriter (w : Http.ResponseWriter) : statusResponseWriter :=
  {| ResponseWriter := w; statusCode := 0 |}.

(** Two states of a wrapper that show the client the same response. *)
Definition same_response (w w' : statusResponseWriter) : Prop :=
  Http.response (ResponseWriter w') = Http.response (ResponseWriter w)
  /\ Http.header (ResponseWriter w') = Http.header (ResponseWriter w)
  /\ Http.body (ResponseWriter w') = Http.body (ResponseWriter w)
  /\ Status w' = Status w.

(** The methods promoted from the embedded [http.ResponseWriter]. *)
Definition Write (w : statusResponseWriter) (b : string) : statusResponseWriter :=
  {| ResponseWriter := Http.Write (ResponseWriter w) b; statusCode := statusCode w |}.

Definition SetHeader (w : statusResponseWriter) (key value : string) : statusResponseWriter :=
  {| ResponseWriter :=
       Http.with_header (ResponseWriter w) (Http.Set_ (Http.header (ResponseWriter w)) key value);
     statusCode := statusCode w |}.

(** What a handler can do to the writer it is given, and the same calls
    made on a bare sink (which flushes only if it is a flusher). *)
Inductive Call :=
| CallWriteHeader (code : Z)
| CallWrite (b : string)
| CallSetHeader (key value : string)
| CallFlush.

Definition perform (w : statusResponseWriter) (c : Call) : statusResponseWriter :=
  match c with
  | CallWriteHeader code => WriteHeader w code
  | CallWrite b => Write w b
  | CallSetHeader k v => SetHeader w k v
  | CallFlush => Flush w
  end.

Definition perform_bare (w : Http.ResponseWriter) (c : Call) : Http.ResponseWriter :=
  match c with
  | CallWriteHeader code => Http.WriteHeader w code
  | CallWrite b => Http.Write w b
  | CallSetHeader k v => Http.with_header w (Http.Set_ (Http.header w) k v)
  | CallFlush => if Http.flusher w then Http.Flush w else w
  end.

(** The status codes passed to [WriteHeader] in a run of calls, in order. *)
Definition codes (cs : list Call) : list Z :=
  omap (fun c => match c with CallWriteHeader code => Some code | _ => None end) cs.

(** *** Helpers *)

(** What the surroundings decide for one request: the clock, the value
    [uuid.New()] returns, the span context of the span the global tracer
    starts, and the fields the propagator injects for it. *)
Record Env := {
  start : Z;
  duration : Z;
  uuid : string;
  span : Otel.SpanContext;
  injected : list (string * string)
}.

Definition getRealIP (r : Http.Request) (conf : Configuration) : string :=
  if (0 <? Http.len (Http.Get (Http.Header_ r) (RealIPHeader conf)))%N
  then Http.Get (Http.Header_ r) (RealIPHeader conf)
  else Http.RemoteAddr r.

Definition getRequestID (r : Http.Request) (conf : Configuration) (env : Env) : string :=
  if (0 <? Http.len (Http.Get (Http.Header_ r) (RequestIDHeader conf)))%N
  then Http.Get (Http.Header_ r) (RequestIDHeader conf)
  else uuid env.

Definition formatHeaders (h : Http.Header) : gmap string string := omap head h.

Definition formatFormValues (f : Http.Values) : gmap string string :=
  (fun values => Strings.Join values ",") <$> f.

(** *** [WithLogger] *)

(** [http.Handler]: what [next.ServeHTTP(w, r)] does to the writer. *)
Definition Handler := statusResponseWriter -> Http.Request -> statusResponseWriter.

(** What one run of the middleware leaves behind: the sink, the events
    logged in order, and the arguments [next.ServeHTTP] was called with
    ([None] when it was not called). *)
Record Outcome := {
  writer : Http.ResponseWriter;
  events : list Event;
  served : option (statusResponseWriter * Http.Request)
}.

Section WithDecoders.
Context `{Decoders}.

Definition shouldLogBody (contentType : string) : bool :=
  let contentType := strings_ToLower contentType in
  Strings.Contains contentType "application/json" ||
  Strings.Contains contentType "application/x-www-form-urlencoded" ||
  Strings.Contains contentType "application/xml" ||
  Strings.Contains contentType "text/xml".

(** Lines 171-209: the request body.  The result is the sink, the
    events, and the request to go on with ([None] after [return]). *)
Definition logRequestBody (opts : LoggerOptions) (fieldsLogger : Fields)
    (w : Http.ResponseWriter) (r : Http.Request)
  : Http.ResponseWriter * list Event * option Http.Request :=
  let reqContentType := Http.Get (Http.Header_ r) "Content-Type" in
  let logReqBody := LogRequestBody opts && shouldLogBody reqContentType in
  match (if logReqBody then Http.Body r else None) with
  | None => (w, [], Some r)
  | Some body =>
      let '(bodyBuf, err, _) := Http.Copy body in
      match err with
      | Some err =>
          (Http.Error w "failed to read request-body" Http.StatusInternalServerError,
           [Error (WithError fieldsLogger err) "failed to read request-body"],
           None)
      | None =>
          let r := Http.with_body r (Some (Http.NewBuffer bodyBuf)) in
          if Strings.Contains reqContentType "application/json" then
            match json_Unmarshal bodyBuf with
            | inr err =>
                (Http.Error w "failed to parse JSON request-body" Http.StatusBadRequest,
                 [Error (WithError fieldsLogger err) "failed to parse JSON request-body"],
                 None)
            | inl jsonRequestBody =>
                (w,
                 [Info (WithField fieldsLogger "request-body" (FAny jsonRequestBody))
                    "JSON request-body parsed"],
                 Some r)
            end
          else if Strings.Contains reqContentType "application/x-www-form-urlencoded" then
            let '(err, r) := HttpForm.ParseForm r in
            match err with
            | Some err =>
                (Http.Error w "failed to parse form-urlencoded request-body"
                   Http.StatusBadRequest,
                 [Error (WithError fieldsLogger err)
                    "failed to parse form-urlencoded request-body"],
                 None)
            | None =>
                (w,
                 [Info (WithField fieldsLogger "request-body"
                          (FStrings (formatFormValues (default ∅ (Http.Form r)))))
                    "form-urlencoded request-body parsed"],
                 Some r)
            end
          else if Strings.Contains reqContentType "application/xml"
                  || Strings.Contains reqContentType "text/xml" then
            match xml_Unmarshal bodyBuf with
            | Some err =>
                (Http.Error w "failed to parse XML request-body" Http.StatusBadRequest,
                 [Error (WithError fieldsLogger err) "failed to parse XML request-body"],
                 None)
            | None =>
                (w,
                 [Info (WithField fieldsLogger "request-body" (FAny ANil))
                    "XML request-body parsed"],
                 Some r)
            end
          else
            (w,
             [Info (WithField fieldsLogger "request-body" (FString bodyBuf))
                "request-body parsed"],
             Some r)
      end
  end.

(** The wrapper after the reads of [io.Copy] on its sink. *)
Definition with_content (w : statusResponseWriter) (c : Http.Content) : statusResponseWriter :=
  {| ResponseWriter := Http.with_content (ResponseWriter w) c;
     statusCode := statusCode w |}.

(** Lines 268-302: the response body, after the handler has returned. *)
Definition logResponseBody (opts : LoggerOptions) (fieldsLogger : Fields)
    (wrappedWriter : statusResponseWriter) : statusResponseWriter * list Event :=
  let respContentType :=
    Http.Get (Http.header (ResponseWriter wrappedWriter)) "Content-Type" in
  let logRespBody := LogResponseBody opts && shouldLogBody respContentType in
  if logRespBody then
    let wrappedWriter := Flush wrappedWriter in
    match Http.reader (ResponseWriter wrappedWriter) with
    | Some read =>
        let '(bodyBuf, err, c) := read (Http.content (ResponseWriter wrappedWriter)) in
        let wrappedWriter := with_content wrappedWriter c in
        match err with
        | Some err =>
            (wrappedWriter,
             [Error (WithError fieldsLogger err) "failed to read response-body"])
        | None =>
            if Strings.Contains respContentType "application/json" then
              match json_Unmarshal bodyBuf with
              | inr err =>
                  (wrappedWriter,
                   [Error (WithError fieldsLogger err) "failed to parse JSON response-body"])
              | inl jsonResponseBody =>
                  (wrappedWriter,
                   [Info (WithField fieldsLogger "response-body" (FAny jsonResponseBody))
                      "JSON response-body parsed"])
              end
            else if Strings.Contains respContentType "application/xml"
                    || Strings.Contains respContentType "text/xml" then
              match xml_Unmarshal bodyBuf with
              | Some err =>
                  (wrappedWriter,
                   [Error (WithError fieldsLogger err) "failed to parse XML response-body"])
              | None =>
                  (wrappedWriter,
                   [Info (WithField fieldsLogger "response-body" (FAny ANil))
                      "XML response-body parsed"])
              end
            else
              (wrappedWriter,
               [Info (WithField fieldsLogger "response-body" (FString bodyBuf))
                  "response-body parsed"])
        end
    | None =>
        (wrappedWriter,
         [Error fieldsLogger "underlying ResponseWriter does not implement io.Reader"])
    end
  else (wrappedWriter, []).

(** The handler function [WithLogger(logger, opts)(next)] serves with.
    [propagator.Extract] and [tracer.Start] leave the handler's context
    with the started span as the current span; the layer [Extract] may
    put under the same key is hidden by it.  The span's attributes leave
    no trace in the response or the log and are not part of the
    outcome. *)
Definition WithLogger (opts : LoggerOptions) (conf : Configuration) (next : Handler)
    (env : Env) (w : Http.ResponseWriter) (r : Http.Request) : Outcome :=
  let requestID := getRequestID r conf env in
  let fieldsLogger : Fields :=
    {[ "request-id" := FString requestID;
       "path" := FString (Http.RequestURI r);
       "method" := FString (Http.Method r) ]} in
  let started :=
    Info (WithFields fieldsLogger
            {[ "timestamp" := FInt (start env);
               "host" := FString (Http.Host r);
               "ip" := FString (getRealIP r conf);
               "user-agent" := FString (Http.UserAgent r);
               "request-headers" := FStrings (formatHeaders (Http.Header_ r)) ]})
      "request started" in
  match logRequestBody opts fieldsLogger w r with
  | (w, evs, None) => {| writer := w; events := started :: evs; served := None |}
  | (w, evs, Some r) =>
      let ctx := Ctx.WithValue (Http.Context_ r) Ctx.SpanKey (Ctx.VSpan (span env)) in
      let ctx := Ctx.WithValue ctx Ctx.LoggerKey (Ctx.VLogger fieldsLogger) in
      let ctx := Ctx.WithValue ctx Ctx.RequestStart (Ctx.VTime (start env)) in
      let w := Http.with_header w (Propagation.Inject (injected env) (Http.header w)) in
      let '(w, fieldsLogger) :=
        if Otel.HasTraceID (span env) then
          let traceID := Otel.TraceID (span env) in
          let spanID := Otel.SpanID (span env) in
          let h := Http.Set_ (Http.header w) "X-Trace-Id" traceID in
          let h := Http.Set_ h "X-Span-Id" spanID in
          (Http.with_header w h,
           WithFields fieldsLogger
             {[ "trace-id" := FString traceID; "span-id" := FString spanID ]})
        else (w, fieldsLogger) in
      let w := Http.with_header w (Http.Set_ (Http.header w) "X-Request-Id" requestID) in
      let wrappedWriter := wrapResponseWriter w in
      let request := Http.WithContext r ctx in
      let wrappedWriter' := next wrappedWriter request in
      let statusCode := Status wrappedWriter' in
      let completed :=
        Info (WithFields fieldsLogger
                {[ "duration" := FInt (duration env);
                   "completed" := FBool true;
                   "status-code" := FInt statusCode;
                   "status-class" := FInt (statusCode ÷ 100);
                   "response-headers" :=
                     FStrings (formatHeaders (Http.header (ResponseWriter wrappedWriter'))) ]})
          "request completed" in
      let '(final, evs') := logResponseBody opts fieldsLogger wrappedWriter' in
      {| writer := ResponseWriter final;
         events := started :: evs ++ completed :: evs';
         served := Some (wrappedWriter, request) |}
  end.
End WithDecoders.
End Middleware.

(** ** The encoders of the Go standard library the request builder calls *)
Class Encoders := {
  (** the Go values a test passes to [Request.JSON] *)
  GoValue : Type;
  (** [json.Marshal(v)] *)
  json_Marshal : GoValue -> string + error;
  (** [url.Values.Encode()] *)
  url_Encode : Http.Values -> string
}.

(** ** [mime/multipart]: the writer *)
Module Multipart.

Definition quote : string := String (ascii_of_N 34) EmptyString.
Definition backslash : string := String (ascii_of_N 92) EmptyString.
Definition crlf : string := String (ascii_of_N 13) (String (ascii_of_N 10) EmptyString).

(** [escapeQuotes]: a backslash before every backslash and quote, and a
    percent escape in place of a carriage return or a line feed. *)
Fixpoint escapeQuotes (s : string) : string :=
  match s with
  | EmptyString => EmptyString
  | String c s' =>
      let n := N_of_ascii c in
      if ((n =? 34) || (n =? 92))%N
      then backslash +:+ String c (escapeQuotes s')
      else if (n =? 13)%N then "%0D" +:+ escapeQuotes s'
      else if (n =? 10)%N then "%0A" +:+ escapeQuotes s'
      else String c (escapeQuotes s')
  end.

(** The buffer written so far, the boundary, and whether a part was
    started. *)
Record Writer := { buffer : string; boundary : string; lastpart : bool }.

Definition NewWriter (boundary : string) : Writer :=
  {| buffer := EmptyString; boundary := boundary; lastpart := false |}.

(** [CreatePart] with the header lines already rendered in key order. *)
Definition CreatePart (w : Writer) (headerLines : string) : Writer :=
  let delimiter :=
    if lastpart w then crlf +:+ "--" +:+ boundary w +:+ crlf
    else "--" +:+ boundary w +:+ crlf in
  {| buffer := buffer w +:+ delimiter +:+ headerLines +:+ crlf;
     boundary := boundary w; lastpart := true |}.

Definition PartWrite (w : Writer) (content : string) : Writer :=
  {| buffer := buffer w +:+ content; boundary := boundary w; lastpart := lastpart w |}.

Definition CreateFormFile (w : Writer) (fieldname filename : string) : Writer :=
  CreatePart w
    ("Content-Disposition: form-data; name=" +:+ quote +:+ escapeQuotes fieldname +:+ quote
     +:+ "; filename=" +:+ quote +:+ escapeQuotes filename +:+ quote +:+ crlf
     +:+ "Content-Type: application/octet-stream" +:+ crlf).

Definition WriteField (w : Writer) (fieldname value : string) : Writer :=
  PartWrite
    (CreatePart w
       ("Content-Disposition: form-data; name=" +:+ quote +:+ escapeQuotes fieldname
        +:+ quote +:+ crlf))
    value.

Definition Close (w : Writer) : Writer :=
  {| buffer := buffer w +:+ crlf +:+ "--" +:+ boundary w +:+ "--" +:+ crlf;
     boundary := boundary w; lastpart := lastpart w |}.

(** The characters that force the boundary parameter to be quoted. *)
Definition tspecial (c : ascii) : bool :=
  existsb (N.eqb (N_of_ascii c))
    [40; 41; 60; 62; 64; 44; 59; 58; 92; 34; 47; 91; 93; 63; 61; 32]%N.

Fixpoint ContainsAny (s : string) (p : ascii -> bool) : bool :=
  match s with
  | EmptyString => false
  | String c s' => p c || ContainsAny s' p
  end.

Definition FormDataContentType (w : Writer) : string :=
  let b := boundary w in
  let b := if ContainsAny b tspecial then quote +:+ b +:+ quote else b in
  "multipart/form-data; boundary=" +:+ b.

End Multipart.

(** ** [pkg/composables]: attaching values to a context *)
Module Composables.
Import Ctx.

(** Modelled from the spec: [composables.WithUser] is not among the
    sources; each attachment returns a new context layer and never
    changes a previous one. *)
Definition WithUser (ctx : Context) (u : string) : Context := WithValue ctx UserKey (VUser u).

(** Modelled from the spec: [composables.WithPool], a new layer. *)
Definition WithPool (ctx : Context) (pool : nat) : Context := WithValue ctx PoolKey (VPool pool).

(** Modelled from the spec: [composables.WithSession], a new layer. *)
Definition WithSession (ctx : Context) : Context := WithValue ctx SessionKey VSession.

(** Modelled from the spec: [composables.WithTenantID], a new layer. *)
Definition WithTenantID (ctx : Context) (id : string) : Context :=
  WithValue ctx TenantIDKey (VTenantID id).

(** Modelled from the spec: [composables.WithParams], a new layer. *)
Definition WithParams (ctx : Context) (p : Params) : Context :=
  WithValue ctx ParamsKey (VParams p).

(** Modelled from the spec: [composables.WithPageCtx], a new layer. *)
Definition WithPageCtx (ctx : Context) (p : PageContext) : Context :=
  WithValue ctx PageContextKey (VPageContext p).

End Composables.

(** ** [pkg/itf]: the integration-test suite *)
Module Itf.
Import Ctx.

Definition MiddlewareFunc := Context -> Http.Request -> Context.
Definition HookFunc := Context -> Context.

Record TestEnvironment := {
  User : option string;
  Pool : nat;
  TenantID : string;
  App : nat
}.

Record Suite := {
  env : TestEnvironment;
  user : option string;
  middlewares : list MiddlewareFunc;
  beforeEach : list HookFunc
}.

Definition WithMiddleware (s : Suite) (middleware : MiddlewareFunc) : Suite :=
  {| env := env s; user := user s;
     middlewares := middlewares s ++ [middleware]; beforeEach := beforeEach s |}.

Definition BeforeEach (s : Suite) (hook : HookFunc) : Suite :=
  {| env := env s; user := user s;
     middlewares := middlewares s; beforeEach := beforeEach s ++ [hook] |}.

(** [for _, hook := range s.beforeEach { ctx = hook(ctx) }] *)
Definition runHooks (hooks : list HookFunc) (ctx : Context) : Context :=
  fold_left (fun ctx hook => hook ctx) hooks ctx.

(** [for _, mw := range s.middlewares { ctx = mw(ctx, r) }] *)
Definition runMiddlewares (mws : list MiddlewareFunc) (r : Http.Request) (ctx : Context)
  : Context :=
  fold_left (fun ctx mw => mw ctx r) mws ctx.

(** Lines 138-175 of [setupMiddleware]: the attachments between the two
    loops. *)
Definition attach (s : Suite) (r : Http.Request) (ctx : Context) : Context :=
  let currentUser := match user s with Some u => Some u | None => User (env s) end in
  let ctx := match currentUser with
             | Some u => Composables.WithUser ctx u
             | None => ctx
             end in
  let ctx := Composables.WithPool ctx (Pool (env s)) in
  let ctx := Composables.WithSession ctx in
  let ctx := Composables.WithTenantID ctx (TenantID (env s)) in
  let ctx := WithValue ctx AppKey (VApp (App (env s))) in
  let ctx := WithValue ctx HeadKey VNopComponent in
  let ctx := WithValue ctx LogoKey VNopComponent in
  let fieldsLogger : Logrus.Fields :=
    {[ "test" := Logrus.FBool true; "path" := Logrus.FString (Http.Path r) ]} in
  let ctx := WithValue ctx LoggerKey (VLogger fieldsLogger) in
  let params :=
    {| IP := "127.0.0.1"; UserAgent := "test-agent";
       Authenticated := bool_decide (is_Some currentUser) |} in
  let ctx := Composables.WithParams ctx params in
  Composables.WithPageCtx ctx
    {| Locale := "en"; URL := Http.Path r; Localizer := "en" |}.

(** The handler installed by [setupMiddleware]: the request it hands to
    [next.ServeHTTP]. *)
Definition setupMiddleware (s : Suite) (r : Http.Request) : Http.Request :=
  let ctx := Http.Context_ r in
  let ctx := runHooks (beforeEach s) ctx in
  let ctx := attach s r ctx in
  let ctx := runMiddlewares (middlewares s) r ctx in
  Http.WithContext r ctx.

(** The order of the pipeline as the specification words it: standard
    attachments first, then the before-each hooks and the custom
    middleware functions. *)
Definition setupMiddleware_as_specified (s : Suite) (r : Http.Request) : Http.Request :=
  let ctx := Http.Context_ r in
  let ctx := attach s r ctx in
  let ctx := runHooks (beforeEach s) ctx in
  let ctx := runMiddlewares (middlewares s) r ctx in
  Http.WithContext r ctx.

(** *** The request builder *)

Record Request := {
  method : string;
  path : string;
  headers : Http.Header;
  body : option string
}.

Definition newRequest (method path : string) : Request :=
  {| method := method; path := path; headers := ∅; body := None |}.

Record MultipartFile := { FieldName : string; FileName : string; Content : string }.

Record MultipartData := { files : list MultipartFile; formValues : option Http.Values }.

Definition NewMultipart : MultipartData := {| files := []; formValues := None |}.

Definition AddFile (m : MultipartData) (fieldName fileName content : string) : MultipartData :=
  {| files := files m ++ [{| FieldName := fieldName; FileName := fileName; Content := content |}];
     formValues := formValues m |}.

Definition AddField (m : MultipartData) (key value : string) : MultipartData :=
  let vs := default ∅ (formValues m) in
  {| files := files m;
     formValues := Some (<[ key := default [] (vs !! key) ++ [value] ]> vs) |}.

Section WithEncoders.
Context `{Encoders}.

(** [None] stands for [t.Fatalf], which ends the test. *)
Definition JSON (r : Request) (v : GoValue) : option Request :=
  match json_Marshal v with
  | inr _ => None
  | inl data =>
      Some {| method := method r; path := path r;
              headers := Http.Set_ (headers r) "Content-Type" "application/json";
              body := Some data |}
  end.

Definition Form (r : Request) (values : Http.Values) : Request :=
  {| method := method r; path := path r;
     headers := Http.Set_ (headers r) "Content-Type" "application/x-www-form-urlencoded";
     body := Some (url_Encode values) |}.

(** [range data.formValues] visits the keys in an order the runtime
    picks; [order] is that order.  [boundary] is the random boundary
    [multipart.NewWriter] draws.  Writing into a [bytes.Buffer] never
    fails, so no [Fatalf] is reached. *)
Definition MultipartData_ (r : Request) (data : MultipartData)
    (boundary : string) (order : list string) : Request :=
  let writer := Multipart.NewWriter boundary in
  let writer :=
    fold_left
      (fun writer file =>
         Multipart.PartWrite
           (Multipart.CreateFormFile writer (FieldName file) (FileName file))
           (Content file))
      (files data) writer in
  let writer :=
    match formValues data with
    | Some values =>
        fold_left
          (fun writer key =>
             fold_left (fun writer value => Multipart.WriteField writer key value)
               (default [] (values !! key)) writer)
          order writer
    | None => writer
    end in
  let writer := Multipart.Close writer in
  {| method := method r; path := path r;
     headers := Http.Set_ (headers r) "Content-Type" (Multipart.FormDataContentType writer);
     body := Some (Multipart.buffer writer) |}.

(** One body-encoding call of the builder. *)
Inductive Encoding :=
| EncJSON (v : GoValue)
| EncForm (values : Http.Values)
| EncMultipart (data : MultipartData) (boundary : string) (order : list string).

Definition encode (r : Request) (e : Encoding) : option Request :=
  match e with
  | EncJSON v => JSON r v
  | EncForm values => Some (Form r values)
  | EncMultipart data boundary order => Some (MultipartData_ r data boundary order)
  end.

(** A chain of body-encoding calls, in call order. *)
Fixpoint encodeAll (r : Request) (es : list Encoding) : option Request :=
  match es with
  | [] => Some r
  | e :: es' =>
      match encode r e with
      | Some r' => encodeAll r' es'
      | None => None
      end
  end.
End WithEncoders.
End Itf.

(** ** Concrete decoders, encoders and requests to run the models on *)
Module Fixtures.

Definition is_digit (c : ascii) : bool :=
  let n := N_of_ascii c in ((48 <=? n) && (n <=? 57))%N.

Fixpoint all_digits (s : string) : bool :=
  match s with
  | EmptyString => true
  | String c s' => is_digit c && all_digits s'
  end.

(** A JSON decoder for scalar documents: the three literals and
    unsigned integers.  Every other input is refused, which is what
    [encoding/json] does on the inputs that are not JSON used below. *)
Definition scalar_json (s : string) : Any + error :=
  if String.eqb s "null" then inl ANil
  else if String.eqb s "true" then inl (ABool true)
  else if String.eqb s "false" then inl (ABool false)
  else match s with
       | String c rest =>
           if is_digit c && all_digits rest
              && (negb (Ascii.eqb c "0"%char) || String.eqb rest EmptyString)
           then inl (ANumber s)
           else inr "invalid character looking for beginning of value"%string
       | EmptyString => inr "unexpected end of JSON input"%string
       end.

(** An XML decoder that accepts the documents starting with an opening
    angle bracket. *)
Definition bracket_xml (s : string) : option error :=
  if Strings.HasPrefix s "<" then None else Some "EOF"%string.

Fixpoint cut (sep : ascii) (s : string) : string * string :=
  match s with
  | EmptyString => (EmptyString, EmptyString)
  | String c s' =>
      if Ascii.eqb c sep then (EmptyString, s')
      else let '(before, after) := cut sep s' in (String c before, after)
  end.

Fixpoint split (sep : ascii) (s : string) : list string :=
  match s with
  | EmptyString => [EmptyString]
  | String c s' =>
      if Ascii.eqb c sep then EmptyString :: split sep s'
      else match split sep s' with
           | piece :: pieces => String c piece :: pieces
           | [] => [String c EmptyString]
           end
  end.

Fixpoint trim_left (s : string) : string :=
  match s with
  | String c s' => if Ascii.eqb c " "%char then trim_left s' else s
  | EmptyString => EmptyString
  end.

Fixpoint trim_right (s : string) : string :=
  match s with
  | EmptyString => EmptyString
  | String c s' =>
      let t := trim_right s' in
      if Ascii.eqb c " "%char && String.eqb t EmptyString then EmptyString else String c t
  end.

(** The media type before the first semicolon, trimmed, in lower case;
    the parameters are not inspected. *)
Definition base_media_type (v : string) : string * option error :=
  (trim_right (trim_left (Strings.lower (fst (cut ";"%char v)))), None).

(** Query strings without percent escapes: [k=v] pairs joined by [&]. *)
Definition plain_query (query : string) : Http.Values * option error :=
  (fold_left
     (fun (m : Http.Values) piece =>
        if String.eqb piece EmptyString then m
        else let '(k, v) := cut "="%char piece in
             <[ k := default [] (m !! k) ++ [v] ]> m)
     (split "&"%char query) ∅,
   None).

(** [strings.ToLower] is taken to lower the ASCII letters only; the
    content types these decoders are run on are ASCII. *)
Definition decoders : Decoders :=
  {| json_Unmarshal := scalar_json;
     xml_Unmarshal := bracket_xml;
     mime_ParseMediaType := base_media_type;
     url_ParseQuery := plain_query;
     strings_ToLower := Strings.lower;
     strings_ToLower_ascii := fun s _ => eq_refl;
     strings_ToLower_run := fun s p _ found => found |}.

(** Test values: scalars, and a channel, which [json.Marshal] refuses. *)
Inductive TestValue := TNull | TBool (b : bool) | TInt (digits : string) | TChan.

Definition marshal (v : TestValue) : string + error :=
  match v with
  | TNull => inl "null"%string
  | TBool true => inl "true"%string
  | TBool false => inl "false"%string
  | TInt digits => inl digits
  | TChan => inr "json: unsupported type: chan int"%string
  end.

(** [k=v] pairs joined by [&], without escaping. *)
Definition plain_encode (values : Http.Values) : string :=
  Strings.Join
    (flat_map (fun kv => map (fun v => fst kv +:+ "=" +:+ v) (snd kv)) (map_to_list values))
    "&".

Definition encoders : Encoders :=
  {| GoValue := TestValue; json_Marshal := marshal; url_Encode := plain_encode |}.

Definition conf : Middleware.Configuration :=
  {| Middleware.RealIPHeader := "X-Real-IP"; Middleware.RequestIDHeader := "X-Request-ID" |}.

Definition env : Middleware.Env :=
  {| Middleware.start := 1700000000000000000;
     Middleware.duration := 1500;
     Middleware.uuid := "6ba7b810-9dad-11d1-80b4-00c04fd430c8";
     Middleware.span :=
       {| Otel.TraceID := Otel.zeroTraceID; Otel.SpanID := Otel.zeroSpanID |};
     Middleware.injected := [] |}.

(** A fresh [httptest.ResponseRecorder]: a flusher, neither a hijacker
    nor a reader. *)
Definition recorder : Http.ResponseWriter :=
  {| Http.header := ∅; Http.sent := None; Http.body := EmptyString;
     Http.flushed := false; Http.interims := []; Http.interim := false;
     Http.flusher := true; Http.hijacker := None;
     Http.reader := None |}.

Definition post (contentType : string) (body : Http.Reader) : Http.Request :=
  {| Http.Method := "POST"; Http.RequestURI := "/echo"; Http.Host := "example.com";
     Http.RemoteAddr := "192.0.2.1:1234"; Http.Path := "/echo";
     Http.RawQuery := EmptyString;
     Http.Header_ := {[ "Content-Type" := [contentType] ]};
     Http.Body := Some body; Http.Form := None; Http.PostForm := None;
     Http.Context_ := [] |}.

(** A sink that is neither a flusher, a hijacker nor a reader. *)
Definition plain : Http.ResponseWriter :=
  {| Http.header := ∅; Http.sent := None; Http.body := EmptyString;
     Http.flushed := false; Http.interims := []; Http.interim := false;
     Http.flusher := false; Http.hijacker := None;
     Http.reader := None |}.

(** A handler that writes nothing. *)
Definition idle : Middleware.Handler := fun w _ => w.

(** A handler that answers 201 with a JSON body. *)
Definition created : Middleware.Handler :=
  fun w _ =>
    Middleware.Write
      (Middleware.WriteHeader
         (Middleware.SetHeader w "Content-Type" "application/json") 201)
      "true".

(** A before-each hook that notes whether the request parameters are
    already attached to the context it receives. *)
Definition probe : Itf.HookFunc :=
  fun ctx =>
    Ctx.WithValue ctx (Ctx.CallerKey "saw-params")
      (Ctx.VBool (bool_decide (is_Some (Ctx.Lookup ctx Ctx.ParamsKey)))).

(** A custom middleware that tags the context. *)
Definition tag (name : string) : Itf.MiddlewareFunc :=
  fun ctx _ => Ctx.WithValue ctx (Ctx.CallerKey name) (Ctx.VString name).

Definition suite : Itf.Suite :=
  {| Itf.env := {| Itf.User := Some "tester"%string; Itf.Pool := 1%nat;
                   Itf.TenantID := "tenant-1"; Itf.App := 1%nat |};
     Itf.user := None;
     Itf.middlewares := [tag "first"; tag "second"];
     Itf.beforeEach := [probe] |}.

(** A request builder and a chain of body-encoding calls on it: JSON,
    then multipart with one file and one field, then a form. *)
Definition blank : Itf.Request := Itf.newRequest "POST" "/echo".

Definition upload : Itf.MultipartData :=
  Itf.AddField (Itf.AddFile Itf.NewMultipart "file" "a.txt" "hello") "note" "x".

Definition earlier : list (Itf.Encoding (H := encoders)) :=
  [Itf.EncJSON (H := encoders) (TInt "1");
   Itf.EncMultipart upload "0123456789abcdef" ["note"%string]].

Definition final : Itf.Encoding (H := encoders) :=
  Itf.EncForm {[ "a"%string := ["1"%string] ]}.

Definition chained : Itf.Request :=
  default blank (Itf.encodeAll blank (earlier ++ [final])).

End Fixtures.

(** ** [pkg/fp]: [ReduceWithIndex] and [ReduceWithSlice] *)
Module FpIndex.
Section Reduce.
Context {T R : Type}.

(** The function value returned by [ReduceWithIndex], with its captured
    [acc]. *)
Record IndexReducer := { callback : R -> T -> Z -> R; acc : R }.

Definition ReduceWithIndex (callback : R -> T -> Z -> R) (acc : R) : IndexReducer :=
  {| callback := callback; acc := acc |}.

(** The loop [for i, x := range xs { acc = callback(acc, x, i) }], from
    the index [i] on. *)
Fixpoint range (callback : R -> T -> Z -> R) (acc : R) (i : Z) (xs : list T) : R :=
  match xs with
  | [] => acc
  | x :: xs' => range callback (callback acc x i) (i + 1) xs'
  end.

Definition call (f : IndexReducer) (xs : list T) : R * IndexReducer :=
  let acc' := range (callback f) (acc f) 0 xs in
  (acc', {| callback := callback f; acc := acc' |}).

(** The function value returned by [ReduceWithSlice]. *)
Record SliceReducer := { sliceCallback : R -> T -> Z -> list T -> R; sliceAcc : R }.

Definition ReduceWithSlice (callback : R -> T -> Z -> list T -> R) (acc : R) : SliceReducer :=
  {| sliceCallback := callback; sliceAcc := acc |}.

(** The loop [for i, x := range xs { acc = callback(acc, x, i, xs) }]
    over the rest [rest] of the slice [xs], from the index [i] on. *)
Fixpoint rangeSlice (callback : R -> T -> Z -> list T -> R) (acc : R) (i : Z)
    (xs rest : list T) : R :=
  match rest with
  | [] => acc
  | x :: rest' => rangeSlice callback (callback acc x i xs) (i + 1) xs rest'
  end.

Definition callSlice (f : SliceReducer) (xs : list T) : R * SliceReducer :=
  let acc' := rangeSlice (sliceCallback f) (sliceAcc f) 0 xs xs in
  (acc', {| sliceCallback := sliceCallback f; sliceAcc := acc' |}).

(** The elements of a slice with their indices. *)
Definition indexed (xs : list T) : list (Z * T) :=
  imap (fun i x => (Z.of_nat i, x)) xs.
End Reduce.
Arguments IndexReducer : clear implicits.
Arguments SliceReducer : clear implicits.
End FpIndex.

(** ** [pkg/itf]: the builder's header calls and the multipart data *)
Module ItfRequest.
Import Itf.

(** [Request.Header] *)
Definition Header (r : Request) (key value : string) : Request :=
  {| method := method r; path := path r;
     headers := Http.Set_ (headers r) key value; body := body r |}.

(** [Request.Cookie] *)
Definition Cookie (r : Request) (name value : string) : Request :=
  {| method := method r; path := path r;
     headers := Http.Add (headers r) "Cookie" (name +:+ "=" +:+ value); body := body r |}.

(** [Request.HTMX] *)
Definition HTMX (r : Request) : Request := Header r "Hx-Request" "true".

(** [Request.File], with the boundary the writer draws. *)
Definition File (r : Request) (fieldName fileName content boundary : string) : Request :=
  MultipartData_ r (AddFile NewMultipart fieldName fileName content) boundary [].

(** [url.Values.Add] *)
Definition valuesAdd (vs : Http.Values) (key value : string) : Http.Values :=
  <[ key := default [] (vs !! key) ++ [value] ]> vs.

(** [MultipartData.AddForm]; [order] is the order in which
    [range formValues] visits the keys. *)
Definition AddForm (m : MultipartData) (values : Http.Values) (order : list string)
  : MultipartData :=
  let own := default ∅ (formValues m) in
  {| files := files m;
     formValues :=
       Some (fold_left
               (fun own key =>
                  fold_left (fun own value => valuesAdd own key value)
                    (default [] (values !! key)) own)
               order own) |}.

(** *** The layout of a multipart body, part by part *)

(** What one file contributes between two delimiters. *)
Definition filePart (file : MultipartFile) : string :=
  "Content-Disposition: form-data; name=" +:+ Multipart.quote
  +:+ Multipart.escapeQuotes (FieldName file) +:+ Multipart.quote
  +:+ "; filename=" +:+ Multipart.quote +:+ Multipart.escapeQuotes (FileName file)
  +:+ Multipart.quote +:+ Multipart.crlf
  +:+ "Content-Type: application/octet-stream" +:+ Multipart.crlf
  +:+ Multipart.crlf +:+ Content file.

(** What one form field contributes. *)
Definition fieldPart (key value : string) : string :=
  "Content-Disposition: form-data; name=" +:+ Multipart.quote
  +:+ Multipart.escapeQuotes key +:+ Multipart.quote +:+ Multipart.crlf
  +:+ Multipart.crlf +:+ value.

(** The parts of a body in the order they are written: the files, then
    the values of the form keys in the order the keys are visited. *)
Definition parts (data : MultipartData) (order : list string) : list string :=
  map filePart (files data)
  ++ match formValues data with
     | Some values =>
         flat_map (fun key => map (fieldPart key) (default [] (values !! key))) order
     | None => []
     end.

Fixpoint following (boundary : string) (ps : list string) : string :=
  match ps with
  | [] => EmptyString
  | p :: ps' =>
      Multipart.crlf +:+ "--" +:+ boundary +:+ Multipart.crlf +:+ p +:+ following boundary ps'
  end.

(** A body: the parts, each after a delimiter line, and the closing
    delimiter.  The first delimiter has no line break before it. *)
Definition layout (boundary : string) (ps : list string) : string :=
  match ps with
  | [] => Multipart.crlf +:+ "--" +:+ boundary +:+ "--" +:+ Multipart.crlf
  | p :: ps' =>
      "--" +:+ boundary +:+ Multipart.crlf +:+ p +:+ following boundary ps'
      +:+ Multipart.crlf +:+ "--" +:+ boundary +:+ "--" +:+ Multipart.crlf
  end.

(** What a writer adds to its buffer for the parts [ps]: a writer that
    has started a part before puts a line break before the first
    delimiter, a new one does not. *)
Definition written (started : bool) (boundary : string) (ps : list string) : string :=
  if started then following boundary ps
  else match ps with
       | [] => EmptyString
       | p :: ps' => "--" +:+ boundary +:+ Multipart.crlf +:+ p +:+ following boundary ps'
       end.

Definition nonempty {A : Type} (l : list A) : bool :=
  match l with [] => false | _ :: _ => true end.

(** The writer of [Request.MultipartData] after its two loops. *)
Definition writeFiles (files : list MultipartFile) (writer : Multipart.Writer)
  : Multipart.Writer :=
  fold_left
    (fun writer file =>
       Multipart.PartWrite
         (Multipart.CreateFormFile writer (FieldName file) (FileName file))
         (Content file))
    files writer.

Definition writeFields (values : Http.Values) (order : list string)
    (writer : Multipart.Writer) : Multipart.Writer :=
  fold_left
    (fun writer key =>
       fold_left (fun writer value => Multipart.WriteField writer key value)
         (default [] (values !! key)) writer)
    order writer.

End ItfRequest.

(** ** What of a request the body logging leaves alone *)
Module Frame.

(** Everything of a request but its body and its parsed forms. *)
Definition envelope (r : Http.Request) :=
  (Http.Method r, Http.RequestURI r, Http.Host r, Http.RemoteAddr r,
   Http.Path r, Http.RawQuery r, Http.Header_ r, Http.Context_ r).

(** The entries [shouldLogBody] looks for. *)
Definition allow_list : list string :=
  ["application/json"; "application/x-www-form-urlencoded"; "application/xml";
   "text/xml"]%string.

(** The four ways the request-body step ends a request. *)
Definition abort_reasons : list (Z * string) :=
  [(Http.StatusInternalServerError, "failed to read request-body"%string);
   (Http.StatusBadRequest, "failed to parse JSON request-body"%string);
   (Http.StatusBadRequest, "failed to parse form-urlencoded request-body"%string);
   (Http.StatusBadRequest, "failed to parse XML request-body"%string)].

End Frame.

(** ** More requests and surroundings to run the models on *)
Module Samples.

(** A body whose transport fails after one byte. *)
Definition broken : Http.Reader :=
  {| Http.pending := "{"; Http.failure := Some "unexpected EOF"%string |}.

(** A POST that carries a request id and a real-IP header. *)
Definition identified : Http.Request :=
  {| Http.Method := "POST"; Http.RequestURI := "/echo"; Http.Host := "example.com";
     Http.RemoteAddr := "192.0.2.1:1234"; Http.Path := "/echo";
     Http.RawQuery := EmptyString;
     Http.Header_ := {[ "Content-Type" := ["text/plain"%string];
                        "X-Request-Id" := ["req-42"%string];
                        "X-Real-Ip" := ["203.0.113.9"%string] ]};
     Http.Body := Some (Http.NewBuffer "hi"); Http.Form := None; Http.PostForm := None;
     Http.Context_ := [(Ctx.CallerKey "outer", Ctx.VString "kept")] |}.

(** Surroundings in which the tracer hands out a sampled span. *)
Definition traced : Middleware.Env :=
  {| Middleware.start := 1700000000000000000;
     Middleware.duration := 1500;
     Middleware.uuid := "6ba7b810-9dad-11d1-80b4-00c04fd430c8";
     Middleware.span :=
       {| Otel.TraceID := "4bf92f3577b34da6a3ce929d0e0e4736";
          Otel.SpanID := "00f067aa0ba902b7" |};
     Middleware.injected :=
       [("traceparent"%string,
         "00-4bf92f3577b34da6a3ce929d0e0e4736-00f067aa0ba902b7-01"%string)] |}.

(** A sink that keeps the body in a [bytes.Buffer] of its own and is an
    [io.Reader] through it: reading hands the buffered bytes out and
    leaves the buffer empty. *)
Definition buffered : Http.ResponseWriter :=
  {| Http.header := ∅; Http.sent := None; Http.body := EmptyString;
     Http.flushed := false; Http.interims := []; Http.interim := false;
     Http.flusher := false; Http.hijacker := None;
     Http.reader := Some (fun c => (snd c, None, (fst c, EmptyString))) |}.

(** A sink that reads from a copy of what was written to it. *)
Definition copying : Http.ResponseWriter :=
  {| Http.header := ∅; Http.sent := None; Http.body := EmptyString;
     Http.flushed := false; Http.interims := []; Http.interim := false;
     Http.flusher := true; Http.hijacker := None;
     Http.reader := Some (fun c => (snd c, None, c)) |}.

(** Query strings as [Fixtures.plain_query] reads them, but a piece that
    contains a semicolon is refused, as [url.ParseQuery] does. *)
Definition strict_query (query : string) : Http.Values * option error :=
  fold_left
    (fun (acc : Http.Values * option error) piece =>
       let '(m, err) := acc in
       if String.eqb piece EmptyString then acc
       else if Strings.Contains piece ";"
            then (m, match err with
                     | Some _ => err
                     | None => Some "invalid semicolon separator in query"%string
                     end)
            else let '(k, v) := Fixtures.cut "="%char piece in
                 (<[ k := default [] (m !! k) ++ [v] ]> m, err))
    (Fixtures.split "&"%char query) (∅, None).

Definition strict : Decoders :=
  {| json_Unmarshal := Fixtures.scalar_json;
     xml_Unmarshal := Fixtures.bracket_xml;
     mime_ParseMediaType := Fixtures.base_media_type;
     url_ParseQuery := strict_query;
     strings_ToLower := Strings.lower;
     strings_ToLower_ascii := fun s _ => eq_refl;
     strings_ToLower_run := fun s p _ found => found |}.

End Samples.

(** * Properties *)

(** ** [fp.Reduce] *)
Section ReduceFacts.
Context {T R : Type}.
Implicit Types (callback : R -> T -> R) (xs ys : list T).

Lemma range_fold_left callback acc xs :
  Fp.range callback acc xs = fold_left callback xs acc.
Proof. revert acc. induction xs as [|x xs IH]; intros acc; simpl; [reflexivity | apply IH]. Qed.

Lemma call_result callback acc xs :
  fst (Fp.call (Fp.Reduce callback acc) xs) = fold_left callback xs acc.
Proof. simpl. apply range_fold_left. Qed.

Lemma call_closure callback acc xs :
  snd (Fp.call (Fp.Reduce callback acc) xs)
  = Fp.Reduce callback (fold_left callback xs acc).
Proof. unfold Fp.call, Fp.Reduce. simpl. now rewrite range_fold_left. Qed.
End ReduceFacts.

(** C10: the function returned by [fp.Reduce] keeps its accumulator between
    calls.  Its first application to [xs] returns the left fold of the
    callback over [xs] from the initial value; a second application, to
    [ys], returns the left fold over [ys] from the first result (the fold
    over [xs ++ ys] from the initial value), not from the initial value.
    Summing [1; 2; 3] from 0 twice with the same function gives 6, then
    12. *)
Theorem C10_reduce_keeps_accumulator :
  (forall (T R : Type) (callback : R -> T -> R) (acc : R) (xs ys : list T),
      let first := Fp.call (Fp.Reduce callback acc) xs in
      let second := Fp.call (snd first) ys in
      fst first = fold_left callback xs acc
      /\ fst second = fold_left callback ys (fst first)
      /\ fst second = fold_left callback (xs ++ ys) acc)
  /\ (let sum := Fp.Reduce Z.add 0 in
      fst (Fp.call sum [1; 2; 3]) = 6
      /\ fst (Fp.call (snd (Fp.call sum [1; 2; 3])) [1; 2; 3]) = 12).
Proof.
  split.
  - intros T R callback acc xs ys first second.
    assert (Hfirst : fst first = fold_left callback xs acc) by apply call_result.
    assert (Hsecond : fst second = fold_left callback ys (fst first)).
    { subst second. unfold first at 1. rewrite call_closure.
      rewrite call_result. now rewrite Hfirst. }
    repeat split; [exact Hfirst | exact Hsecond |].
    rewrite Hsecond, Hfirst. symmetry. apply fold_left_app.
  - split; reflexivity.
Qed.

(** ** The response writer wrapper *)
Section WrapperFacts.
Import Middleware.
Implicit Types (w : statusResponseWriter) (u : Http.ResponseWriter) (cs : list Call).

Lemma perform_underlying w c :
  ResponseWriter (perform w c) = perform_bare (ResponseWriter w) c.
Proof.
  destruct c; simpl; try reflexivity.
  unfold Flush. destruct (Http.flusher (ResponseWriter w)); reflexivity.
Qed.

Lemma perform_statusCode w c :
  statusCode (perform w c)
  = match c with CallWriteHeader code => code | _ => statusCode w end.
Proof.
  destruct c; simpl; try reflexivity.
  unfold Flush. destruct (Http.flusher (ResponseWriter w)); reflexivity.
Qed.

Lemma perform_all_underlying cs w :
  ResponseWriter (fold_left perform cs w) = fold_left perform_bare cs (ResponseWriter w).
Proof.
  revert w. induction cs as [|c cs IH]; intros w; simpl; [reflexivity |].
  rewrite IH, perform_underlying. reflexivity.
Qed.

Lemma perform_all_statusCode cs w :
  statusCode (fold_left perform cs w) = default (statusCode w) (last (codes cs)).
Proof.
  revert w. induction cs as [|c cs IH]; intros w; simpl; [reflexivity |].
  rewrite IH, perform_statusCode. unfold codes. simpl.
  destruct c; simpl; try reflexivity.
  fold (codes cs). destruct (codes cs) as [|c' l] eqn:E; simpl; [reflexivity |].
  change (last (code :: c' :: l)) with (last (c' :: l)).
  destruct (last (c' :: l)) eqn:El; [reflexivity |].
  apply last_None in El. discriminate.
Qed.
End WrapperFacts.

(** C6: for a wrapped response writer and any run of calls a handler makes
    on it, the underlying writer receives every call as if it had been
    made on it directly (every status code is forwarded); [Status()] is
    200 when [WriteHeader] was never called, and is the code of the last
    [WriteHeader] call when that code is not 0.  (A last code of 0, which
    the writers of [net/http] refuse, reads as unset: 200.) *)
Theorem C6_status_follows_WriteHeader (u : Http.ResponseWriter) (cs : list Middleware.Call) :
  let w := fold_left Middleware.perform cs (Middleware.wrapResponseWriter u) in
  Middleware.ResponseWriter w = fold_left Middleware.perform_bare cs u
  /\ (Middleware.codes cs = [] -> Middleware.Status w = 200)
  /\ (forall c, last (Middleware.codes cs) = Some c -> c <> 0 -> Middleware.Status w = c)
  /\ Middleware.Status w
     = match last (Middleware.codes cs) with
       | Some c => if c =? 0 then 200 else c
       | None => 200
       end.
Proof.
  intros w. subst w. split; [apply perform_all_underlying |].
  unfold Middleware.Status. rewrite perform_all_statusCode. simpl.
  split; [|split].
  - intros ->. reflexivity.
  - intros c -> Hc. simpl. destruct (Z.eqb_spec c 0); [contradiction | reflexivity].
  - destruct (last (Middleware.codes cs)); reflexivity.
Qed.

(** C6, on a recorder: a body written without any [WriteHeader] leaves the
    status at 200; after [WriteHeader(404)] and [WriteHeader(500)] the
    status is 500. *)
Lemma C6_status_follows_WriteHeader_witness :
  Middleware.Status
    (fold_left Middleware.perform [Middleware.CallWrite "ok"]
       (Middleware.wrapResponseWriter Fixtures.recorder)) = 200
  /\ Middleware.Status
       (fold_left Middleware.perform
          [Middleware.CallWriteHeader 404; Middleware.CallWrite "no";
           Middleware.CallWriteHeader 500]
          (Middleware.wrapResponseWriter Fixtures.recorder)) = 500.
Proof.
  split.
  - apply (proj1 (proj2 (C6_status_follows_WriteHeader Fixtures.recorder
                           [Middleware.CallWrite "ok"]))).
    reflexivity.
  - apply (proj1 (proj2 (proj2 (C6_status_follows_WriteHeader Fixtures.recorder
                                  [Middleware.CallWriteHeader 404; Middleware.CallWrite "no";
                                   Middleware.CallWriteHeader 500]))) 500).
    + reflexivity.
    + lia.
Defined.

(** C7: when the underlying sink is not a flusher, [Flush()] changes
    nothing; when it is not a hijacker, [Hijack()] returns a nil
    connection, a nil read-writer and the error saying so.  Both are total
    functions of the wrapper: there is no panic. *)
Theorem C7_missing_capabilities (w : Middleware.statusResponseWriter) :
  (Http.flusher (Middleware.ResponseWriter w) = false -> Middleware.Flush w = w)
  /\ (Http.hijacker (Middleware.ResponseWriter w) = None ->
      Middleware.Hijack w
      = (None, None, Some "underlying ResponseWriter does not implement http.Hijacker"%string)).
Proof.
  split; intros Hcap.
  - unfold Middleware.Flush. now rewrite Hcap.
  - unfold Middleware.Hijack. now rewrite Hcap.
Qed.

(** C7, on a sink with neither capability. *)
Lemma C7_missing_capabilities_witness :
  Middleware.Flush (Middleware.wrapResponseWriter Fixtures.plain)
  = Middleware.wrapResponseWriter Fixtures.plain
  /\ Middleware.Hijack (Middleware.wrapResponseWriter Fixtures.plain)
     = (None, None, Some "underlying ResponseWriter does not implement http.Hijacker"%string).
Proof.
  split.
  - apply (proj1 (C7_missing_capabilities (Middleware.wrapResponseWriter Fixtures.plain))).
    reflexivity.
  - apply (proj2 (C7_missing_capabilities (Middleware.wrapResponseWriter Fixtures.plain))).
    reflexivity.
Defined.

(** ** Strings and headers *)
Section StringFacts.
Import Strings.

Lemma HasPrefix_lower p : forall s,
  HasPrefix s p = true -> HasPrefix (lower s) (lower p) = true.
Proof.
  induction p as [|a p IH]; intros s Hs; simpl; [reflexivity |].
  destruct s as [|c s]; simpl in *; [discriminate |].
  apply andb_true_iff in Hs as [Hc Hs].
  apply Ascii.eqb_eq in Hc. subst c.
  rewrite Ascii.eqb_refl. simpl. now apply IH.
Qed.

Lemma Contains_lower p s :
  Contains s p = true -> Contains (lower s) (lower p) = true.
Proof.
  induction s as [|c s IH]; simpl; intros Hs.
  - rewrite orb_false_r in Hs. apply HasPrefix_lower in Hs. simpl in Hs.
    now rewrite Hs.
  - apply orb_true_iff in Hs as [Hs | Hs].
    + apply HasPrefix_lower in Hs. simpl in Hs. now rewrite Hs.
    + rewrite (IH Hs). apply orb_true_r.
Qed.

Lemma lower_ascii_idem c : lower_ascii (lower_ascii c) = lower_ascii c.
Proof. destruct c as [[] [] [] [] [] [] [] []]; reflexivity. Qed.

Lemma lower_idem s : lower (lower s) = lower s.
Proof. induction s as [|c s IH]; simpl; [reflexivity |]. now rewrite lower_ascii_idem, IH. Qed.

Context `{Decoders}.

(** An ASCII pattern in lower case that occurs in [s] occurs in
    [strings.ToLower(s)]. *)
Lemma Contains_ToLower_raw p s :
  is_ascii p = true -> lower p = p ->
  Contains s p = true -> Contains (strings_ToLower s) p = true.
Proof.
  intros Hascii Hlow Hs. apply strings_ToLower_run; [assumption |].
  rewrite <- Hlow. now apply Contains_lower.
Qed.

(** On an ASCII content type the allow-list test is the one on its
    lowered bytes. *)
Lemma shouldLogBody_ascii contentType :
  is_ascii contentType = true ->
  Middleware.shouldLogBody contentType
  = (Contains (lower contentType) "application/json"
     || Contains (lower contentType) "application/x-www-form-urlencoded"
     || Contains (lower contentType) "application/xml"
     || Contains (lower contentType) "text/xml").
Proof.
  intros Hascii. unfold Middleware.shouldLogBody.
  now rewrite strings_ToLower_ascii.
Qed.

Lemma shouldLogBody_json contentType :
  Contains contentType "application/json" = true ->
  Middleware.shouldLogBody contentType = true.
Proof.
  intros Hct. apply Contains_ToLower_raw in Hct; [|reflexivity ..].
  unfold Middleware.shouldLogBody. now rewrite Hct.
Qed.

Lemma shouldLogBody_form contentType :
  Contains contentType "application/x-www-form-urlencoded" = true ->
  Middleware.shouldLogBody contentType = true.
Proof.
  intros Hct. apply Contains_ToLower_raw in Hct; [|reflexivity ..].
  unfold Middleware.shouldLogBody.
  rewrite Hct. apply orb_true_iff. left. apply orb_true_iff. left. apply orb_true_r.
Qed.
End StringFacts.

Section HeaderFacts.
Implicit Types (h : Http.Header) (w : Http.ResponseWriter).

Lemma Get_Set_eq h key value : Http.Get (Http.Set_ h key value) key = value.
Proof. unfold Http.Get, Http.Set_. now rewrite lookup_insert_eq. Qed.

Lemma header_WriteHeader w code : Http.header (Http.WriteHeader w code) = Http.header w.
Proof.
  unfold Http.WriteHeader.
  destruct (Http.sent w); [reflexivity |].
  destruct (negb (Http.validCode code)); [reflexivity |].
  destruct (Http.interim w && Http.interimCode code); reflexivity.
Qed.

(** [WriteHeader] with a final status on a sink whose header was not
    written yet. *)
Lemma WriteHeader_fresh w code :
  Http.sent w = None -> 200 <= code <= 999 ->
  Http.WriteHeader w code
  = {| Http.header := Http.header w; Http.sent := Some (code, Http.header w);
       Http.body := Http.body w; Http.flushed := Http.flushed w;
       Http.interims := Http.interims w; Http.interim := Http.interim w;
       Http.flusher := Http.flusher w; Http.hijacker := Http.hijacker w;
       Http.reader := Http.reader w |}.
Proof.
  intros Hsent Hcode. unfold Http.WriteHeader, Http.validCode, Http.interimCode.
  rewrite Hsent.
  replace (100 <=? code) with true by (symmetry; apply Z.leb_le; lia).
  replace (code <=? 999) with true by (symmetry; apply Z.leb_le; lia).
  replace (code <=? 199) with false by (symmetry; apply Z.leb_gt; lia).
  simpl. now rewrite andb_false_r.
Qed.

Lemma reader_WriteHeader w code : Http.reader (Http.WriteHeader w code) = Http.reader w.
Proof.
  unfold Http.WriteHeader.
  destruct (Http.sent w); [reflexivity |].
  destruct (negb (Http.validCode code)); [reflexivity |].
  destruct (Http.interim w && Http.interimCode code); reflexivity.
Qed.

Lemma body_WriteHeader w code : Http.body (Http.WriteHeader w code) = Http.body w.
Proof.
  unfold Http.WriteHeader.
  destruct (Http.sent w); [reflexivity |].
  destruct (negb (Http.validCode code)); [reflexivity |].
  destruct (Http.interim w && Http.interimCode code); reflexivity.
Qed.

Lemma WriteHeader_sent w code s :
  Http.sent w = Some s -> Http.WriteHeader w code = w.
Proof. intros Hsent. unfold Http.WriteHeader. now rewrite Hsent. Qed.

Lemma header_Write w b : Http.header (Http.Write w b) = Http.header w.
Proof. unfold Http.Write. simpl. apply header_WriteHeader. Qed.

(** [http.Error] on a sink whose header was not written yet. *)
Lemma Error_fresh w msg code :
  Http.sent w = None -> 200 <= code <= 999 ->
  exists h,
    Http.sent (Http.Error w msg code) = Some (code, h)
    /\ Http.Get h "Content-Type" = "text/plain; charset=utf-8"%string
    /\ Http.body (Http.Error w msg code) = Http.body w +:+ msg +:+ Http.newline.
Proof.
  intros Hsent Hcode. unfold Http.Error, Http.Write.
  rewrite (WriteHeader_fresh _ code) by (simpl; assumption).
  rewrite (WriteHeader_sent _ _ (code, Http.header
    (Http.with_header w
       (Http.Set_ (Http.Set_ (Http.Del (Http.header w) "Content-Length")
          "Content-Type" "text/plain; charset=utf-8")
          "X-Content-Type-Options" "nosniff")))) by reflexivity.
  simpl. eexists. split; [reflexivity |]. split; [|reflexivity].
  unfold Http.Get, Http.Set_.
  rewrite lookup_insert_ne by (vm_compute; discriminate).
  now rewrite lookup_insert_eq.
Qed.
End HeaderFacts.

(** ** [WithLogger]: the request body *)
Section RequestBodyFacts.
Context `{Decoders}.
Import Middleware.
Implicit Types (opts : LoggerOptions) (fieldsLogger : Logrus.Fields)
  (w : Http.ResponseWriter) (r : Http.Request).

(** The JSON branch on a body that does not parse. *)
Lemma logRequestBody_invalid_json opts fieldsLogger w r b err :
  LogRequestBody opts = true ->
  Strings.Contains (Http.Get (Http.Header_ r) "Content-Type") "application/json" = true ->
  Http.Body r = Some (Http.NewBuffer b) ->
  json_Unmarshal b = inr err ->
  logRequestBody opts fieldsLogger w r
  = (Http.Error w "failed to parse JSON request-body" Http.StatusBadRequest,
     [Logrus.Error (Logrus.WithError fieldsLogger err) "failed to parse JSON request-body"],
     None).
Proof.
  intros Hopt Hct Hbody Hjson. unfold logRequestBody.
  rewrite Hopt, (shouldLogBody_json _ Hct), Hbody. simpl.
  now rewrite Hct, Hjson.
Qed.

(** A body that cannot be read to its end. *)
Lemma logRequestBody_read_failure opts fieldsLogger w r b err :
  LogRequestBody opts = true ->
  shouldLogBody (Http.Get (Http.Header_ r) "Content-Type") = true ->
  Http.Body r = Some {| Http.pending := b; Http.failure := Some err |} ->
  logRequestBody opts fieldsLogger w r
  = (Http.Error w "failed to read request-body" Http.StatusInternalServerError,
     [Logrus.Error (Logrus.WithError fieldsLogger err) "failed to read request-body"],
     None).
Proof.
  intros Hopt Hct Hbody. unfold logRequestBody.
  now rewrite Hopt, Hct, Hbody.
Qed.

(** Outside the form branch, a request that goes on to the handler
    carries a fresh buffer over the bytes that were read. *)
Lemma logRequestBody_restores_body opts fieldsLogger w r b w' evs r' :
  LogRequestBody opts = true ->
  shouldLogBody (Http.Get (Http.Header_ r) "Content-Type") = true ->
  (Strings.Contains (Http.Get (Http.Header_ r) "Content-Type") "application/json" = true
   \/ Strings.Contains (Http.Get (Http.Header_ r) "Content-Type")
        "application/x-www-form-urlencoded" = false) ->
  Http.Body r = Some (Http.NewBuffer b) ->
  logRequestBody opts fieldsLogger w r = (w', evs, Some r') ->
  Http.Body r' = Some (Http.NewBuffer b).
Proof.
  intros Hopt Hlog Hbranch Hbody. unfold logRequestBody.
  rewrite Hopt, Hlog, Hbody. simpl.
  destruct (Strings.Contains _ "application/json") eqn:Hjson.
  - destruct (json_Unmarshal b); intros [= <- <- <-]; reflexivity.
  - destruct Hbranch as [Hbranch | Hbranch]; [discriminate |].
    rewrite Hbranch.
    destruct (_ || _).
    + destruct (xml_Unmarshal b); intros [= <- <- <-]; reflexivity.
    + intros [= <- <- <-]; reflexivity.
Qed.

(** The entry [logger.WithFields] builds at the top of the handler. *)
Local Abbreviation requestLogger r conf env :=
  ({[ "request-id" := Logrus.FString (getRequestID r conf env);
      "path" := Logrus.FString (Http.RequestURI r);
      "method" := Logrus.FString (Http.Method r) ]} : Logrus.Fields).

(** When the request-body step returns early, so does the middleware:
    the handler is not called and the sink is left as the step left
    it. *)
Lemma WithLogger_aborted opts conf next env w r w1 evs :
  logRequestBody opts (requestLogger r conf env) w r = (w1, evs, None) ->
  served (WithLogger opts conf next env w r) = None
  /\ writer (WithLogger opts conf next env w r) = w1
  /\ map Logrus.message (events (WithLogger opts conf next env w r))
     = "request started"%string :: map Logrus.message evs.
Proof. intros Hstep. unfold WithLogger. rewrite Hstep. auto. Qed.

(** When the handler is called, the request-body step went through, the
    writer handed over is a fresh wrapper around the sink with the
    request id in its header map, and the request is the one the step
    produced, with a new context. *)
Lemma WithLogger_handler_arguments opts conf next env w r wrapped request :
  served (WithLogger opts conf next env w r) = Some (wrapped, request) ->
  exists w1 evs r1,
    logRequestBody opts (requestLogger r conf env) w r = (w1, evs, Some r1)
    /\ Http.Get (Http.header (ResponseWriter wrapped)) "X-Request-Id"
       = getRequestID r conf env
    /\ statusCode wrapped = 0
    /\ Http.sent (ResponseWriter wrapped) = Http.sent w1
    /\ Http.body (ResponseWriter wrapped) = Http.body w1
    /\ Http.Body request = Http.Body r1
    /\ Http.Header_ request = Http.Header_ r1.
Proof.
  unfold WithLogger.
  destruct (logRequestBody _ _ w r) as [[w1 evs] [r1|]]; [|discriminate].
  intros Hserved. exists w1, evs, r1. split; [reflexivity |].
  destruct (Otel.HasTraceID (span env)); simpl in Hserved;
    destruct (logResponseBody _ _ _); simpl in Hserved;
    injection Hserved as <- <-; simpl; rewrite Get_Set_eq; auto 10.
Qed.

(** When the request-body step goes through, the handler is called with
    the request the step produced (under a new context) and a wrapper
    around the sink the step left; the log starts with [request started]
    and the events of the step. *)
Lemma WithLogger_passed opts conf next env w r w1 evs r1 :
  logRequestBody opts (requestLogger r conf env) w r = (w1, evs, Some r1) ->
  exists wrapped ctx,
    served (WithLogger opts conf next env w r) = Some (wrapped, Http.WithContext r1 ctx)
    /\ Http.sent (ResponseWriter wrapped) = Http.sent w1
    /\ Http.body (ResponseWriter wrapped) = Http.body w1
    /\ map Logrus.message
         (take (S (length evs)) (events (WithLogger opts conf next env w r)))
       = "request started"%string :: map Logrus.message evs.
Proof.
  intros Hstep. unfold WithLogger. rewrite Hstep.
  destruct (Otel.HasTraceID (span env)); simpl;
    destruct (logResponseBody _ _ _); simpl; eexists _, _;
    (split; [reflexivity |]); (split; [reflexivity |]); (split; [reflexivity |]);
    f_equal; rewrite take_app_length' by reflexivity; reflexivity.
Qed.
End RequestBodyFacts.

(** C1: with request-body logging enabled, a request whose Content-Type
    contains [application/json] and whose body (read to its end) is not
    valid JSON is answered with status 400 and the body
    [failed to parse JSON request-body] followed by a newline, and the
    downstream handler is not invoked.  The sink is one nothing was
    written to before the middleware ran. *)
Theorem C1_invalid_json_is_rejected `{Decoders}
    (opts : Middleware.LoggerOptions) (conf : Middleware.Configuration)
    (next : Middleware.Handler) (env : Middleware.Env)
    (w : Http.ResponseWriter) (r : Http.Request) (b : string) (err : error) :
  Middleware.LogRequestBody opts = true ->
  Strings.Contains (Http.Get (Http.Header_ r) "Content-Type") "application/json" = true ->
  Http.Body r = Some (Http.NewBuffer b) ->
  json_Unmarshal b = inr err ->
  Http.sent w = None ->
  Http.body w = EmptyString ->
  Middleware.served (Middleware.WithLogger opts conf next env w r) = None
  /\ exists h,
       Http.response (Middleware.writer (Middleware.WithLogger opts conf next env w r))
       = (400, h, "failed to parse JSON request-body" +:+ Http.newline).
Proof.
  intros Hopt Hct Hbody Hjson Hsent Hempty.
  destruct (WithLogger_aborted opts conf next env w r _ _
              (logRequestBody_invalid_json opts _ w r b err Hopt Hct Hbody Hjson))
    as (Hserved & Hwriter & _).
  split; [exact Hserved |].
  rewrite Hwriter.
  destruct (Error_fresh w "failed to parse JSON request-body" Http.StatusBadRequest Hsent
              ltac:(vm_compute; split; discriminate))
    as (h & Hstatus & _ & Hwritten).
  exists h. unfold Http.response. rewrite Hstatus, Hwritten, Hempty. reflexivity.
Qed.

(** C1, on a recorder: a POST with [Content-Type: application/json] and
    the body [not-json]. *)
Lemma C1_invalid_json_is_rejected_witness :
  Middleware.served
    (Middleware.WithLogger (H := Fixtures.decoders) Middleware.DefaultLoggerOptions
       Fixtures.conf Fixtures.created Fixtures.env Fixtures.recorder
       (Fixtures.post "application/json" (Http.NewBuffer "not-json"))) = None
  /\ exists h,
       Http.response
         (Middleware.writer
            (Middleware.WithLogger (H := Fixtures.decoders) Middleware.DefaultLoggerOptions
               Fixtures.conf Fixtures.created Fixtures.env Fixtures.recorder
               (Fixtures.post "application/json" (Http.NewBuffer "not-json"))))
       = (400, h, "failed to parse JSON request-body" +:+ Http.newline).
Proof.
  apply (C1_invalid_json_is_rejected (H := Fixtures.decoders) Middleware.DefaultLoggerOptions
           Fixtures.conf Fixtures.created Fixtures.env Fixtures.recorder
           (Fixtures.post "application/json" (Http.NewBuffer "not-json"))
           "not-json" "invalid character looking for beginning of value");
    reflexivity.
Defined.

(** ** [WithLogger]: the request id *)
Section RequestIDFacts.
Context `{Decoders}.
Import Middleware.

Lemma getRequestID_generated r conf env :
  Http.Get (Http.Header_ r) (RequestIDHeader conf) = EmptyString ->
  getRequestID r conf env = uuid env.
Proof. intros Hget. unfold getRequestID. now rewrite Hget. Qed.

(** Every early return of the request-body step goes through
    [http.Error]. *)
Lemma logRequestBody_abort_by_Error opts fieldsLogger w r w1 evs :
  logRequestBody opts fieldsLogger w r = (w1, evs, None) ->
  exists msg code, w1 = Http.Error w msg code.
Proof.
  unfold logRequestBody.
  destruct (if _ && _ then Http.Body r else None) as [body|]; [|discriminate].
  destruct (Http.Copy body) as [[bodyBuf [err|]] rd].
  { intros [= <- _]. eauto. }
  destruct (Strings.Contains _ "application/json").
  { destruct (json_Unmarshal bodyBuf); [discriminate |]. intros [= <- _]. eauto. }
  destruct (Strings.Contains _ "application/x-www-form-urlencoded").
  { destruct (HttpForm.ParseForm _) as [[err|] r2]; [|discriminate].
    intros [= <- _]. eauto. }
  destruct (_ || _); [|discriminate].
  destruct (xml_Unmarshal bodyBuf); [|discriminate]. intros [= <- _]. eauto.
Qed.

(** [http.Error] does not touch the request-id header. *)
Lemma Error_keeps_request_id w msg code :
  Http.header (Http.Error w msg code) !! "X-Request-Id"
  = Http.header w !! "X-Request-Id".
Proof.
  unfold Http.Error. rewrite header_Write, header_WriteHeader. simpl.
  unfold Http.Set_, Http.Del.
  rewrite !lookup_insert_ne by (vm_compute; discriminate).
  apply lookup_delete_ne. vm_compute. discriminate.
Qed.

(** The events of the two body steps are logged through the entry they
    are given: every field of that entry other than [error],
    [request-body] and [response-body] is in each of them. *)
Lemma derived_entry_keeps (entry : Logrus.Fields) key v added value :
  key <> added -> entry !! key = Some v ->
  Logrus.WithField entry added value !! key = Some v.
Proof.
  intros Hother Hentry. unfold Logrus.WithField, Logrus.WithFields.
  apply lookup_union_Some_raw. right.
  split; [apply lookup_singleton_ne; congruence | exact Hentry].
Qed.

Lemma logRequestBody_events_keep opts (fieldsLogger : Logrus.Fields) w r key v :
  key <> "error"%string -> key <> "request-body"%string ->
  fieldsLogger !! key = Some v ->
  Forall (fun e => Logrus.data e !! key = Some v)
    (snd (fst (logRequestBody opts fieldsLogger w r))).
Proof.
  intros Herror Hbody Hentry. unfold logRequestBody.
  repeat match goal with
         | |- context [match ?x with _ => _ end] => destruct x
         end;
    simpl; first [(constructor; [|constructor]) | constructor];
    simpl; unfold Logrus.WithError; now apply derived_entry_keeps.
Qed.

Lemma logResponseBody_events_keep opts (fieldsLogger : Logrus.Fields) wrapped key v :
  key <> "error"%string -> key <> "response-body"%string ->
  fieldsLogger !! key = Some v ->
  Forall (fun e => Logrus.data e !! key = Some v)
    (snd (logResponseBody opts fieldsLogger wrapped)).
Proof.
  intros Herror Hbody Hentry. unfold logResponseBody.
  repeat match goal with
         | |- context [match ?x with _ => _ end] => destruct x
         end;
    simpl; first [(constructor; [|constructor]) | constructor];
    simpl; try exact Hentry; unfold Logrus.WithError; now apply derived_entry_keeps.
Qed.

(** Every event of a run is logged under the request id. *)
Lemma WithLogger_events_request_id opts conf next env w r :
  Forall
    (fun e =>
       Logrus.data e !! "request-id" = Some (Logrus.FString (getRequestID r conf env)))
    (events (WithLogger opts conf next env w r)).
Proof.
  unfold WithLogger.
  match goal with
  | |- context [logRequestBody ?o ?f ?x ?y] =>
      pose proof (logRequestBody_events_keep o f x y "request-id"
                    (Logrus.FString (getRequestID r conf env))
                    ltac:(discriminate) ltac:(discriminate) eq_refl) as Hrequest;
      destruct (logRequestBody o f x y) as [[w1 evs] [r1|]]
  end; simpl in Hrequest.
  - destruct (Otel.HasTraceID (span env)); simpl;
      match goal with
      | |- context [logResponseBody ?o ?f ?x] =>
          pose proof (logResponseBody_events_keep o f x "request-id"
                        (Logrus.FString (getRequestID r conf env))
                        ltac:(discriminate) ltac:(discriminate)) as Hresponse;
          destruct (logResponseBody o f x) as [final after]
      end; simpl in *;
      (constructor;
       [unfold Logrus.WithFields; apply lookup_union_Some_raw; right; split; reflexivity |]);
      apply Forall_app; (split; [exact Hrequest |]);
      (constructor;
       [unfold Logrus.WithFields; simpl;
        repeat (apply lookup_union_Some_raw; right; split; [reflexivity |]); reflexivity
       |]);
      apply Hresponse;
      unfold Logrus.WithFields;
      repeat (apply lookup_union_Some_raw; right; split; [reflexivity |]); reflexivity.
  - simpl. constructor; [|exact Hrequest].
    unfold Logrus.WithFields. apply lookup_union_Some_raw. right. split; reflexivity.
Qed.
End RequestIDFacts.

(** C3, as stated, fails: a POST with [Content-Type: application/json],
    the body [not-json] and no request-id header is answered 400, and the
    response carries no [X-Request-Id] header, neither in the header map
    nor in what was sent. *)
Lemma C3_rejected_request_has_no_request_id_header :
  Http.Get (Http.Header_ (Fixtures.post "application/json" (Http.NewBuffer "not-json")))
    (Middleware.RequestIDHeader Fixtures.conf) = EmptyString
  /\ Http.Get
       (Http.header
          (Middleware.writer
             (Middleware.WithLogger (H := Fixtures.decoders) Middleware.DefaultLoggerOptions
                Fixtures.conf Fixtures.idle Fixtures.env Fixtures.recorder
                (Fixtures.post "application/json" (Http.NewBuffer "not-json")))))
       "X-Request-Id" <> Middleware.uuid Fixtures.env
  /\ (let '(status, sentHeader, _) :=
        Http.response
          (Middleware.writer
             (Middleware.WithLogger (H := Fixtures.decoders) Middleware.DefaultLoggerOptions
                Fixtures.conf Fixtures.idle Fixtures.env Fixtures.recorder
                (Fixtures.post "application/json" (Http.NewBuffer "not-json")))) in
      status = 400 /\ sentHeader !! "X-Request-Id" = None).
Proof.
  split; [reflexivity |]. split.
  - vm_compute. discriminate.
  - vm_compute. split; reflexivity.
Qed.

(** C3, amended: for a request without a request-id header the middleware
    takes a new UUID as the request id.  Every run logs every one of its
    events under that id, the first of them being [request started].
    When the request reaches the downstream handler, the writer the
    handler receives has the id as its [X-Request-Id] header.  When the
    request-body step ends the request (the handler is not called), the
    middleware leaves the [X-Request-Id] entry of the header map as it
    found it. *)
Theorem C3_request_id_header_when_served `{Decoders}
    (opts : Middleware.LoggerOptions) (conf : Middleware.Configuration)
    (next : Middleware.Handler) (env : Middleware.Env)
    (w : Http.ResponseWriter) (r : Http.Request) :
  Http.Get (Http.Header_ r) (Middleware.RequestIDHeader conf) = EmptyString ->
  (exists started rest,
      Middleware.events (Middleware.WithLogger opts conf next env w r) = started :: rest
      /\ Logrus.message started = "request started"%string
      /\ Logrus.data started !! "request-id" = Some (Logrus.FString (Middleware.uuid env)))
  /\ Forall
       (fun e => Logrus.data e !! "request-id" = Some (Logrus.FString (Middleware.uuid env)))
       (Middleware.events (Middleware.WithLogger opts conf next env w r))
  /\ (forall wrapped request,
         Middleware.served (Middleware.WithLogger opts conf next env w r)
         = Some (wrapped, request) ->
         Http.Get (Http.header (Middleware.ResponseWriter wrapped)) "X-Request-Id"
         = Middleware.uuid env)
  /\ (Middleware.served (Middleware.WithLogger opts conf next env w r) = None ->
      Http.header (Middleware.writer (Middleware.WithLogger opts conf next env w r))
        !! "X-Request-Id"
      = Http.header w !! "X-Request-Id").
Proof.
  intros Hnone. split; [|split; [|split]].
  - unfold Middleware.WithLogger.
    destruct (Middleware.logRequestBody _ _ w r) as [[w1 evs] [r1|]].
    + destruct (Otel.HasTraceID _); simpl; destruct (Middleware.logResponseBody _ _ _);
        simpl; eexists _, _; (split; [reflexivity |]); (split; [reflexivity |]);
        simpl; unfold Logrus.WithFields; rewrite getRequestID_generated by exact Hnone;
        apply lookup_union_Some_raw; right; split; reflexivity.
    + simpl. eexists _, _. split; [reflexivity |]. split; [reflexivity |].
      simpl. unfold Logrus.WithFields. rewrite getRequestID_generated by exact Hnone.
      apply lookup_union_Some_raw; right; split; reflexivity.
  - rewrite <- (getRequestID_generated r conf env Hnone).
    apply WithLogger_events_request_id.
  - intros wrapped request Hserved.
    apply WithLogger_handler_arguments in Hserved as (w1 & evs & r1 & _ & Hid & _).
    rewrite Hid. now apply getRequestID_generated.
  - intros Hserved. unfold Middleware.WithLogger in *.
    destruct (Middleware.logRequestBody _ _ w r) as [[w1 evs] [r1|]] eqn:Hstep.
    + destruct (Otel.HasTraceID _); simpl in Hserved;
        destruct (Middleware.logResponseBody _ _ _); discriminate.
    + simpl. apply logRequestBody_abort_by_Error in Hstep as (msg & code & ->).
      apply Error_keeps_request_id.
Qed.

(** C3, amended, on a recorder: a POST with a JSON body that parses
    reaches the handler with the generated id in [X-Request-Id], and the
    four events of the run are logged under that id. *)
Lemma C3_request_id_header_when_served_witness :
  option_map
    (fun served => Http.Get (Http.header (Middleware.ResponseWriter (fst served))) "X-Request-Id")
    (Middleware.served
       (Middleware.WithLogger (H := Fixtures.decoders) Middleware.DefaultLoggerOptions
          Fixtures.conf Fixtures.created Fixtures.env Fixtures.recorder
          (Fixtures.post "application/json" (Http.NewBuffer "true"))))
  = Some (Middleware.uuid Fixtures.env)
  /\ Forall
       (fun e =>
          Logrus.data e !! "request-id" = Some (Logrus.FString (Middleware.uuid Fixtures.env)))
       (Middleware.events
          (Middleware.WithLogger (H := Fixtures.decoders) Middleware.DefaultLoggerOptions
             Fixtures.conf Fixtures.created Fixtures.env Fixtures.recorder
             (Fixtures.post "application/json" (Http.NewBuffer "true"))))
  /\ length
       (Middleware.events
          (Middleware.WithLogger (H := Fixtures.decoders) Middleware.DefaultLoggerOptions
             Fixtures.conf Fixtures.created Fixtures.env Fixtures.recorder
             (Fixtures.post "application/json" (Http.NewBuffer "true"))))
     = 4%nat.
Proof.
  split; [|split].
  - destruct (Middleware.served _) as [[wrapped request]|] eqn:Hserved.
    + simpl. f_equal.
      apply (proj1 (proj2 (proj2 (C3_request_id_header_when_served (H := Fixtures.decoders)
                             Middleware.DefaultLoggerOptions Fixtures.conf Fixtures.created
                             Fixtures.env Fixtures.recorder
                             (Fixtures.post "application/json" (Http.NewBuffer "true"))
                             eq_refl))) wrapped request Hserved).
    + vm_compute in Hserved. discriminate.
  - apply (proj1 (proj2 (C3_request_id_header_when_served (H := Fixtures.decoders)
                           Middleware.DefaultLoggerOptions Fixtures.conf Fixtures.created
                           Fixtures.env Fixtures.recorder
                           (Fixtures.post "application/json" (Http.NewBuffer "true"))
                           eq_refl))).
  - vm_compute. reflexivity.
Defined.

(** ** [WithLogger]: the form branch reads the restored body *)
Section FormFacts.
Context `{Decoders}.
Import Middleware.

Lemma Contains_nonempty (s substr : string) :
  substr <> EmptyString -> Strings.Contains s substr = true -> s <> EmptyString.
Proof.
  intros Hsub Hs ->. destruct substr; [contradiction | discriminate].
Qed.

Lemma ReadAllLimited_small (n : N) (b : string) :
  (Http.len b < n)%N ->
  Http.ReadAllLimited n (Http.NewBuffer b) = (b, None, Http.NewBuffer EmptyString).
Proof.
  intros Hlen. unfold Http.ReadAllLimited. simpl.
  apply N.ltb_lt in Hlen. now rewrite Hlen.
Qed.

(** For POST, PUT and PATCH with the form media type, [ParseForm]
    leaves the body it was given read to its end. *)
Lemma ParseForm_drains r b err r' :
  HttpForm.reads_body (Http.Method r) = true ->
  Http.PostForm r = None ->
  Http.Get (Http.Header_ r) "Content-Type" <> EmptyString ->
  fst (mime_ParseMediaType (Http.Get (Http.Header_ r) "Content-Type"))
  = "application/x-www-form-urlencoded"%string ->
  Http.Body r = Some (Http.NewBuffer b) ->
  (Http.len b <= HttpForm.maxFormSize)%N ->
  HttpForm.ParseForm r = (err, r') ->
  Http.Body r' = Some (Http.NewBuffer EmptyString).
Proof.
  intros Hmethod Hpost Hct Hmedia Hbody Hlen.
  unfold HttpForm.ParseForm, HttpForm.parsePostForm.
  rewrite Hpost, Hmethod, Hbody.
  destruct (String.eqb_spec (Http.Get (Http.Header_ r) "Content-Type") EmptyString)
    as [Hempty | _]; [contradiction |].
  destruct (mime_ParseMediaType _) as [mediaType merr]. simpl in Hmedia. subst mediaType.
  rewrite String.eqb_refl, ReadAllLimited_small by lia.
  apply N.ltb_ge in Hlen. rewrite Hlen.
  destruct (url_ParseQuery b) as [vs e]. simpl.
  destruct (Http.Form r); [intros [= _ <-]; reflexivity |].
  destruct (url_ParseQuery (Http.RawQuery r)). intros [= _ <-]. reflexivity.
Qed.

(** The form branch of the request-body step: the request that goes on
    to the handler has an empty body left, whatever bytes [b] the client
    sent. *)
Lemma logRequestBody_form_drains_body opts fieldsLogger w r b w' evs r' :
  LogRequestBody opts = true ->
  Strings.Contains (Http.Get (Http.Header_ r) "Content-Type") "application/json" = false ->
  Strings.Contains (Http.Get (Http.Header_ r) "Content-Type")
    "application/x-www-form-urlencoded" = true ->
  fst (mime_ParseMediaType (Http.Get (Http.Header_ r) "Content-Type"))
  = "application/x-www-form-urlencoded"%string ->
  HttpForm.reads_body (Http.Method r) = true ->
  Http.PostForm r = None ->
  Http.Body r = Some (Http.NewBuffer b) ->
  (Http.len b <= HttpForm.maxFormSize)%N ->
  logRequestBody opts fieldsLogger w r = (w', evs, Some r') ->
  Http.Body r' = Some (Http.NewBuffer EmptyString).
Proof.
  intros Hopt Hjson Hform Hmedia Hmethod Hpost Hbody Hlen.
  unfold logRequestBody.
  rewrite Hopt, (shouldLogBody_form _ Hform), Hbody. simpl.
  rewrite Hjson, Hform.
  destruct (HttpForm.ParseForm _) as [[err|] r2] eqn:Hparse; [discriminate |].
  intros [= _ _ <-].
  apply (ParseForm_drains _ b None r2) in Hparse; try assumption.
  - simpl. apply (Contains_nonempty _ "application/x-www-form-urlencoded");
      [discriminate | exact Hform].
  - reflexivity.
Qed.
End FormFacts.

(** C2, the code at the failing input: a POST with
    [Content-Type: application/x-www-form-urlencoded] and the body [a=1]
    passes the request-body step ([form-urlencoded request-body parsed] is
    logged and [r.Form] holds [a = 1]), and the request the handler
    receives has no byte of its body left to read, not the three bytes
    the client sent. *)
Theorem C2_form_body_reaches_handler_drained (next : Middleware.Handler) :
  option_map (fun served => (Http.Body (snd served), Http.Form (snd served)))
    (Middleware.served
       (Middleware.WithLogger (H := Fixtures.decoders) Middleware.DefaultLoggerOptions
          Fixtures.conf next Fixtures.env Fixtures.recorder
          (Fixtures.post "application/x-www-form-urlencoded" (Http.NewBuffer "a=1"))))
  = Some (Some (Http.NewBuffer EmptyString), Some {[ "a"%string := ["1"%string] ]})
  /\ map Logrus.message
       (take 2
          (Middleware.events
             (Middleware.WithLogger (H := Fixtures.decoders) Middleware.DefaultLoggerOptions
                Fixtures.conf next Fixtures.env Fixtures.recorder
                (Fixtures.post "application/x-www-form-urlencoded" (Http.NewBuffer "a=1")))))
     = ["request started"; "form-urlencoded request-body parsed"]%string.
Proof.
  edestruct (WithLogger_passed (H := Fixtures.decoders) Middleware.DefaultLoggerOptions
               Fixtures.conf next Fixtures.env Fixtures.recorder
               (Fixtures.post "application/x-www-form-urlencoded" (Http.NewBuffer "a=1")))
    as (wrapped & ctx & Hserved & _ & _ & Hevents).
  { vm_compute. reflexivity. }
  rewrite Hserved. split; [|exact Hevents].
  vm_compute. reflexivity.
Qed.

(** C5, the code at the failing input: for [Content-Type: Application/JSON]
    and the body [not-json], whatever the JSON decoder says, the allow-list
    test passes, the body is logged as raw text ([request-body parsed]),
    no response is written before the handler, and the handler is called
    with the body restored; the lower-case content type is answered 400
    (C1). *)
Theorem C5_mixed_case_json_is_logged_raw `{Decoders} (next : Middleware.Handler) :
  Middleware.shouldLogBody "Application/JSON" = true
  /\ option_map
       (fun served =>
          (Http.sent (Middleware.ResponseWriter (fst served)), Http.Body (snd served)))
       (Middleware.served
          (Middleware.WithLogger Middleware.DefaultLoggerOptions Fixtures.conf next
             Fixtures.env Fixtures.recorder
             (Fixtures.post "Application/JSON" (Http.NewBuffer "not-json"))))
     = Some (None, Some (Http.NewBuffer "not-json"))
  /\ map Logrus.message
       (take 2
          (Middleware.events
             (Middleware.WithLogger Middleware.DefaultLoggerOptions Fixtures.conf next
                Fixtures.env Fixtures.recorder
                (Fixtures.post "Application/JSON" (Http.NewBuffer "not-json")))))
     = ["request started"; "request-body parsed"]%string.
Proof.
  assert (Hlog : Middleware.shouldLogBody "Application/JSON" = true).
  { rewrite shouldLogBody_ascii by reflexivity. reflexivity. }
  split; [exact Hlog |].
  edestruct (WithLogger_passed Middleware.DefaultLoggerOptions
               Fixtures.conf next Fixtures.env Fixtures.recorder
               (Fixtures.post "Application/JSON" (Http.NewBuffer "not-json")))
    as (wrapped & ctx & Hserved & Hsent & _ & Hevents).
  { unfold Middleware.logRequestBody.
    change (Http.Get (Http.Header_ (Fixtures.post "Application/JSON"
                                      (Http.NewBuffer "not-json"))) "Content-Type")
      with "Application/JSON"%string.
    rewrite Hlog. vm_compute. reflexivity. }
  rewrite Hserved. split; [|exact Hevents].
  simpl. now rewrite Hsent.
Qed.

(** ** [WithLogger]: the response body *)
Section ResponseBodyFacts.
Context `{Decoders}.
Import Middleware.
Implicit Types (w : statusResponseWriter).

Lemma same_response_refl w : same_response w w.
Proof. repeat split. Qed.

Lemma same_response_trans w1 w2 w3 :
  same_response w1 w2 -> same_response w2 w3 -> same_response w1 w3.
Proof.
  intros (Ha & Hb & Hc & Hd) (Ha' & Hb' & Hc' & Hd').
  repeat split; congruence.
Qed.

Lemma Flush_sent (u : Http.ResponseWriter) :
  Http.sent (Http.Flush u)
  = Some (default (Http.StatusOK, Http.header u) (Http.sent u)).
Proof.
  unfold Http.Flush.
  destruct (Http.sent u) as [s|] eqn:Hsent.
  - rewrite (WriteHeader_sent _ _ s Hsent). simpl. now rewrite Hsent.
  - rewrite WriteHeader_fresh by (try assumption; unfold Http.StatusOK; lia).
    reflexivity.
Qed.

Lemma Flush_reader w :
  Http.reader (ResponseWriter (Flush w)) = Http.reader (ResponseWriter w).
Proof.
  unfold Flush. destruct (Http.flusher (ResponseWriter w)); [|reflexivity].
  unfold Http.Flush. simpl. apply reader_WriteHeader.
Qed.

(** Flushing sends the header if it was not sent yet, with the status
    the client would get anyway. *)
Lemma Flush_same_response w : same_response w (Flush w).
Proof.
  unfold Flush. destruct (Http.flusher (ResponseWriter w)); [|apply same_response_refl].
  unfold same_response, Status. cbn [ResponseWriter statusCode].
  assert (Hh : Http.header (Http.Flush (ResponseWriter w)) = Http.header (ResponseWriter w))
    by (unfold Http.Flush; simpl; apply header_WriteHeader).
  assert (Hb : Http.body (Http.Flush (ResponseWriter w)) = Http.body (ResponseWriter w))
    by (unfold Http.Flush; simpl; apply body_WriteHeader).
  unfold Http.response. rewrite Flush_sent, Hh, Hb.
  destruct (Http.sent (ResponseWriter w)) as [[code h]|]; simpl; auto.
Qed.

Lemma with_content_same_response w :
  same_response w (with_content w (Http.content (ResponseWriter w))).
Proof. repeat split. Qed.

(** What the phase does to the writer: nothing, or a flush followed,
    on a sink that is a reader, by the reads of [io.Copy]. *)
Lemma logResponseBody_writer opts fieldsLogger w :
  fst (logResponseBody opts fieldsLogger w)
  = if LogResponseBody opts
       && shouldLogBody (Http.Get (Http.header (ResponseWriter w)) "Content-Type")
    then match Http.reader (ResponseWriter (Flush w)) with
         | Some read =>
             with_content (Flush w) (snd (read (Http.content (ResponseWriter (Flush w)))))
         | None => Flush w
         end
    else w.
Proof.
  unfold logResponseBody.
  destruct (_ && _); [|reflexivity].
  destruct (Http.reader (ResponseWriter (Flush w))) as [read|]; [|reflexivity].
  destruct (read (Http.content (ResponseWriter (Flush w)))) as [[bodyBuf err] c].
  repeat match goal with
         | |- context [match ?x with _ => _ end] => destruct x
         end; reflexivity.
Qed.

Lemma logResponseBody_same_response opts fieldsLogger w :
  LogResponseBody opts
    && shouldLogBody (Http.Get (Http.header (ResponseWriter w)) "Content-Type") = false
  \/ Http.readsAside (ResponseWriter w) ->
  same_response w (fst (logResponseBody opts fieldsLogger w)).
Proof.
  intros Hquiet. rewrite logResponseBody_writer.
  destruct (_ && _); [|apply same_response_refl].
  destruct Hquiet as [Hoff | Haside]; [discriminate |].
  unfold Http.readsAside in Haside. rewrite <- (Flush_reader w) in Haside.
  destruct (Http.reader (ResponseWriter (Flush w))) as [read|];
    [|apply Flush_same_response].
  rewrite Haside.
  apply (same_response_trans _ (Flush w));
    [apply Flush_same_response | apply with_content_same_response].
Qed.
End ResponseBodyFacts.

(** C8, as stated, fails on a sink whose [Read] consumes what was
    written: the handler answers 201 with the JSON body [true] into a
    sink that buffers the body and reads from that buffer; the phase
    reads the sink, logs the parsed body, and leaves the buffer empty,
    so the body the handler left is gone from the response. *)
Lemma C8_reading_the_sink_can_drain_the_body :
  option_map
    (fun served =>
       Http.response
         (Middleware.ResponseWriter (Fixtures.created (fst served) (snd served))))
    (Middleware.served
       (Middleware.WithLogger (H := Fixtures.decoders) Middleware.DefaultLoggerOptions
          Fixtures.conf Fixtures.created Fixtures.env Samples.buffered
          (Fixtures.post "text/plain" (Http.NewBuffer "hi"))))
  = Some (201,
          {[ "Content-Type" := ["application/json"%string];
             "X-Request-Id" := [Middleware.uuid Fixtures.env] ]},
          "true"%string)
  /\ Http.response
       (Middleware.writer
          (Middleware.WithLogger (H := Fixtures.decoders) Middleware.DefaultLoggerOptions
             Fixtures.conf Fixtures.created Fixtures.env Samples.buffered
             (Fixtures.post "text/plain" (Http.NewBuffer "hi"))))
     = (201,
        {[ "Content-Type" := ["application/json"%string];
           "X-Request-Id" := [Middleware.uuid Fixtures.env] ]},
        EmptyString)
  /\ map Logrus.message
       (Middleware.events
          (Middleware.WithLogger (H := Fixtures.decoders) Middleware.DefaultLoggerOptions
             Fixtures.conf Fixtures.created Fixtures.env Samples.buffered
             (Fixtures.post "text/plain" (Http.NewBuffer "hi"))))
     = ["request started"; "request completed"; "JSON response-body parsed"]%string.
Proof. split; [|split]; vm_compute; reflexivity. Qed.

(** C8, amended: the response-body logging phase itself never writes a
    header, a body or a header field.  When it runs (response logging
    enabled and an allow-listed Content-Type in the header map) it
    flushes the writer and, if the sink is an [io.Reader], reads it;
    otherwise it leaves the writer untouched.  The flush, on a flusher,
    sends the header if it was not sent yet, with status 200 and the
    headers as they stand.  So whenever the phase does not run, or the
    sink is not a reader or is one whose [Read] leaves the response
    alone, then on every path (sink not readable, read failure, JSON or
    XML parse failure, success) the status, the sent headers, the header
    map and the body the client sees are those the handler left, and so
    is [Status()]; the phase only adds events.  For the middleware as a
    whole: when the handler was called and left such a sink, the
    response in the sink at the end is the one the handler left. *)
Theorem C8_response_logging_leaves_response `{Decoders}
    (opts : Middleware.LoggerOptions) (conf : Middleware.Configuration)
    (next : Middleware.Handler) (env : Middleware.Env)
    (fieldsLogger : Logrus.Fields) (wrapped : Middleware.statusResponseWriter)
    (w : Http.ResponseWriter) (r : Http.Request) :
  fst (Middleware.logResponseBody opts fieldsLogger wrapped)
  = (if Middleware.LogResponseBody opts
        && Middleware.shouldLogBody
             (Http.Get (Http.header (Middleware.ResponseWriter wrapped)) "Content-Type")
     then match Http.reader (Middleware.ResponseWriter (Middleware.Flush wrapped)) with
          | Some read =>
              Middleware.with_content (Middleware.Flush wrapped)
                (snd (read (Http.content
                              (Middleware.ResponseWriter (Middleware.Flush wrapped)))))
          | None => Middleware.Flush wrapped
          end
     else wrapped)
  /\ Http.sent (Middleware.ResponseWriter (Middleware.Flush wrapped))
     = (if Http.flusher (Middleware.ResponseWriter wrapped)
        then Some (default (200, Http.header (Middleware.ResponseWriter wrapped))
                     (Http.sent (Middleware.ResponseWriter wrapped)))
        else Http.sent (Middleware.ResponseWriter wrapped))
  /\ (Middleware.LogResponseBody opts
        && Middleware.shouldLogBody
             (Http.Get (Http.header (Middleware.ResponseWriter wrapped)) "Content-Type")
      = false
      \/ Http.readsAside (Middleware.ResponseWriter wrapped) ->
      Middleware.same_response wrapped
        (fst (Middleware.logResponseBody opts fieldsLogger wrapped)))
  /\ match Middleware.served (Middleware.WithLogger opts conf next env w r) with
     | Some (handed, request) =>
         Http.readsAside (Middleware.ResponseWriter (next handed request)) ->
         Http.response (Middleware.writer (Middleware.WithLogger opts conf next env w r))
         = Http.response (Middleware.ResponseWriter (next handed request))
     | None => True
     end.
Proof.
  split; [apply logResponseBody_writer |].
  split.
  { unfold Middleware.Flush.
    destruct (Http.flusher (Middleware.ResponseWriter wrapped)); [|reflexivity].
    apply Flush_sent. }
  split; [apply logResponseBody_same_response |].
  unfold Middleware.WithLogger.
  destruct (Middleware.logRequestBody _ _ w r) as [[w1 evs] [r1|]]; [|exact I].
  destruct (Otel.HasTraceID _); simpl;
    match goal with
    | |- context [Middleware.logResponseBody ?o ?f ?x] =>
        pose proof (logResponseBody_same_response o f x) as Hsame;
        destruct (Middleware.logResponseBody o f x); simpl in *;
        intros Haside; destruct (Hsame (or_intror Haside)) as (Hresponse & _);
        exact Hresponse
    end.
Qed.

(** C8, on a sink that reads from a copy of what was written: the
    handler answers 201 with the JSON body [true]; the phase flushes,
    reads the body back and logs it, and the response is the one the
    handler left. *)
Lemma C8_response_logging_leaves_response_witness :
  Http.readsAside Samples.copying
  /\ Http.response
       (Middleware.ResponseWriter
          (fst (Middleware.logResponseBody (H := Fixtures.decoders)
                  Middleware.DefaultLoggerOptions ∅
                  (Fixtures.created (Middleware.wrapResponseWriter Samples.copying)
                     (Fixtures.post "text/plain" (Http.NewBuffer "hi"))))))
     = (201, {[ "Content-Type" := ["application/json"%string] ]}, "true"%string)
  /\ map Logrus.message
       (snd (Middleware.logResponseBody (H := Fixtures.decoders)
               Middleware.DefaultLoggerOptions ∅
               (Fixtures.created (Middleware.wrapResponseWriter Samples.copying)
                  (Fixtures.post "text/plain" (Http.NewBuffer "hi")))))
     = ["JSON response-body parsed"%string].
Proof.
  assert (Haside : Http.readsAside Samples.copying) by (intros c; reflexivity).
  split; [exact Haside |].
  split; [|vm_compute; reflexivity].
  assert (Hkept : Http.readsAside
                    (Middleware.ResponseWriter
                       (Fixtures.created (Middleware.wrapResponseWriter Samples.copying)
                          (Fixtures.post "text/plain" (Http.NewBuffer "hi")))))
    by (intros c; reflexivity).
  destruct (proj1 (proj2 (proj2
              (C8_response_logging_leaves_response (H := Fixtures.decoders)
                 Middleware.DefaultLoggerOptions Fixtures.conf Fixtures.created Fixtures.env
                 ∅ (Fixtures.created (Middleware.wrapResponseWriter Samples.copying)
                      (Fixtures.post "text/plain" (Http.NewBuffer "hi")))
                 Samples.copying (Fixtures.post "text/plain" (Http.NewBuffer "hi")))))
              (or_intror Hkept)) as (Hsame & _).
  rewrite Hsame. vm_compute. reflexivity.
Defined.

(** ** The test suite's context pipeline *)
Section PipelineFacts.
Import Ctx Itf.
Implicit Types (s : Suite) (r : Http.Request) (ctx : Context).

Lemma runHooks_snoc hooks hook ctx :
  runHooks (hooks ++ [hook]) ctx = hook (runHooks hooks ctx).
Proof. unfold runHooks. now rewrite fold_left_app. Qed.

Lemma runMiddlewares_snoc mws mw r ctx :
  runMiddlewares (mws ++ [mw]) r ctx = mw (runMiddlewares mws r ctx) r.
Proof. unfold runMiddlewares. now rewrite fold_left_app. Qed.

(** The attachments add layers on top of the context they are given:
    the caller's own keys stay visible through them. *)
Lemma attach_keeps_caller_keys s r ctx name :
  Lookup (attach s r ctx) (CallerKey name) = Lookup ctx (CallerKey name).
Proof.
  unfold attach. destruct (user s), (User (env s)); reflexivity.
Qed.

Lemma attach_params s r ctx :
  Lookup (attach s r ctx) ParamsKey
  = Some (VParams
            {| IP := "127.0.0.1"; UserAgent := "test-agent";
               Authenticated :=
                 bool_decide
                   (is_Some (match user s with Some u => Some u | None => User (env s) end)) |}).
Proof. reflexivity. Qed.
End PipelineFacts.

(** C4, as stated, fails: a before-each hook that notes whether the
    request parameters are attached to the context it receives sees none,
    because the code runs the hooks before the standard attachments; with
    the attachments applied first it would see them.  The two pipelines
    hand different requests to the handler. *)
Lemma C4_hooks_run_before_attachments :
  Ctx.Lookup
    (Http.Context_
       (Itf.setupMiddleware Fixtures.suite (Fixtures.post "text/plain" (Http.NewBuffer "hi"))))
    (Ctx.CallerKey "saw-params") = Some (Ctx.VBool false)
  /\ Ctx.Lookup
       (Http.Context_
          (Itf.setupMiddleware_as_specified Fixtures.suite
             (Fixtures.post "text/plain" (Http.NewBuffer "hi"))))
       (Ctx.CallerKey "saw-params") = Some (Ctx.VBool true)
  /\ Itf.setupMiddleware Fixtures.suite (Fixtures.post "text/plain" (Http.NewBuffer "hi"))
     <> Itf.setupMiddleware_as_specified Fixtures.suite
          (Fixtures.post "text/plain" (Http.NewBuffer "hi")).
Proof.
  assert (Hcode :
    Ctx.Lookup
      (Http.Context_
         (Itf.setupMiddleware Fixtures.suite (Fixtures.post "text/plain" (Http.NewBuffer "hi"))))
      (Ctx.CallerKey "saw-params") = Some (Ctx.VBool false)) by (vm_compute; reflexivity).
  assert (Hspec :
    Ctx.Lookup
      (Http.Context_
         (Itf.setupMiddleware_as_specified Fixtures.suite
            (Fixtures.post "text/plain" (Http.NewBuffer "hi"))))
      (Ctx.CallerKey "saw-params") = Some (Ctx.VBool true)) by (vm_compute; reflexivity).
  split; [exact Hcode |]. split; [exact Hspec |].
  intros Heq. rewrite Heq, Hspec in Hcode. discriminate.
Qed.

(** C4, amended: the before-each hooks are applied first, to the context
    of the incoming request, in registration order; the standard
    attachments (identity, pool, session, tenant id, application handle,
    logger, params with IP [127.0.0.1] and user agent [test-agent], page
    context) are applied to the result; the custom middleware functions
    are applied last, in registration order.  So a hook registered later
    runs on the result of the earlier hooks and before the attachments, a
    middleware registered later runs on the finished context of the
    earlier pipeline, the standard values are what the handler finds under
    the standard keys whatever the hooks did, and what the hooks stored
    under their own keys stays visible. *)
Theorem C4_hooks_attachments_middlewares
    (s : Itf.Suite) (r : Http.Request) (hook : Itf.HookFunc) (mw : Itf.MiddlewareFunc) :
  Http.Context_ (Itf.setupMiddleware s r)
  = Itf.runMiddlewares (Itf.middlewares s) r
      (Itf.attach s r (Itf.runHooks (Itf.beforeEach s) (Http.Context_ r)))
  /\ Http.Context_ (Itf.setupMiddleware (Itf.BeforeEach s hook) r)
     = Itf.runMiddlewares (Itf.middlewares s) r
         (Itf.attach s r (hook (Itf.runHooks (Itf.beforeEach s) (Http.Context_ r))))
  /\ Http.Context_ (Itf.setupMiddleware (Itf.WithMiddleware s mw) r)
     = mw (Http.Context_ (Itf.setupMiddleware s r)) r
  /\ (forall ctx,
         Ctx.Lookup (Itf.attach s r ctx) Ctx.ParamsKey
         = Some (Ctx.VParams
                   {| Ctx.IP := "127.0.0.1"; Ctx.UserAgent := "test-agent";
                      Ctx.Authenticated :=
                        bool_decide
                          (is_Some (match Itf.user s with
                                    | Some u => Some u
                                    | None => Itf.User (Itf.env s)
                                    end)) |})
         /\ Ctx.Lookup (Itf.attach s r ctx) Ctx.PoolKey = Some (Ctx.VPool (Itf.Pool (Itf.env s)))
         /\ Ctx.Lookup (Itf.attach s r ctx) Ctx.SessionKey = Some Ctx.VSession
         /\ Ctx.Lookup (Itf.attach s r ctx) Ctx.TenantIDKey
            = Some (Ctx.VTenantID (Itf.TenantID (Itf.env s)))
         /\ Ctx.Lookup (Itf.attach s r ctx) Ctx.AppKey = Some (Ctx.VApp (Itf.App (Itf.env s)))
         /\ Ctx.Lookup (Itf.attach s r ctx) Ctx.PageContextKey
            = Some (Ctx.VPageContext
                      {| Ctx.Locale := "en"; Ctx.URL := Http.Path r; Ctx.Localizer := "en" |})
         /\ forall name,
              Ctx.Lookup (Itf.attach s r ctx) (Ctx.CallerKey name)
              = Ctx.Lookup ctx (Ctx.CallerKey name)).
Proof.
  split; [reflexivity |]. split; [|split].
  - unfold Itf.setupMiddleware. simpl. now rewrite runHooks_snoc.
  - unfold Itf.setupMiddleware. simpl. now rewrite runMiddlewares_snoc.
  - intros ctx. split; [apply attach_params |].
    repeat split; try reflexivity.
    intros name. apply attach_keeps_caller_keys.
Qed.

(** ** The request builder *)
Section BuilderFacts.
Context `{Encoders}.
Import Itf.
Implicit Types (r : Request) (e : Encoding) (es : list Encoding).

Lemma encodeAll_snoc es : forall r e,
  encodeAll r (es ++ [e])
  = match encodeAll r es with
    | Some r' => encode r' e
    | None => None
    end.
Proof.
  induction es as [|e' es IH]; intros r e; simpl.
  - destruct (encode r e); reflexivity.
  - destruct (encode r e'); [apply IH | reflexivity].
Qed.

Lemma content_type_Set (h : Http.Header) value :
  Http.Set_ h "Content-Type" value !! "Content-Type" = Some [value].
Proof. unfold Http.Set_. apply lookup_insert_eq. Qed.

(** Whether a body-encoding call succeeds, and the body and content
    type it leaves, do not depend on the builder it is applied to. *)
Lemma encode_overwrites e r1 r2 r2' :
  encode r2 e = Some r2' ->
  exists r1',
    encode r1 e = Some r1'
    /\ body r2' = body r1'
    /\ headers r2' !! "Content-Type" = headers r1' !! "Content-Type".
Proof.
  destruct e as [v | values | data boundary order]; simpl.
  - unfold JSON. destruct (json_Marshal v); [|discriminate].
    intros [= <-]. eexists. split; [reflexivity |]. simpl.
    now rewrite !content_type_Set.
  - intros [= <-]. eexists. split; [reflexivity |]. simpl.
    now rewrite !content_type_Set.
  - intros [= <-]. eexists. split; [reflexivity |]. simpl.
    now rewrite !content_type_Set.
Qed.
End BuilderFacts.

(** C9: JSON, Form and MultipartData each replace the body and the
    Content-Type of the builder.  After any chain of body-encoding calls
    that ends with the call [e] (and in which no call ended the test), the
    body and the Content-Type header are those the call [e] alone produces
    on the builder the chain started from. *)
Theorem C9_last_encoding_wins `{Encoders}
    (r0 : Itf.Request) (es : list Itf.Encoding) (e : Itf.Encoding) (r' : Itf.Request) :
  Itf.encodeAll r0 (es ++ [e]) = Some r' ->
  exists r1,
    Itf.encode r0 e = Some r1
    /\ Itf.body r' = Itf.body r1
    /\ Itf.headers r' !! "Content-Type" = Itf.headers r1 !! "Content-Type"
    /\ Http.Get (Itf.headers r') "Content-Type" = Http.Get (Itf.headers r1) "Content-Type".
Proof.
  rewrite encodeAll_snoc.
  destruct (Itf.encodeAll r0 es) as [r2|]; [|discriminate].
  intros Hlast.
  destruct (encode_overwrites e r0 r2 r' Hlast) as (r1 & Halone & Hbody & Hct).
  exists r1. repeat split; try assumption.
  unfold Http.Get.
  change (Http.CanonicalMIMEHeaderKey "Content-Type") with "Content-Type"%string.
  now rewrite Hct.
Qed.

(** C9, on a chain JSON, multipart, form: the body and the Content-Type
    are those of the form call alone. *)
Lemma C9_last_encoding_wins_witness :
  exists r1,
    Itf.encode Fixtures.blank Fixtures.final = Some r1
    /\ Itf.body Fixtures.chained = Itf.body r1
    /\ Itf.headers Fixtures.chained !! "Content-Type" = Itf.headers r1 !! "Content-Type"
    /\ Http.Get (Itf.headers Fixtures.chained) "Content-Type"
       = Http.Get (Itf.headers r1) "Content-Type".
Proof.
  apply (C9_last_encoding_wins (H := Fixtures.encoders) Fixtures.blank Fixtures.earlier
           Fixtures.final Fixtures.chained).
  vm_compute. reflexivity.
Defined.

(** * Further properties *)

(** ** [fp.Reduce], [fp.ReduceWithIndex], [fp.ReduceWithSlice] *)
Section ReduceMoreFacts.
Context {T R : Type}.

Lemma range_app (callback : R -> T -> R) (xs ys : list T) : forall acc,
  Fp.range callback acc (xs ++ ys) = Fp.range callback (Fp.range callback acc xs) ys.
Proof. induction xs as [|x xs IH]; intros acc; simpl; [reflexivity | apply IH]. Qed.

Lemma index_range_fold (callback : R -> T -> Z -> R) (xs : list T) : forall acc i,
  FpIndex.range callback acc i xs
  = fold_left (fun a p => callback a (snd p) (fst p))
      (imap (fun j x => (i + Z.of_nat j, x)) xs) acc.
Proof.
  induction xs as [|x xs IH]; intros acc i; simpl; [reflexivity |].
  rewrite IH, Z.add_0_r. f_equal. apply imap_ext. intros j y _. simpl. f_equal. lia.
Qed.

Lemma slice_range_index (callback : R -> T -> Z -> list T -> R) (xs rest : list T) :
  forall acc i,
  FpIndex.rangeSlice callback acc i xs rest
  = FpIndex.range (fun a x j => callback a x j xs) acc i rest.
Proof. induction rest as [|x rest IH]; intros acc i; simpl; [reflexivity | apply IH]. Qed.

Lemma index_range_ignoring (g : R -> T -> R) (xs : list T) : forall acc i,
  FpIndex.range (fun a x _ => g a x) acc i xs = Fp.range g acc xs.
Proof. induction xs as [|x xs IH]; intros acc i; simpl; [reflexivity | apply IH]. Qed.
End ReduceMoreFacts.

(** X1: applying a function returned by [fp.Reduce], in whatever state its
    accumulator is, to an empty slice returns the accumulator and leaves
    it as it is, and applying it to a concatenation gives the result and
    the state of applying it to the two pieces in turn. *)
Theorem X1_reduce_splits_over_calls (T R : Type) (f : Fp.Reducer T R) (xs ys : list T) :
  Fp.call f [] = (Fp.acc f, f)
  /\ Fp.call f (xs ++ ys) = Fp.call (snd (Fp.call f xs)) ys.
Proof.
  split.
  - destruct f. reflexivity.
  - unfold Fp.call. simpl. now rewrite range_app.
Qed.

(** X2: the function returned by [fp.ReduceWithIndex] folds the callback
    over the elements paired with their positions, counted from 0.  The
    accumulator is kept between calls but the positions are not: a second
    call starts from the first result and counts from 0 again.  With a
    callback that ignores the position it returns what [fp.Reduce]
    returns. *)
Theorem X2_reduce_with_index (T R : Type) (callback : R -> T -> Z -> R) (g : R -> T -> R)
    (acc : R) (xs ys : list T) :
  fst (FpIndex.call (FpIndex.ReduceWithIndex callback acc) xs)
  = fold_left (fun a p => callback a (snd p) (fst p)) (FpIndex.indexed xs) acc
  /\ fst (FpIndex.call (snd (FpIndex.call (FpIndex.ReduceWithIndex callback acc) xs)) ys)
     = fold_left (fun a p => callback a (snd p) (fst p)) (FpIndex.indexed ys)
         (fst (FpIndex.call (FpIndex.ReduceWithIndex callback acc) xs))
  /\ fst (FpIndex.call (FpIndex.ReduceWithIndex (fun a x _ => g a x) acc) xs)
     = fst (Fp.call (Fp.Reduce g acc) xs).
Proof.
  unfold FpIndex.call, FpIndex.indexed. simpl.
  split; [apply index_range_fold |]. split; [apply index_range_fold |].
  apply index_range_ignoring.
Qed.

(** X3: the function returned by [fp.ReduceWithSlice] hands the callback,
    at every element, the position counted from 0 and the whole slice of
    the current call (not the rest of it, and not the slice of an earlier
    call). *)
Theorem X3_reduce_with_slice (T R : Type) (callback : R -> T -> Z -> list T -> R)
    (acc : R) (xs ys : list T) :
  fst (FpIndex.callSlice (FpIndex.ReduceWithSlice callback acc) xs)
  = fold_left (fun a p => callback a (snd p) (fst p) xs) (FpIndex.indexed xs) acc
  /\ fst (FpIndex.callSlice
            (snd (FpIndex.callSlice (FpIndex.ReduceWithSlice callback acc) xs)) ys)
     = fold_left (fun a p => callback a (snd p) (fst p) ys) (FpIndex.indexed ys)
         (fst (FpIndex.callSlice (FpIndex.ReduceWithSlice callback acc) xs)).
Proof.
  unfold FpIndex.callSlice, FpIndex.indexed. simpl.
  rewrite !slice_range_index, !index_range_fold. split; reflexivity.
Qed.

(** ** [WithLogger]: what the request-body step changes and when it stops *)
Section RequestStepFacts.
Context `{Decoders}.
Import Middleware.
Implicit Types (opts : LoggerOptions) (fieldsLogger : Logrus.Fields)
  (w : Http.ResponseWriter) (r : Http.Request).

Lemma ParseForm_envelope r err r' :
  HttpForm.ParseForm r = (err, r') -> Frame.envelope r' = Frame.envelope r.
Proof.
  unfold HttpForm.ParseForm, HttpForm.parsePostForm.
  destruct (Http.PostForm r).
  - simpl. destruct (Http.Form r); [intros [= _ <-]; reflexivity |].
    destruct (url_ParseQuery (Http.RawQuery r)). intros [= _ <-]. reflexivity.
  - destruct (HttpForm.reads_body (Http.Method r)).
    + destruct (Http.Body r) as [rd|].
      * destruct (mime_ParseMediaType _) as [mediaType merr].
        destruct (String.eqb mediaType _).
        -- destruct (Http.ReadAllLimited _ rd) as [[b e] rd'].
           destruct e; simpl.
           ++ destruct (Http.Form r); [intros [= _ <-]; reflexivity |].
              destruct (url_ParseQuery (Http.RawQuery r)). intros [= _ <-]. reflexivity.
           ++ destruct (_ <? _)%N; simpl.
              ** destruct (Http.Form r); [intros [= _ <-]; reflexivity |].
                 destruct (url_ParseQuery (Http.RawQuery r)). intros [= _ <-]. reflexivity.
              ** destruct (url_ParseQuery b); simpl.
                 destruct (Http.Form r); [intros [= _ <-]; reflexivity |].
                 destruct (url_ParseQuery (Http.RawQuery r)). intros [= _ <-]. reflexivity.
        -- simpl. destruct (Http.Form r); [intros [= _ <-]; reflexivity |].
           destruct (url_ParseQuery (Http.RawQuery r)). intros [= _ <-]. reflexivity.
      * simpl. destruct (Http.Form r); [intros [= _ <-]; reflexivity |].
        destruct (url_ParseQuery (Http.RawQuery r)). intros [= _ <-]. reflexivity.
    + simpl. destruct (Http.Form r); [intros [= _ <-]; reflexivity |].
      destruct (url_ParseQuery (Http.RawQuery r)). intros [= _ <-]. reflexivity.
Qed.

(** A request-body step that goes through writes nothing to the sink and
    changes nothing of the request but its body and parsed forms. *)
Lemma logRequestBody_passes opts fieldsLogger w r w1 evs r1 :
  logRequestBody opts fieldsLogger w r = (w1, evs, Some r1) ->
  w1 = w /\ Frame.envelope r1 = Frame.envelope r.
Proof.
  unfold logRequestBody.
  destruct (if _ && _ then Http.Body r else None) as [body|];
    [|intros [= <- _ <-]; auto].
  destruct (Http.Copy body) as [[bodyBuf [err|]] rd]; [discriminate |].
  destruct (Strings.Contains _ "application/json").
  { destruct (json_Unmarshal bodyBuf); [|discriminate]. intros [= <- _ <-]. auto. }
  destruct (Strings.Contains _ "application/x-www-form-urlencoded").
  { destruct (HttpForm.ParseForm _) as [[err|] r2] eqn:Hparse; [discriminate |].
    intros [= <- _ <-]. split; [reflexivity |].
    now rewrite (ParseForm_envelope _ _ _ Hparse). }
  destruct (_ || _).
  - destruct (xml_Unmarshal bodyBuf); [discriminate |]. intros [= <- _ <-]. auto.
  - intros [= <- _ <-]. auto.
Qed.

Lemma logRequestBody_abort_cases opts fieldsLogger w r w1 evs :
  logRequestBody opts fieldsLogger w r = (w1, evs, None) ->
  LogRequestBody opts = true
  /\ shouldLogBody (Http.Get (Http.Header_ r) "Content-Type") = true
  /\ exists code msg err,
       In (code, msg) Frame.abort_reasons
       /\ w1 = Http.Error w msg code
       /\ evs = [Logrus.Error (Logrus.WithError fieldsLogger err) msg].
Proof.
  unfold logRequestBody, Frame.abort_reasons.
  destruct (LogRequestBody opts); [|discriminate].
  destruct (shouldLogBody _); [|discriminate]. cbn [andb].
  destruct (Http.Body r) as [body|]; [|discriminate].
  destruct (Http.Copy body) as [[bodyBuf [err|]] rd].
  { intros [= <- <-]. repeat split. eexists _, _, _. simpl. eauto. }
  destruct (Strings.Contains _ "application/json").
  { destruct (json_Unmarshal bodyBuf); [discriminate |]. intros [= <- <-].
    repeat split. eexists _, _, _. simpl. eauto. }
  destruct (Strings.Contains _ "application/x-www-form-urlencoded").
  { destruct (HttpForm.ParseForm _) as [[err|] r2]; [|discriminate].
    intros [= <- <-]. repeat split. eexists _, _, _. simpl. eauto 6. }
  destruct (_ || _); [|discriminate].
  destruct (xml_Unmarshal bodyBuf); [|discriminate]. intros [= <- <-].
  repeat split. eexists _, _, _. simpl. eauto 7.
Qed.
End RequestStepFacts.

Section ServedFacts.
Context `{Decoders}.
Import Middleware.
Implicit Types (opts : LoggerOptions) (w : Http.ResponseWriter) (r : Http.Request).

Local Abbreviation requestLogger r conf env :=
  ({[ "request-id" := Logrus.FString (getRequestID r conf env);
      "path" := Logrus.FString (Http.RequestURI r);
      "method" := Logrus.FString (Http.Method r) ]} : Logrus.Fields).

(** A run in which the handler is not called: the request-body step
    ended it, and the log is [request started] and the events of the
    step. *)
Lemma WithLogger_not_served opts conf next env w r :
  served (WithLogger opts conf next env w r) = None ->
  exists w1 evs started,
    logRequestBody opts (requestLogger r conf env) w r = (w1, evs, None)
    /\ writer (WithLogger opts conf next env w r) = w1
    /\ events (WithLogger opts conf next env w r) = started :: evs
    /\ Logrus.message started = "request started"%string.
Proof.
  unfold WithLogger.
  destruct (logRequestBody _ _ w r) as [[w1 evs] [r1|]].
  - destruct (Otel.HasTraceID (span env)); simpl;
      destruct (logResponseBody _ _ _); discriminate.
  - intros _. eexists _, _, _. repeat split.
Qed.

(** A run in which the handler is called: the header map the handler's
    writer starts with, the context of its request, and the log. *)
Lemma WithLogger_served_run opts conf next env w r wrapped request :
  served (WithLogger opts conf next env w r) = Some (wrapped, request) ->
  exists evs r1 started completed after,
    logRequestBody opts (requestLogger r conf env) w r = (w, evs, Some r1)
    /\ Frame.envelope r1 = Frame.envelope r
    /\ wrapped
       = wrapResponseWriter
           (Http.with_header w
              (Http.Set_
                 (if Otel.HasTraceID (span env)
                  then Http.Set_
                         (Http.Set_ (Propagation.Inject (injected env) (Http.header w))
                            "X-Trace-Id" (Otel.TraceID (span env)))
                         "X-Span-Id" (Otel.SpanID (span env))
                  else Propagation.Inject (injected env) (Http.header w))
                 "X-Request-Id" (getRequestID r conf env)))
    /\ request
       = Http.WithContext r1
           (Ctx.WithValue
              (Ctx.WithValue
                 (Ctx.WithValue (Http.Context_ r1) Ctx.SpanKey (Ctx.VSpan (span env)))
                 Ctx.LoggerKey (Ctx.VLogger (requestLogger r conf env)))
              Ctx.RequestStart (Ctx.VTime (start env)))
    /\ events (WithLogger opts conf next env w r) = started :: evs ++ completed :: after
    /\ Logrus.message started = "request started"%string
    /\ Logrus.message completed = "request completed"%string
    /\ Logrus.data completed !! "status-code"
       = Some (Logrus.FInt (Status (next wrapped request)))
    /\ Logrus.data completed !! "status-class"
       = Some (Logrus.FInt (Status (next wrapped request) ÷ 100))
    /\ Logrus.level completed = Logrus.InfoLevel.
Proof.
  unfold WithLogger.
  destruct (logRequestBody _ _ w r) as [[w1 evs] [r1|]] eqn:Hstep; [|discriminate].
  destruct (logRequestBody_passes _ _ _ _ _ _ _ Hstep) as [-> Henv].
  intros Hserved. exists evs, r1.
  destruct (Otel.HasTraceID (span env)); simpl in Hserved |- *;
    destruct (logResponseBody _ _ _) as [final after]; simpl in Hserved |- *;
    injection Hserved as <- <-; eexists _, _, after;
    (split; [reflexivity |]); (split; [exact Henv |]);
    (split; [reflexivity |]); (split; [reflexivity |]);
    (split; [reflexivity |]); (split; [reflexivity |]); (split; [reflexivity |]);
    (split; [unfold Logrus.WithFields; simpl;
             apply lookup_union_Some_raw; left; reflexivity |]);
    (split; [unfold Logrus.WithFields; simpl;
             apply lookup_union_Some_raw; left; reflexivity | reflexivity]).
Qed.
End ServedFacts.

(** X4: with request-body logging enabled and an allow-listed
    Content-Type, a request whose body cannot be read to its end is
    answered with status 500 and the body [failed to read request-body]
    followed by a newline, whatever was read before the failure, and the
    downstream handler is not invoked. *)
Theorem X4_read_failure_is_500 `{Decoders}
    (opts : Middleware.LoggerOptions) (conf : Middleware.Configuration)
    (next : Middleware.Handler) (env : Middleware.Env)
    (w : Http.ResponseWriter) (r : Http.Request) (b : string) (err : error) :
  Middleware.LogRequestBody opts = true ->
  Middleware.shouldLogBody (Http.Get (Http.Header_ r) "Content-Type") = true ->
  Http.Body r = Some {| Http.pending := b; Http.failure := Some err |} ->
  Http.sent w = None ->
  Http.body w = EmptyString ->
  Middleware.served (Middleware.WithLogger opts conf next env w r) = None
  /\ exists h,
       Http.response (Middleware.writer (Middleware.WithLogger opts conf next env w r))
       = (500, h, "failed to read request-body" +:+ Http.newline).
Proof.
  intros Hopt Hct Hbody Hsent Hempty.
  destruct (WithLogger_aborted opts conf next env w r _ _
              (logRequestBody_read_failure opts _ w r b err Hopt Hct Hbody))
    as (Hserved & Hwriter & _).
  split; [exact Hserved |]. rewrite Hwriter.
  destruct (Error_fresh w "failed to read request-body" Http.StatusInternalServerError Hsent
              ltac:(vm_compute; split; discriminate))
    as (h & Hstatus & _ & Hwritten).
  exists h. unfold Http.response. rewrite Hstatus, Hwritten, Hempty. reflexivity.
Qed.

(** X4, on a recorder: a JSON POST whose body breaks off after one byte. *)
Lemma X4_read_failure_is_500_witness :
  Middleware.served
    (Middleware.WithLogger (H := Fixtures.decoders) Middleware.DefaultLoggerOptions
       Fixtures.conf Fixtures.created Fixtures.env Fixtures.recorder
       (Fixtures.post "application/json" Samples.broken)) = None
  /\ exists h,
       Http.response
         (Middleware.writer
            (Middleware.WithLogger (H := Fixtures.decoders) Middleware.DefaultLoggerOptions
               Fixtures.conf Fixtures.created Fixtures.env Fixtures.recorder
               (Fixtures.post "application/json" Samples.broken)))
       = (500, h, "failed to read request-body" +:+ Http.newline).
Proof.
  apply (X4_read_failure_is_500 (H := Fixtures.decoders) Middleware.DefaultLoggerOptions
           Fixtures.conf Fixtures.created Fixtures.env Fixtures.recorder
           (Fixtures.post "application/json" Samples.broken) "{" "unexpected EOF");
    reflexivity.
Defined.

(** X5: when request-body logging is disabled, or the Content-Type is not
    on the allow-list, or the request has no body, the middleware does
    not read the body: the handler is called with the request as it came
    (under a new context), nothing has been written to the sink, and the
    log goes from [request started] straight to [request completed]. *)
Theorem X5_unlogged_body_is_not_read `{Decoders}
    (opts : Middleware.LoggerOptions) (conf : Middleware.Configuration)
    (next : Middleware.Handler) (env : Middleware.Env)
    (w : Http.ResponseWriter) (r : Http.Request) :
  Middleware.LogRequestBody opts = false
  \/ Middleware.shouldLogBody (Http.Get (Http.Header_ r) "Content-Type") = false
  \/ Http.Body r = None ->
  exists wrapped ctx,
    Middleware.served (Middleware.WithLogger opts conf next env w r)
    = Some (wrapped, Http.WithContext r ctx)
    /\ Http.sent (Middleware.ResponseWriter wrapped) = Http.sent w
    /\ Http.body (Middleware.ResponseWriter wrapped) = Http.body w
    /\ map Logrus.message
         (take 2 (Middleware.events (Middleware.WithLogger opts conf next env w r)))
       = ["request started"; "request completed"]%string.
Proof.
  intros Hskip.
  assert (Hstep : forall fieldsLogger,
             Middleware.logRequestBody opts fieldsLogger w r = (w, [], Some r)).
  { intros fieldsLogger. unfold Middleware.logRequestBody.
    destruct Hskip as [-> | [-> | ->]]; [reflexivity | |].
    - now rewrite andb_false_r.
    - now destruct (_ && _). }
  destruct (WithLogger_passed opts conf next env w r w [] r (Hstep _))
    as (wrapped & ctx & Hserved & Hsent & Hbody & _).
  exists wrapped, ctx. repeat split; try assumption.
  destruct (WithLogger_served_run opts conf next env w r _ _ Hserved)
    as (evs & r1 & started & completed & after & Hstep' & _ & _ & _ & Hevents & Hs & Hc & _).
  rewrite Hstep in Hstep'. injection Hstep' as <- <-.
  rewrite Hevents. simpl. now rewrite Hs, Hc.
Qed.

(** X5, on a recorder: a multipart upload is not on the allow-list. *)
Lemma X5_unlogged_body_is_not_read_witness :
  exists wrapped ctx,
    Middleware.served
      (Middleware.WithLogger (H := Fixtures.decoders) Middleware.DefaultLoggerOptions
         Fixtures.conf Fixtures.idle Fixtures.env Fixtures.recorder
         (Fixtures.post "multipart/form-data; boundary=x" Samples.broken))
    = Some (wrapped,
            Http.WithContext (Fixtures.post "multipart/form-data; boundary=x" Samples.broken)
              ctx)
    /\ Http.sent (Middleware.ResponseWriter wrapped) = Http.sent Fixtures.recorder
    /\ Http.body (Middleware.ResponseWriter wrapped) = Http.body Fixtures.recorder
    /\ map Logrus.message
         (take 2
            (Middleware.events
               (Middleware.WithLogger (H := Fixtures.decoders) Middleware.DefaultLoggerOptions
                  Fixtures.conf Fixtures.idle Fixtures.env Fixtures.recorder
                  (Fixtures.post "multipart/form-data; boundary=x" Samples.broken))))
       = ["request started"; "request completed"]%string.
Proof.
  apply (X5_unlogged_body_is_not_read (H := Fixtures.decoders)).
  right. left. reflexivity.
Defined.

(** X6: the middleware ends a request without calling the handler only
    from the request-body step, and then request-body logging is enabled,
    the Content-Type is on the allow-list, and the response (on a sink
    nothing was written to) is one of four: 500 with
    [failed to read request-body], or 400 with
    [failed to parse JSON request-body],
    [failed to parse form-urlencoded request-body] or
    [failed to parse XML request-body], each followed by a newline; the
    log is [request started] and one error event with the same message. *)
Theorem X6_every_abort_is_a_body_failure `{Decoders}
    (opts : Middleware.LoggerOptions) (conf : Middleware.Configuration)
    (next : Middleware.Handler) (env : Middleware.Env)
    (w : Http.ResponseWriter) (r : Http.Request) :
  Middleware.served (Middleware.WithLogger opts conf next env w r) = None ->
  Http.sent w = None ->
  Http.body w = EmptyString ->
  Middleware.LogRequestBody opts = true
  /\ Middleware.shouldLogBody (Http.Get (Http.Header_ r) "Content-Type") = true
  /\ exists code msg h,
       In (code, msg) Frame.abort_reasons
       /\ Http.response (Middleware.writer (Middleware.WithLogger opts conf next env w r))
          = (code, h, msg +:+ Http.newline)
       /\ map Logrus.message (Middleware.events (Middleware.WithLogger opts conf next env w r))
          = ["request started"%string; msg]
       /\ map Logrus.level (Middleware.events (Middleware.WithLogger opts conf next env w r))
          = [Logrus.InfoLevel; Logrus.ErrorLevel].
Proof.
  intros Hserved Hsent Hempty.
  destruct (WithLogger_not_served opts conf next env w r Hserved)
    as (w1 & evs & started & Hstep & Hwriter & Hevents & Hstarted).
  destruct (logRequestBody_abort_cases _ _ _ _ _ _ Hstep)
    as (Hopt & Hct & code & msg & err & Hin & -> & ->).
  split; [exact Hopt |]. split; [exact Hct |].
  assert (Hcode : 200 <= code <= 999).
  { pose proof Hin as Hreason. simpl in Hreason.
    destruct Hreason as [[= <- _] | [[= <- _] | [[= <- _] | [[= <- _] | []]]]];
      vm_compute; split; discriminate. }
  destruct (Error_fresh w msg code Hsent Hcode) as (h & Hstatus & _ & Hwritten).
  exists code, msg, h. split; [exact Hin |].
  rewrite Hwriter, Hevents. unfold Http.response. rewrite Hstatus, Hwritten, Hempty.
  simpl. rewrite Hstarted. repeat split.
  f_equal.
  unfold Middleware.WithLogger in Hevents. rewrite Hstep in Hevents.
  simpl in Hevents. injection Hevents as <- . reflexivity.
Qed.

(** X6, on a recorder: the JSON POST with the body [not-json]. *)
Lemma X6_every_abort_is_a_body_failure_witness :
  exists code msg h,
    In (code, msg) Frame.abort_reasons
    /\ Http.response
         (Middleware.writer
            (Middleware.WithLogger (H := Fixtures.decoders) Middleware.DefaultLoggerOptions
               Fixtures.conf Fixtures.created Fixtures.env Fixtures.recorder
               (Fixtures.post "application/json" (Http.NewBuffer "not-json"))))
       = (code, h, msg +:+ Http.newline).
Proof.
  destruct (X6_every_abort_is_a_body_failure (H := Fixtures.decoders)
              Middleware.DefaultLoggerOptions Fixtures.conf Fixtures.created Fixtures.env
              Fixtures.recorder (Fixtures.post "application/json" (Http.NewBuffer "not-json"))
              eq_refl eq_refl eq_refl)
    as (_ & _ & code & msg & h & Hin & Hresponse & _).
  exists code, msg, h. split; assumption.
Defined.

Section XmlAndFormFacts.
Context `{Decoders}.
Import Middleware.

Lemma shouldLogBody_xml contentType :
  Strings.Contains contentType "application/xml" || Strings.Contains contentType "text/xml"
  = true ->
  shouldLogBody contentType = true.
Proof.
  intros Hct. unfold shouldLogBody.
  apply orb_true_iff in Hct as [Hct | Hct];
    apply Contains_ToLower_raw in Hct; try reflexivity.
  - rewrite Hct. rewrite !orb_true_r. reflexivity.
  - rewrite Hct. apply orb_true_r.
Qed.

Lemma logRequestBody_invalid_xml opts fieldsLogger w r b err :
  LogRequestBody opts = true ->
  Strings.Contains (Http.Get (Http.Header_ r) "Content-Type") "application/json" = false ->
  Strings.Contains (Http.Get (Http.Header_ r) "Content-Type")
    "application/x-www-form-urlencoded" = false ->
  Strings.Contains (Http.Get (Http.Header_ r) "Content-Type") "application/xml"
  || Strings.Contains (Http.Get (Http.Header_ r) "Content-Type") "text/xml" = true ->
  Http.Body r = Some (Http.NewBuffer b) ->
  xml_Unmarshal b = Some err ->
  logRequestBody opts fieldsLogger w r
  = (Http.Error w "failed to parse XML request-body" Http.StatusBadRequest,
     [Logrus.Error (Logrus.WithError fieldsLogger err) "failed to parse XML request-body"],
     None).
Proof.
  intros Hopt Hjson Hform Hxml Hbody Hparse. unfold logRequestBody.
  rewrite Hopt, (shouldLogBody_xml _ Hxml), Hbody. simpl.
  now rewrite Hjson, Hform, Hxml, Hparse.
Qed.

Lemma logRequestBody_invalid_form opts fieldsLogger w r b err r' :
  LogRequestBody opts = true ->
  Strings.Contains (Http.Get (Http.Header_ r) "Content-Type") "application/json" = false ->
  Strings.Contains (Http.Get (Http.Header_ r) "Content-Type")
    "application/x-www-form-urlencoded" = true ->
  Http.Body r = Some (Http.NewBuffer b) ->
  HttpForm.ParseForm (Http.with_body r (Some (Http.NewBuffer b))) = (Some err, r') ->
  logRequestBody opts fieldsLogger w r
  = (Http.Error w "failed to parse form-urlencoded request-body" Http.StatusBadRequest,
     [Logrus.Error (Logrus.WithError fieldsLogger err)
        "failed to parse form-urlencoded request-body"],
     None).
Proof.
  intros Hopt Hjson Hform Hbody Hparse. unfold logRequestBody.
  rewrite Hopt, (shouldLogBody_form _ Hform), Hbody. simpl.
  now rewrite Hjson, Hform, Hparse.
Qed.
End XmlAndFormFacts.

(** X7: with request-body logging enabled, a request whose Content-Type
    contains [application/xml] or [text/xml] (and neither
    [application/json] nor [application/x-www-form-urlencoded]) and whose
    body is not well-formed XML is answered with status 400 and the body
    [failed to parse XML request-body] followed by a newline, and the
    handler is not invoked. *)
Theorem X7_invalid_xml_is_rejected `{Decoders}
    (opts : Middleware.LoggerOptions) (conf : Middleware.Configuration)
    (next : Middleware.Handler) (env : Middleware.Env)
    (w : Http.ResponseWriter) (r : Http.Request) (b : string) (err : error) :
  Middleware.LogRequestBody opts = true ->
  Strings.Contains (Http.Get (Http.Header_ r) "Content-Type") "application/json" = false ->
  Strings.Contains (Http.Get (Http.Header_ r) "Content-Type")
    "application/x-www-form-urlencoded" = false ->
  Strings.Contains (Http.Get (Http.Header_ r) "Content-Type") "application/xml"
  || Strings.Contains (Http.Get (Http.Header_ r) "Content-Type") "text/xml" = true ->
  Http.Body r = Some (Http.NewBuffer b) ->
  xml_Unmarshal b = Some err ->
  Http.sent w = None ->
  Http.body w = EmptyString ->
  Middleware.served (Middleware.WithLogger opts conf next env w r) = None
  /\ exists h,
       Http.response (Middleware.writer (Middleware.WithLogger opts conf next env w r))
       = (400, h, "failed to parse XML request-body" +:+ Http.newline).
Proof.
  intros Hopt Hjson Hform Hxml Hbody Hparse Hsent Hempty.
  destruct (WithLogger_aborted opts conf next env w r _ _
              (logRequestBody_invalid_xml opts _ w r b err Hopt Hjson Hform Hxml Hbody Hparse))
    as (Hserved & Hwriter & _).
  split; [exact Hserved |]. rewrite Hwriter.
  destruct (Error_fresh w "failed to parse XML request-body" Http.StatusBadRequest Hsent
              ltac:(vm_compute; split; discriminate))
    as (h & Hstatus & _ & Hwritten).
  exists h. unfold Http.response. rewrite Hstatus, Hwritten, Hempty. reflexivity.
Qed.

(** X7, on a recorder: [text/xml] with a body that is no XML. *)
Lemma X7_invalid_xml_is_rejected_witness :
  Middleware.served
    (Middleware.WithLogger (H := Fixtures.decoders) Middleware.DefaultLoggerOptions
       Fixtures.conf Fixtures.created Fixtures.env Fixtures.recorder
       (Fixtures.post "text/xml; charset=utf-8" (Http.NewBuffer "plain"))) = None
  /\ exists h,
       Http.response
         (Middleware.writer
            (Middleware.WithLogger (H := Fixtures.decoders) Middleware.DefaultLoggerOptions
               Fixtures.conf Fixtures.created Fixtures.env Fixtures.recorder
               (Fixtures.post "text/xml; charset=utf-8" (Http.NewBuffer "plain"))))
       = (400, h, "failed to parse XML request-body" +:+ Http.newline).
Proof.
  apply (X7_invalid_xml_is_rejected (H := Fixtures.decoders) Middleware.DefaultLoggerOptions
           Fixtures.conf Fixtures.created Fixtures.env Fixtures.recorder
           (Fixtures.post "text/xml; charset=utf-8" (Http.NewBuffer "plain"))
           "plain" "EOF");
    reflexivity.
Defined.

(** X8: with request-body logging enabled, a request whose Content-Type
    contains [application/x-www-form-urlencoded] (and not
    [application/json]) and for which [ParseForm] reports an error is
    answered with status 400 and the body
    [failed to parse form-urlencoded request-body] followed by a newline,
    and the handler is not invoked. *)
Theorem X8_invalid_form_is_rejected `{Decoders}
    (opts : Middleware.LoggerOptions) (conf : Middleware.Configuration)
    (next : Middleware.Handler) (env : Middleware.Env)
    (w : Http.ResponseWriter) (r r' : Http.Request) (b : string) (err : error) :
  Middleware.LogRequestBody opts = true ->
  Strings.Contains (Http.Get (Http.Header_ r) "Content-Type") "application/json" = false ->
  Strings.Contains (Http.Get (Http.Header_ r) "Content-Type")
    "application/x-www-form-urlencoded" = true ->
  Http.Body r = Some (Http.NewBuffer b) ->
  HttpForm.ParseForm (Http.with_body r (Some (Http.NewBuffer b))) = (Some err, r') ->
  Http.sent w = None ->
  Http.body w = EmptyString ->
  Middleware.served (Middleware.WithLogger opts conf next env w r) = None
  /\ exists h,
       Http.response (Middleware.writer (Middleware.WithLogger opts conf next env w r))
       = (400, h, "failed to parse form-urlencoded request-body" +:+ Http.newline).
Proof.
  intros Hopt Hjson Hform Hbody Hparse Hsent Hempty.
  destruct (WithLogger_aborted opts conf next env w r _ _
              (logRequestBody_invalid_form opts _ w r b err r' Hopt Hjson Hform Hbody Hparse))
    as (Hserved & Hwriter & _).
  split; [exact Hserved |]. rewrite Hwriter.
  destruct (Error_fresh w "failed to parse form-urlencoded request-body"
              Http.StatusBadRequest Hsent
              ltac:(vm_compute; split; discriminate))
    as (h & Hstatus & _ & Hwritten).
  exists h. unfold Http.response. rewrite Hstatus, Hwritten, Hempty. reflexivity.
Qed.

(** X8, on a recorder: a form POST whose body uses a semicolon as
    separator, which [url.ParseQuery] refuses. *)
Lemma X8_invalid_form_is_rejected_witness :
  Middleware.served
    (Middleware.WithLogger (H := Samples.strict) Middleware.DefaultLoggerOptions
       Fixtures.conf Fixtures.created Fixtures.env Fixtures.recorder
       (Fixtures.post "application/x-www-form-urlencoded" (Http.NewBuffer "a=1;b=2"))) = None
  /\ exists h,
       Http.response
         (Middleware.writer
            (Middleware.WithLogger (H := Samples.strict) Middleware.DefaultLoggerOptions
               Fixtures.conf Fixtures.created Fixtures.env Fixtures.recorder
               (Fixtures.post "application/x-www-form-urlencoded"
                  (Http.NewBuffer "a=1;b=2"))))
       = (400, h, "failed to parse form-urlencoded request-body" +:+ Http.newline).
Proof.
  eapply (X8_invalid_form_is_rejected (H := Samples.strict) Middleware.DefaultLoggerOptions
            Fixtures.conf Fixtures.created Fixtures.env Fixtures.recorder
            (Fixtures.post "application/x-www-form-urlencoded" (Http.NewBuffer "a=1;b=2"))
            _ "a=1;b=2" "invalid semicolon separator in query");
    reflexivity.
Defined.

(** ** [WithLogger]: what the handler is given and what is logged *)
Section HandlerViewFacts.
Context `{Decoders}.
Import Middleware.

Lemma len_nonempty (s : string) : s <> EmptyString -> (0 <? Http.len s)%N = true.
Proof. destruct s; [contradiction |]. intros _. simpl. apply N.ltb_lt. lia. Qed.

Lemma resolve_by_header (s fallback : string) :
  (if (0 <? Http.len s)%N then s else fallback)
  = if String.eqb s EmptyString then fallback else s.
Proof.
  destruct (String.eqb_spec s EmptyString) as [-> | Hs]; [reflexivity |].
  now rewrite len_nonempty.
Qed.

(** The first event of every run and the values it is logged under. *)
Lemma WithLogger_first_event opts conf next env w r :
  exists started rest,
    events (WithLogger opts conf next env w r) = started :: rest
    /\ Logrus.message started = "request started"%string
    /\ Logrus.data started !! "request-id" = Some (Logrus.FString (getRequestID r conf env))
    /\ Logrus.data started !! "ip" = Some (Logrus.FString (getRealIP r conf)).
Proof.
  unfold WithLogger.
  destruct (logRequestBody _ _ w r) as [[w1 evs] [r1|]].
  - destruct (Otel.HasTraceID _); simpl; destruct (logResponseBody _ _ _);
      simpl; eexists _, _; (split; [reflexivity |]); (split; [reflexivity |]);
      simpl; unfold Logrus.WithFields;
      (split; [apply lookup_union_Some_raw; right; split; reflexivity
              | apply lookup_union_Some_raw; left; reflexivity]).
  - simpl. eexists _, _. split; [reflexivity |]. split; [reflexivity |].
    simpl. unfold Logrus.WithFields.
    split; [apply lookup_union_Some_raw; right; split; reflexivity
           | apply lookup_union_Some_raw; left; reflexivity].
Qed.
End HandlerViewFacts.

(** X9: the request id is the value of the configured request-id header
    when that value is not empty, and the generated UUID otherwise (a
    header that is present but empty counts as absent); the client
    address is the value of the configured real-IP header when not empty,
    and the transport's remote address otherwise.  Every run logs
    [request started] under these two values, and a handler that is
    called finds the request id in the [X-Request-Id] header of its
    writer. *)
Theorem X9_request_id_and_real_ip_resolution `{Decoders}
    (opts : Middleware.LoggerOptions) (conf : Middleware.Configuration)
    (next : Middleware.Handler) (env : Middleware.Env)
    (w : Http.ResponseWriter) (r : Http.Request) :
  let id :=
    if String.eqb (Http.Get (Http.Header_ r) (Middleware.RequestIDHeader conf)) EmptyString
    then Middleware.uuid env
    else Http.Get (Http.Header_ r) (Middleware.RequestIDHeader conf) in
  let ip :=
    if String.eqb (Http.Get (Http.Header_ r) (Middleware.RealIPHeader conf)) EmptyString
    then Http.RemoteAddr r
    else Http.Get (Http.Header_ r) (Middleware.RealIPHeader conf) in
  (exists started rest,
      Middleware.events (Middleware.WithLogger opts conf next env w r) = started :: rest
      /\ Logrus.message started = "request started"%string
      /\ Logrus.data started !! "request-id" = Some (Logrus.FString id)
      /\ Logrus.data started !! "ip" = Some (Logrus.FString ip))
  /\ match Middleware.served (Middleware.WithLogger opts conf next env w r) with
     | Some (wrapped, _) =>
         Http.Get (Http.header (Middleware.ResponseWriter wrapped)) "X-Request-Id" = id
     | None => True
     end.
Proof.
  intros id ip.
  assert (Hid : Middleware.getRequestID r conf env = id)
    by apply resolve_by_header.
  assert (Hip : Middleware.getRealIP r conf = ip) by apply resolve_by_header.
  split.
  - destruct (WithLogger_first_event opts conf next env w r)
      as (started & rest & Hevents & Hmsg & Hrid & Hrip).
    exists started, rest. rewrite <- Hid, <- Hip. auto.
  - destruct (Middleware.served _) as [[wrapped request]|] eqn:Hserved; [|exact I].
    apply WithLogger_handler_arguments in Hserved as (w1 & evs & r1 & _ & Hget & _).
    now rewrite Hget.
Qed.

(** X10: for a request whose body is logged through the JSON, XML or
    raw-text branch (the Content-Type is on the allow-list and contains
    [application/json], or does not contain
    [application/x-www-form-urlencoded]) and is read to its end, the
    handler, when called, receives a body that is an unread stream of
    exactly the bytes that were read. *)
Theorem X10_body_is_restored_outside_form_branch `{Decoders}
    (opts : Middleware.LoggerOptions) (conf : Middleware.Configuration)
    (next : Middleware.Handler) (env : Middleware.Env)
    (w : Http.ResponseWriter) (r : Http.Request) (b : string)
    (wrapped : Middleware.statusResponseWriter) (request : Http.Request) :
  Middleware.LogRequestBody opts = true ->
  Middleware.shouldLogBody (Http.Get (Http.Header_ r) "Content-Type") = true ->
  Strings.Contains (Http.Get (Http.Header_ r) "Content-Type") "application/json" = true
  \/ Strings.Contains (Http.Get (Http.Header_ r) "Content-Type")
       "application/x-www-form-urlencoded" = false ->
  Http.Body r = Some (Http.NewBuffer b) ->
  Middleware.served (Middleware.WithLogger opts conf next env w r) = Some (wrapped, request) ->
  Http.Body request = Some (Http.NewBuffer b).
Proof.
  intros Hopt Hct Hbranch Hbody Hserved.
  apply WithLogger_handler_arguments in Hserved
    as (w1 & evs & r1 & Hstep & _ & _ & _ & _ & Hsame & _).
  rewrite Hsame.
  exact (logRequestBody_restores_body opts _ w r b w1 evs r1 Hopt Hct Hbranch Hbody Hstep).
Qed.

(** X10, on a recorder: a JSON POST with the body [true]. *)
Lemma X10_body_is_restored_outside_form_branch_witness :
  option_map (fun served => Http.Body (snd served))
    (Middleware.served
       (Middleware.WithLogger (H := Fixtures.decoders) Middleware.DefaultLoggerOptions
          Fixtures.conf Fixtures.created Fixtures.env Fixtures.recorder
          (Fixtures.post "application/json" (Http.NewBuffer "true"))))
  = Some (Some (Http.NewBuffer "true")).
Proof.
  destruct (Middleware.served _) as [[wrapped request]|] eqn:Hserved.
  - simpl. f_equal.
    apply (X10_body_is_restored_outside_form_branch (H := Fixtures.decoders)
             Middleware.DefaultLoggerOptions Fixtures.conf Fixtures.created Fixtures.env
             Fixtures.recorder (Fixtures.post "application/json" (Http.NewBuffer "true"))
             "true" wrapped request eq_refl eq_refl (or_introl eq_refl) eq_refl Hserved).
  - vm_compute in Hserved. discriminate.
Defined.

(** ** The allow-list test and the header formatting *)
Section AllowListFacts.
Import Strings.

Lemma append_cons (x : ascii) (a b : string) : String x a +:+ b = String x (a +:+ b).
Proof. reflexivity. Qed.

Lemma append_assoc (a b c : string) : (a +:+ b) +:+ c = a +:+ b +:+ c.
Proof. induction a as [|x a IH]; [reflexivity | now rewrite !append_cons, IH]. Qed.

Lemma append_empty_r (a : string) : a +:+ EmptyString = a.
Proof. induction a as [|x a IH]; [reflexivity | now rewrite append_cons, IH]. Qed.

Lemma HasPrefix_append p : forall s post,
  HasPrefix s p = true -> HasPrefix (s +:+ post) p = true.
Proof.
  induction p as [|a p IH]; intros s post Hs; simpl; [reflexivity |].
  destruct s as [|c s]; simpl in *; [discriminate |].
  apply andb_true_iff in Hs as [-> Hs]. simpl. now apply IH.
Qed.

Lemma Contains_append_r s post p :
  Contains s p = true -> Contains (s +:+ post) p = true.
Proof.
  induction s as [|c s IH]; simpl; intros Hs.
  - rewrite orb_false_r in Hs. destruct p; [|discriminate].
    destruct post; reflexivity.
  - apply orb_true_iff in Hs as [Hs | Hs].
    + apply (HasPrefix_append p (String c s) post) in Hs.
      rewrite append_cons in Hs. now rewrite Hs.
    + rewrite (IH Hs). apply orb_true_r.
Qed.

Lemma Contains_append_l pre s p :
  Contains s p = true -> Contains (pre +:+ s) p = true.
Proof.
  induction pre as [|c pre IH]; intros Hs; [exact Hs |].
  simpl. rewrite (IH Hs). apply orb_true_r.
Qed.

Lemma lower_append a b : lower (a +:+ b) = lower a +:+ lower b.
Proof.
  induction a as [|x a IH]; [reflexivity |].
  simpl. rewrite ?append_cons. now rewrite IH.
Qed.

Lemma HasPrefix_len p : forall s, HasPrefix s p = true -> (Http.len p <= Http.len s)%N.
Proof.
  induction p as [|a p IH]; intros s Hs; simpl; [lia |].
  destruct s as [|c s]; simpl in *; [discriminate |].
  apply andb_true_iff in Hs as [_ Hs]. apply IH in Hs. lia.
Qed.

Lemma Contains_len s p : Contains s p = true -> (Http.len p <= Http.len s)%N.
Proof.
  induction s as [|c s IH]; simpl; intros Hs.
  - rewrite orb_false_r in Hs. now apply HasPrefix_len in Hs.
  - apply orb_true_iff in Hs as [Hs | Hs].
    + apply HasPrefix_len in Hs. exact Hs.
    + apply IH in Hs. lia.
Qed.

Lemma len_lower s : Http.len (lower s) = Http.len s.
Proof. induction s as [|c s IH]; simpl; [reflexivity | now rewrite IH]. Qed.

Context `{Decoders}.

(** The allow-list test passes exactly when an entry occurs in the
    lower-cased value. *)
Lemma shouldLogBody_entries contentType :
  Middleware.shouldLogBody contentType = true
  <-> exists entry,
        In entry Frame.allow_list
        /\ Contains (strings_ToLower contentType) entry = true.
Proof.
  unfold Middleware.shouldLogBody, Frame.allow_list. split.
  - intros Hlog.
    repeat (apply orb_true_iff in Hlog as [Hlog | Hlog]);
      eexists; (split; [|exact Hlog]); simpl; auto.
  - intros (entry & Hin & Hfound). simpl in Hin.
    destruct Hin as [<- | [<- | [<- | [<- | []]]]]; rewrite Hfound;
      rewrite ?orb_true_r; reflexivity.
Qed.

Lemma allow_list_ascii entry :
  In entry Frame.allow_list -> is_ascii entry = true.
Proof.
  unfold Frame.allow_list. simpl.
  intros [<- | [<- | [<- | [<- | []]]]]; reflexivity.
Qed.

Lemma allow_list_len entry :
  In entry Frame.allow_list -> (8 <= Http.len entry)%N.
Proof.
  unfold Frame.allow_list. simpl.
  intros [<- | [<- | [<- | [<- | []]]]]; vm_compute; discriminate.
Qed.
End AllowListFacts.

(** X11: [shouldLogBody] looks at nothing but [strings.ToLower] of the
    Content-Type: two values with the same lower-cased form get the same
    answer.  It accepts a value as soon as an allow-list entry occurs in
    it, in whatever letter case, whatever bytes stand before or after
    (parameters such as a charset do not matter).  For a value of ASCII
    bytes that is the only way: it is accepted exactly when an entry
    occurs in its lower-cased bytes, so an ASCII value shorter than 8
    bytes, the empty value of a request without Content-Type among them,
    is never accepted. *)
Theorem X11_shouldLogBody_allow_list `{Decoders} (a b pre post entry : string) :
  (strings_ToLower a = strings_ToLower b ->
   Middleware.shouldLogBody a = Middleware.shouldLogBody b)
  /\ (In entry Frame.allow_list ->
      Strings.Contains (Strings.lower a) entry = true ->
      Middleware.shouldLogBody (pre +:+ a +:+ post) = true)
  /\ (Strings.is_ascii a = true ->
      (Middleware.shouldLogBody a = true
       <-> exists found,
             In found Frame.allow_list
             /\ Strings.Contains (Strings.lower a) found = true))
  /\ (Strings.is_ascii a = true ->
      Middleware.shouldLogBody a = true -> (8 <= Http.len a)%N).
Proof.
  split; [|split; [|split]].
  - intros Hsame. unfold Middleware.shouldLogBody. now rewrite Hsame.
  - intros Hin Hfound. apply shouldLogBody_entries. exists entry.
    split; [exact Hin |].
    apply strings_ToLower_run; [now apply allow_list_ascii |].
    rewrite !lower_append.
    now apply Contains_append_l, Contains_append_r.
  - intros Hascii. rewrite shouldLogBody_entries.
    now rewrite strings_ToLower_ascii.
  - intros Hascii Hlog. apply shouldLogBody_entries in Hlog as (found & Hin & Hfound).
    rewrite strings_ToLower_ascii in Hfound by assumption.
    apply Contains_len in Hfound. rewrite len_lower in Hfound.
    apply allow_list_len in Hin. lia.
Qed.

(** X11, on [Text/XML; charset=utf-8]. *)
Lemma X11_shouldLogBody_allow_list_witness :
  Middleware.shouldLogBody (H := Fixtures.decoders) "Text/XML"
  = Middleware.shouldLogBody (H := Fixtures.decoders) "text/xml"
  /\ Middleware.shouldLogBody (H := Fixtures.decoders)
       ("" +:+ "Text/XML" +:+ "; charset=utf-8") = true
  /\ (8 <= Http.len "Text/XML")%N.
Proof.
  split; [|split].
  - apply (proj1 (X11_shouldLogBody_allow_list (H := Fixtures.decoders)
                    "Text/XML" "text/xml" "" "" "text/xml")).
    reflexivity.
  - apply (proj1 (proj2 (X11_shouldLogBody_allow_list (H := Fixtures.decoders)
                           "Text/XML" "text/xml" "" "; charset=utf-8" "text/xml"))).
    + vm_compute. auto.
    + reflexivity.
  - apply (proj2 (proj2 (proj2 (X11_shouldLogBody_allow_list (H := Fixtures.decoders)
                                  "Text/XML" "text/xml" "" "" "text/xml")))).
    + reflexivity.
    + reflexivity.
Defined.

(** X12: [formatHeaders] keeps, for every key of the header map, the first
    of its values, and drops a key whose list of values is empty: what it
    logs under a canonical key is what [Header.Get] returns for that
    key. *)
Theorem X12_formatHeaders_first_values (h : Http.Header) (key : string) :
  Middleware.formatHeaders h !! key = (h !! key) ≫= head
  /\ Http.Get h key
     = default EmptyString (Middleware.formatHeaders h !! Http.CanonicalMIMEHeaderKey key)
  /\ (Middleware.formatHeaders h !! key = None <-> h !! key = None \/ h !! key = Some []).
Proof.
  assert (Hlookup : forall k, Middleware.formatHeaders h !! k = (h !! k) ≫= head).
  { intros k. unfold Middleware.formatHeaders. apply lookup_omap. }
  split; [apply Hlookup |]. split.
  - unfold Http.Get. rewrite Hlookup.
    destruct (h !! Http.CanonicalMIMEHeaderKey key) as [[|v vs]|]; reflexivity.
  - rewrite Hlookup. destruct (h !! key) as [[|v vs]|]; simpl.
    + split; auto.
    + split; [discriminate | intros [? | ?]; discriminate].
    + split; auto.
Qed.

(** X13: a handler that is called finds, in the header map of its
    writer, the request id under [X-Request-Id] and, when the span has a
    trace id, the trace id and the span id under [X-Trace-Id] and
    [X-Span-Id], whatever the propagator injected before.  The header
    map is the one the middleware was given with the propagator's fields
    set in it, then these: when the span has no trace id the middleware
    adds nothing of its own but [X-Request-Id], and when in addition the
    propagator injects nothing, the map is the incoming one with
    [X-Request-Id] set. *)
Theorem X13_trace_headers `{Decoders}
    (opts : Middleware.LoggerOptions) (conf : Middleware.Configuration)
    (next : Middleware.Handler) (env : Middleware.Env)
    (w : Http.ResponseWriter) (r : Http.Request)
    (wrapped : Middleware.statusResponseWriter) (request : Http.Request) :
  Middleware.served (Middleware.WithLogger opts conf next env w r) = Some (wrapped, request) ->
  Http.Get (Http.header (Middleware.ResponseWriter wrapped)) "X-Request-Id"
  = Middleware.getRequestID r conf env
  /\ (Otel.HasTraceID (Middleware.span env) = true ->
      Http.Get (Http.header (Middleware.ResponseWriter wrapped)) "X-Trace-Id"
      = Otel.TraceID (Middleware.span env)
      /\ Http.Get (Http.header (Middleware.ResponseWriter wrapped)) "X-Span-Id"
         = Otel.SpanID (Middleware.span env)
      /\ Http.header (Middleware.ResponseWriter wrapped)
         = Http.Set_
             (Http.Set_
                (Http.Set_
                   (Propagation.Inject (Middleware.injected env) (Http.header w))
                   "X-Trace-Id" (Otel.TraceID (Middleware.span env)))
                "X-Span-Id" (Otel.SpanID (Middleware.span env)))
             "X-Request-Id" (Middleware.getRequestID r conf env))
  /\ (Otel.HasTraceID (Middleware.span env) = false ->
      Http.header (Middleware.ResponseWriter wrapped)
      = Http.Set_ (Propagation.Inject (Middleware.injected env) (Http.header w))
          "X-Request-Id" (Middleware.getRequestID r conf env))
  /\ (Otel.HasTraceID (Middleware.span env) = false ->
      Middleware.injected env = [] ->
      Http.header (Middleware.ResponseWriter wrapped)
      = Http.Set_ (Http.header w) "X-Request-Id" (Middleware.getRequestID r conf env)).
Proof.
  intros Hserved.
  destruct (WithLogger_served_run opts conf next env w r _ _ Hserved)
    as (evs & r1 & started & completed & after & _ & _ & -> & _).
  split; [simpl; apply Get_Set_eq |].
  split; [|split].
  - intros Htrace. rewrite Htrace. simpl.
    unfold Http.Get, Http.Set_. repeat split.
    + rewrite !lookup_insert_ne by (vm_compute; discriminate).
      now rewrite lookup_insert_eq.
    + rewrite lookup_insert_ne by (vm_compute; discriminate).
      now rewrite lookup_insert_eq.
  - intros Htrace. now rewrite Htrace.
  - intros Htrace Hnone. now rewrite Htrace, Hnone.
Qed.

(** X13, on a recorder, with a span that has a trace id and a propagator
    that injects [traceparent]. *)
Lemma X13_trace_headers_witness :
  option_map
    (fun served =>
       (Http.Get (Http.header (Middleware.ResponseWriter (fst served))) "X-Trace-Id",
        Http.Get (Http.header (Middleware.ResponseWriter (fst served))) "X-Span-Id",
        Http.Get (Http.header (Middleware.ResponseWriter (fst served))) "X-Request-Id"))
    (Middleware.served
       (Middleware.WithLogger (H := Fixtures.decoders) Middleware.DefaultLoggerOptions
          Fixtures.conf Fixtures.idle Samples.traced Fixtures.recorder Samples.identified))
  = Some ("4bf92f3577b34da6a3ce929d0e0e4736"%string, "00f067aa0ba902b7"%string,
          "req-42"%string).
Proof.
  destruct (Middleware.served _) as [[wrapped request]|] eqn:Hserved.
  - simpl.
    destruct (X13_trace_headers (H := Fixtures.decoders) Middleware.DefaultLoggerOptions
                Fixtures.conf Fixtures.idle Samples.traced Fixtures.recorder
                Samples.identified wrapped request Hserved)
      as (Hid & Hids & _).
    destruct (Hids eq_refl) as (Htrace & Hspan & _).
    rewrite Htrace, Hspan, Hid. reflexivity.
  - vm_compute in Hserved. discriminate.
Defined.

(** X14: a handler that is called receives the request with its method,
    URI, host, remote address, headers and URL as they came; its context
    holds, under the logger key, the entry with the fields [request-id],
    [path] and [method] (without the trace fields, which are added to the
    middleware's own entry later) and, under the request-start key, the
    start time; every key other than these two and the one under which
    the tracing library keeps the current span reads as in the context
    of the incoming request. *)
Theorem X14_handler_request_and_context `{Decoders}
    (opts : Middleware.LoggerOptions) (conf : Middleware.Configuration)
    (next : Middleware.Handler) (env : Middleware.Env)
    (w : Http.ResponseWriter) (r : Http.Request)
    (wrapped : Middleware.statusResponseWriter) (request : Http.Request) :
  Middleware.served (Middleware.WithLogger opts conf next env w r) = Some (wrapped, request) ->
  (Http.Method request, Http.RequestURI request, Http.Host request, Http.RemoteAddr request,
   Http.Path request, Http.RawQuery request, Http.Header_ request)
  = (Http.Method r, Http.RequestURI r, Http.Host r, Http.RemoteAddr r,
     Http.Path r, Http.RawQuery r, Http.Header_ r)
  /\ Ctx.Lookup (Http.Context_ request) Ctx.LoggerKey
     = Some (Ctx.VLogger
               {[ "request-id" := Logrus.FString (Middleware.getRequestID r conf env);
                  "path" := Logrus.FString (Http.RequestURI r);
                  "method" := Logrus.FString (Http.Method r) ]})
  /\ Ctx.Lookup (Http.Context_ request) Ctx.RequestStart
     = Some (Ctx.VTime (Middleware.start env))
  /\ forall key,
       key <> Ctx.LoggerKey -> key <> Ctx.RequestStart -> key <> Ctx.SpanKey ->
       Ctx.Lookup (Http.Context_ request) key = Ctx.Lookup (Http.Context_ r) key.
Proof.
  intros Hserved.
  destruct (WithLogger_served_run opts conf next env w r _ _ Hserved)
    as (evs & r1 & started & completed & after & _ & Henv & _ & -> & _).
  unfold Frame.envelope in Henv. injection Henv as Hm Hu Hh Ha Hp Hq Hhd Hctx.
  split; [simpl; congruence |]. split; [reflexivity |]. split; [reflexivity |].
  intros key Hlogger Hstart Hspan. simpl. rewrite Hctx.
  destruct (decide (Ctx.RequestStart = key)) as [<- | _]; [contradiction |].
  destruct (decide (Ctx.LoggerKey = key)) as [<- | _]; [contradiction |].
  destruct (decide (Ctx.SpanKey = key)) as [<- | _]; [contradiction |].
  reflexivity.
Qed.

(** X14, on a recorder: a value an outer middleware stored in the context
    is still there for the handler. *)
Lemma X14_handler_request_and_context_witness :
  option_map
    (fun served => Ctx.Lookup (Http.Context_ (snd served)) (Ctx.CallerKey "outer"))
    (Middleware.served
       (Middleware.WithLogger (H := Fixtures.decoders) Middleware.DefaultLoggerOptions
          Fixtures.conf Fixtures.idle Fixtures.env Fixtures.recorder Samples.identified))
  = Some (Some (Ctx.VString "kept")).
Proof.
  destruct (Middleware.served _) as [[wrapped request]|] eqn:Hserved.
  - simpl. f_equal.
    rewrite (proj2 (proj2 (proj2 (X14_handler_request_and_context
               (H := Fixtures.decoders)
               Middleware.DefaultLoggerOptions Fixtures.conf Fixtures.idle Fixtures.env
               Fixtures.recorder Samples.identified wrapped request Hserved)))
               (Ctx.CallerKey "outer")) by discriminate.
    reflexivity.
  - vm_compute in Hserved. discriminate.
Defined.

(** X15: [request completed] is logged exactly when the handler was
    called, after the events of the request-body step, and it carries the
    status the wrapper reports once the handler has returned
    ([status-code]) and that status divided by 100 ([status-class]).  A
    request the middleware ended itself has no [request completed]
    event. *)
Theorem X15_request_completed_event `{Decoders}
    (opts : Middleware.LoggerOptions) (conf : Middleware.Configuration)
    (next : Middleware.Handler) (env : Middleware.Env)
    (w : Http.ResponseWriter) (r : Http.Request) :
  match Middleware.served (Middleware.WithLogger opts conf next env w r) with
  | Some (wrapped, request) =>
      exists before completed after,
        Middleware.events (Middleware.WithLogger opts conf next env w r)
        = before ++ completed :: after
        /\ Logrus.message completed = "request completed"%string
        /\ Logrus.level completed = Logrus.InfoLevel
        /\ Logrus.data completed !! "status-code"
           = Some (Logrus.FInt (Middleware.Status (next wrapped request)))
        /\ Logrus.data completed !! "status-class"
           = Some (Logrus.FInt (Middleware.Status (next wrapped request) ÷ 100))
  | None =>
      Forall (fun event => Logrus.message event <> "request completed"%string)
        (Middleware.events (Middleware.WithLogger opts conf next env w r))
  end.
Proof.
  destruct (Middleware.served _) as [[wrapped request]|] eqn:Hserved.
  - destruct (WithLogger_served_run opts conf next env w r _ _ Hserved)
      as (evs & r1 & started & completed & after & _ & _ & _ & _ & Hevents & _ & Hmsg
          & Hcode & Hclass & Hlevel).
    exists (started :: evs), completed, after. auto.
  - destruct (WithLogger_not_served opts conf next env w r Hserved)
      as (w1 & evs & started & Hstep & _ & -> & Hstarted).
    destruct (logRequestBody_abort_cases _ _ _ _ _ _ Hstep)
      as (_ & _ & code & msg & err & Hin & _ & ->).
    constructor; [rewrite Hstarted; discriminate |].
    constructor; [|constructor]. simpl.
    unfold Frame.abort_reasons in Hin. simpl in Hin.
    destruct Hin as [Hin | [Hin | [Hin | [Hin | []]]]]; injection Hin as _ <-; discriminate.
Qed.

(** ** The response phase on sinks that cannot be read back, and the status
       the wrapper reports *)
Section ReportedStatusFacts.
Context `{Decoders}.
Import Middleware.

Lemma perform_bare_keeps_sent (u : Http.ResponseWriter) (c : Call) status :
  Http.sent u = Some status -> Http.sent (perform_bare u c) = Some status.
Proof.
  intros Hsent. destruct c; simpl.
  - now rewrite (WriteHeader_sent _ _ _ Hsent).
  - unfold Http.Write. simpl. now rewrite (WriteHeader_sent _ _ _ Hsent).
  - exact Hsent.
  - destruct (Http.flusher u); [|exact Hsent].
    unfold Http.Flush. simpl. now rewrite (WriteHeader_sent _ _ _ Hsent).
Qed.

Lemma perform_bare_all_keeps_sent (cs : list Call) : forall (u : Http.ResponseWriter) status,
  Http.sent u = Some status -> Http.sent (fold_left perform_bare cs u) = Some status.
Proof.
  induction cs as [|c cs IH]; intros u status Hsent; simpl; [exact Hsent |].
  apply IH. now apply perform_bare_keeps_sent.
Qed.

Lemma codes_snoc (cs : list Call) (code : Z) :
  last (codes (cs ++ [CallWriteHeader code])) = Some code.
Proof. unfold codes. rewrite omap_app. simpl. apply last_snoc. Qed.
End ReportedStatusFacts.

(** X16: the response-body phase logs nothing and does not touch the
    writer when response-body logging is disabled or the response's
    Content-Type is not on the allow-list.  When both hold and the
    underlying sink is no [io.Reader] (as the server's own writer and
    [httptest]'s recorder are not), the phase flushes the writer and logs
    the single error event
    [underlying ResponseWriter does not implement io.Reader]: the response
    body is not logged. *)
Theorem X16_response_body_needs_a_readable_sink `{Decoders}
    (opts : Middleware.LoggerOptions) (fieldsLogger : Logrus.Fields)
    (wrapped : Middleware.statusResponseWriter) :
  (Middleware.LogResponseBody opts = false
   \/ Middleware.shouldLogBody
        (Http.Get (Http.header (Middleware.ResponseWriter wrapped)) "Content-Type") = false ->
   Middleware.logResponseBody opts fieldsLogger wrapped = (wrapped, []))
  /\ (Middleware.LogResponseBody opts = true ->
      Middleware.shouldLogBody
        (Http.Get (Http.header (Middleware.ResponseWriter wrapped)) "Content-Type") = true ->
      Http.reader (Middleware.ResponseWriter wrapped) = None ->
      Middleware.logResponseBody opts fieldsLogger wrapped
      = (Middleware.Flush wrapped,
         [Logrus.Error fieldsLogger "underlying ResponseWriter does not implement io.Reader"])).
Proof.
  split.
  - intros [Hoff | Hother]; unfold Middleware.logResponseBody.
    + now rewrite Hoff.
    + now rewrite Hother, andb_false_r.
  - intros Hon Hlisted Hreader. unfold Middleware.logResponseBody.
    rewrite Hon, Hlisted. simpl. now rewrite Flush_reader, Hreader.
Qed.

(** X16, on a recorder that holds a JSON response. *)
Lemma X16_response_body_needs_a_readable_sink_witness :
  map Logrus.message
    (snd (Middleware.logResponseBody (H := Fixtures.decoders) Middleware.DefaultLoggerOptions ∅
            (Fixtures.created (Middleware.wrapResponseWriter Fixtures.recorder)
               Samples.identified)))
  = ["underlying ResponseWriter does not implement io.Reader"%string]
  /\ Middleware.logResponseBody (H := Fixtures.decoders)
       (Middleware.NewLoggerOptions true false 512) ∅
       (Fixtures.created (Middleware.wrapResponseWriter Fixtures.recorder) Samples.identified)
     = (Fixtures.created (Middleware.wrapResponseWriter Fixtures.recorder) Samples.identified,
        []).
Proof.
  split.
  - rewrite (proj2 (X16_response_body_needs_a_readable_sink (H := Fixtures.decoders)
                      Middleware.DefaultLoggerOptions ∅
                      (Fixtures.created (Middleware.wrapResponseWriter Fixtures.recorder)
                         Samples.identified)) eq_refl eq_refl eq_refl).
    reflexivity.
  - apply (proj1 (X16_response_body_needs_a_readable_sink (H := Fixtures.decoders)
                    (Middleware.NewLoggerOptions true false 512) ∅
                    (Fixtures.created (Middleware.wrapResponseWriter Fixtures.recorder)
                       Samples.identified))).
    left. reflexivity.
Defined.

(** X17: the status the wrapper reports can differ from the status the
    client gets.  On a sink whose header was not sent yet, after a run of
    calls that starts with [WriteHeader(c1)], [c1] a final status (200 to
    999), or with a [Write], and ends with [WriteHeader(c2)], [c2] not 0,
    the client's status is [c1] (or 200), the first one, while [Status()]
    is [c2], the last one.  (Once the header is sent no later
    [WriteHeader] reaches the check of its code.) *)
Theorem X17_reported_status_is_the_last_one
    (u : Http.ResponseWriter) (c1 c2 : Z) (b : string) (cs : list Middleware.Call) :
  Http.sent u = None ->
  200 <= c1 <= 999 ->
  c2 <> 0 ->
  (let w := fold_left Middleware.perform
              (Middleware.CallWriteHeader c1 :: cs ++ [Middleware.CallWriteHeader c2])
              (Middleware.wrapResponseWriter u) in
   fst (fst (Http.response (Middleware.ResponseWriter w))) = c1 /\ Middleware.Status w = c2)
  /\ (let w := fold_left Middleware.perform
                 (Middleware.CallWrite b :: cs ++ [Middleware.CallWriteHeader c2])
                 (Middleware.wrapResponseWriter u) in
      fst (fst (Http.response (Middleware.ResponseWriter w))) = 200
      /\ Middleware.Status w = c2).
Proof.
  intros Hfresh Hc1 Hc2.
  assert (Hstatus : forall first,
             Middleware.Status
               (fold_left Middleware.perform (first :: cs ++ [Middleware.CallWriteHeader c2])
                  (Middleware.wrapResponseWriter u)) = c2).
  { intros first. unfold Middleware.Status.
    rewrite perform_all_statusCode, app_comm_cons, codes_snoc. simpl.
    destruct (Z.eqb_spec c2 0); [contradiction | reflexivity]. }
  split; intros w; subst w; (split; [|apply Hstatus]);
    rewrite perform_all_underlying; unfold Http.response; simpl.
  - rewrite (perform_bare_all_keeps_sent _ _ (c1, Http.header u)); [reflexivity |].
    now rewrite WriteHeader_fresh.
  - rewrite (perform_bare_all_keeps_sent _ _ (Http.StatusOK, Http.header u));
      [reflexivity |].
    unfold Http.Write.
    rewrite WriteHeader_fresh by (try assumption; unfold Http.StatusOK; lia).
    reflexivity.
Qed.

(** X17, on a recorder: [WriteHeader(404)], a body, [WriteHeader(500)]. *)
Lemma X17_reported_status_is_the_last_one_witness :
  fst (fst (Http.response
              (Middleware.ResponseWriter
                 (fold_left Middleware.perform
                    (Middleware.CallWriteHeader 404
                     :: [Middleware.CallWrite "no"] ++ [Middleware.CallWriteHeader 500])
                    (Middleware.wrapResponseWriter Fixtures.recorder))))) = 404
  /\ Middleware.Status
       (fold_left Middleware.perform
          (Middleware.CallWriteHeader 404
           :: [Middleware.CallWrite "no"] ++ [Middleware.CallWriteHeader 500])
          (Middleware.wrapResponseWriter Fixtures.recorder)) = 500.
Proof.
  apply (proj1 (X17_reported_status_is_the_last_one Fixtures.recorder 404 500 ""
                  [Middleware.CallWrite "no"] eq_refl ltac:(lia) ltac:(lia))).
Defined.

(** ** The test suite: identity, builder calls, multipart bodies *)
Section IdentityFacts.
Import Ctx Itf.

Lemma attach_user (s : Suite) (r : Http.Request) (ctx : Context) :
  Lookup (attach s r ctx) UserKey
  = match (match user s with Some u => Some u | None => User (env s) end) with
    | Some u => Some (VUser u)
    | None => Lookup ctx UserKey
    end.
Proof. unfold attach. destruct (user s), (User (env s)); reflexivity. Qed.
End IdentityFacts.

(** X18: the identity the test pipeline attaches is the suite's own user
    when one is set, else the environment's user; the params say
    authenticated exactly when there is one.  When there is neither, no
    identity is attached: an identity a before-each hook put into the
    context stays visible although the params say unauthenticated. *)
Theorem X18_test_identity (s : Itf.Suite) (r : Http.Request) (ctx : Ctx.Context) :
  let current := match Itf.user s with Some u => Some u | None => Itf.User (Itf.env s) end in
  Ctx.Lookup (Itf.attach s r ctx) Ctx.UserKey
  = match current with
    | Some u => Some (Ctx.VUser u)
    | None => Ctx.Lookup ctx Ctx.UserKey
    end
  /\ exists params,
       Ctx.Lookup (Itf.attach s r ctx) Ctx.ParamsKey = Some (Ctx.VParams params)
       /\ Ctx.Authenticated params = match current with Some _ => true | None => false end.
Proof.
  intros current. split; [apply attach_user |].
  eexists. split; [apply attach_params |]. simpl.
  subst current. destruct (Itf.user s), (Itf.User (Itf.env s)); reflexivity.
Qed.

Section BuilderMoreFacts.
Context `{Encoders}.
Import Itf.

Lemma content_type_key : Http.CanonicalMIMEHeaderKey "Content-Type" = "Content-Type"%string.
Proof. reflexivity. Qed.

Lemma encode_other_headers (r r' : Request) (e : Encoding) (key : string) :
  encode r e = Some r' ->
  key <> "Content-Type"%string ->
  headers r' !! key = headers r !! key.
Proof.
  intros Hencode Hkey.
  destruct e as [v | values | data boundary order]; simpl in Hencode.
  - unfold JSON in Hencode. destruct (json_Marshal v); [|discriminate].
    injection Hencode as <-. simpl. unfold Http.Set_. rewrite content_type_key.
    now apply lookup_insert_ne.
  - injection Hencode as <-. simpl. unfold Http.Set_. rewrite content_type_key.
    now apply lookup_insert_ne.
  - injection Hencode as <-. simpl. unfold Http.Set_. rewrite content_type_key.
    now apply lookup_insert_ne.
Qed.

Lemma encode_target (r r' : Request) (e : Encoding) :
  encode r e = Some r' -> method r' = method r /\ path r' = path r.
Proof.
  destruct e as [v | values | data boundary order]; simpl;
    [unfold JSON; destruct (json_Marshal v); [|discriminate] | |];
    intros [= <-]; auto.
Qed.
End BuilderMoreFacts.

(** X19: a body-encoding call of the request builder (JSON, Form,
    MultipartData) that succeeds changes the body and the Content-Type
    entry and nothing else: method and path stay, and so does every other
    header, whether read from the map or through [Get]. *)
Theorem X19_encoding_keeps_the_rest `{Encoders}
    (r r' : Itf.Request) (e : Itf.Encoding) (key : string) :
  Itf.encode r e = Some r' ->
  Http.CanonicalMIMEHeaderKey key <> "Content-Type"%string ->
  Itf.method r' = Itf.method r
  /\ Itf.path r' = Itf.path r
  /\ Itf.headers r' !! Http.CanonicalMIMEHeaderKey key
     = Itf.headers r !! Http.CanonicalMIMEHeaderKey key
  /\ Http.Get (Itf.headers r') key = Http.Get (Itf.headers r) key.
Proof.
  intros Hencode Hkey.
  destruct (encode_target r r' e Hencode) as [Hmethod Hpath].
  pose proof (encode_other_headers r r' e _ Hencode Hkey) as Hother.
  repeat split; try assumption.
  unfold Http.Get. now rewrite Hother.
Qed.

(** X19, on a builder with a cookie: the JSON call keeps it. *)
Lemma X19_encoding_keeps_the_rest_witness :
  Http.Get
    (Itf.headers
       (default Fixtures.blank
          (Itf.encode (H := Fixtures.encoders)
             (ItfRequest.Cookie Fixtures.blank "sid" "abc")
             (Itf.EncJSON (H := Fixtures.encoders) (Fixtures.TInt "1")))))
    "cookie"
  = "sid=abc"%string.
Proof.
  destruct (Itf.encode _ _) as [r'|] eqn:Hencode.
  - simpl.
    rewrite (proj2 (proj2 (proj2
      (X19_encoding_keeps_the_rest (H := Fixtures.encoders)
         (ItfRequest.Cookie Fixtures.blank "sid" "abc") r'
         (Itf.EncJSON (H := Fixtures.encoders) (Fixtures.TInt "1")) "cookie" Hencode
         ltac:(vm_compute; discriminate))))).
    reflexivity.
  - vm_compute in Hencode. discriminate.
Defined.

(** X20: [Request.Header] is a last-writer-wins store keyed by the
    canonical form of the header name: a value set under one spelling is
    read back under any spelling with the same canonical form, and
    reading any other header is unaffected.  [Request.Cookie] appends:
    after two calls the Cookie entry holds what it held before followed
    by the two pairs, in call order.  Neither touches method, path or
    body. *)
Theorem X20_builder_headers_and_cookies
    (r : Itf.Request) (key key' value name1 value1 name2 value2 : string) :
  (Http.CanonicalMIMEHeaderKey key' = Http.CanonicalMIMEHeaderKey key ->
   Http.Get (Itf.headers (ItfRequest.Header r key value)) key' = value)
  /\ (Http.CanonicalMIMEHeaderKey key' <> Http.CanonicalMIMEHeaderKey key ->
      Http.Get (Itf.headers (ItfRequest.Header r key value)) key'
      = Http.Get (Itf.headers r) key')
  /\ Itf.headers (ItfRequest.Cookie (ItfRequest.Cookie r name1 value1) name2 value2)
       !! "Cookie"
     = Some (default [] (Itf.headers r !! "Cookie")
             ++ [name1 +:+ "=" +:+ value1; name2 +:+ "=" +:+ value2])
  /\ (Itf.method (ItfRequest.Header r key value), Itf.path (ItfRequest.Header r key value),
      Itf.body (ItfRequest.Header r key value))
     = (Itf.method r, Itf.path r, Itf.body r)
  /\ (Itf.method (ItfRequest.Cookie r name1 value1), Itf.path (ItfRequest.Cookie r name1 value1),
      Itf.body (ItfRequest.Cookie r name1 value1))
     = (Itf.method r, Itf.path r, Itf.body r).
Proof.
  split; [|split; [|split; [|split; reflexivity]]].
  - intros Hsame. unfold Http.Get, ItfRequest.Header, Http.Set_. simpl.
    rewrite Hsame. now rewrite lookup_insert_eq.
  - intros Hother. unfold Http.Get, ItfRequest.Header, Http.Set_. simpl.
    rewrite lookup_insert_ne by congruence. reflexivity.
  - unfold ItfRequest.Cookie, Http.Add. simpl.
    change (Http.CanonicalMIMEHeaderKey "Cookie") with "Cookie"%string.
    rewrite !lookup_insert_eq. simpl. now rewrite <- app_assoc.
Qed.

(** X20, on the HTMX marker: set as [Hx-Request], read as [HX-Request]. *)
Lemma X20_builder_headers_and_cookies_witness :
  Http.Get (Itf.headers (ItfRequest.HTMX Fixtures.blank)) "HX-Request" = "true"%string
  /\ Http.Get (Itf.headers (ItfRequest.HTMX Fixtures.blank)) "Content-Type" = EmptyString.
Proof.
  split.
  - apply (proj1 (X20_builder_headers_and_cookies Fixtures.blank "Hx-Request" "HX-Request"
                    "true" "" "" "" "")).
    reflexivity.
  - unfold ItfRequest.HTMX.
    rewrite (proj1 (proj2 (X20_builder_headers_and_cookies Fixtures.blank "Hx-Request"
                             "Content-Type" "true" "" "" "" ""))).
    + reflexivity.
    + vm_compute. discriminate.
Defined.

Section MultipartFacts.
Import Itf ItfRequest.

Lemma following_app (b : string) (ps qs : list string) :
  following b (ps ++ qs) = following b ps +:+ following b qs.
Proof.
  induction ps as [|p ps IH]; [reflexivity |].
  simpl. rewrite IH. now rewrite !append_assoc.
Qed.

Lemma written_app (started : bool) (b : string) (ps qs : list string) :
  written started b (ps ++ qs)
  = written started b ps +:+ written (started || nonempty ps) b qs.
Proof.
  destruct started; simpl.
  - apply following_app.
  - destruct ps as [|p ps]; [reflexivity |]. simpl.
    rewrite following_app. now rewrite !append_assoc.
Qed.

(** Folding a step that writes whole parts: the buffer grows by the parts
    of the elements, in order. *)
Lemma fold_parts {A : Type} (step : Multipart.Writer -> A -> Multipart.Writer)
    (part : A -> list string) :
  (forall w a,
      Multipart.boundary (step w a) = Multipart.boundary w
      /\ Multipart.lastpart (step w a) = Multipart.lastpart w || nonempty (part a)
      /\ Multipart.buffer (step w a)
         = Multipart.buffer w
           +:+ written (Multipart.lastpart w) (Multipart.boundary w) (part a)) ->
  forall l w,
    Multipart.boundary (fold_left step l w) = Multipart.boundary w
    /\ Multipart.lastpart (fold_left step l w)
       = Multipart.lastpart w || nonempty (flat_map part l)
    /\ Multipart.buffer (fold_left step l w)
       = Multipart.buffer w
         +:+ written (Multipart.lastpart w) (Multipart.boundary w) (flat_map part l).
Proof.
  intros Hstep. induction l as [|a l IH]; intros w; simpl.
  - rewrite orb_false_r. repeat split.
    destruct (Multipart.lastpart w); simpl; now rewrite append_empty_r.
  - destruct (Hstep w a) as (Hb & Hl & Hbuf).
    destruct (IH (step w a)) as (Hb' & Hl' & Hbuf').
    rewrite Hb', Hl', Hbuf', Hb, Hl, Hbuf. repeat split.
    + destruct (Multipart.lastpart w); simpl; [reflexivity |].
      destruct (part a); reflexivity.
    + rewrite written_app. now rewrite append_assoc.
Qed.

Lemma file_step (w : Multipart.Writer) (file : MultipartFile) :
  let w' := Multipart.PartWrite
              (Multipart.CreateFormFile w (FieldName file) (FileName file)) (Content file) in
  Multipart.boundary w' = Multipart.boundary w
  /\ Multipart.lastpart w' = Multipart.lastpart w || nonempty [filePart file]
  /\ Multipart.buffer w'
     = Multipart.buffer w
       +:+ written (Multipart.lastpart w) (Multipart.boundary w) [filePart file].
Proof.
  simpl. rewrite orb_true_r. repeat split.
  unfold filePart. destruct (Multipart.lastpart w); simpl;
    rewrite !append_assoc, ?append_empty_r; reflexivity.
Qed.

Lemma field_step (key : string) (w : Multipart.Writer) (value : string) :
  Multipart.boundary (Multipart.WriteField w key value) = Multipart.boundary w
  /\ Multipart.lastpart (Multipart.WriteField w key value)
     = Multipart.lastpart w || nonempty [fieldPart key value]
  /\ Multipart.buffer (Multipart.WriteField w key value)
     = Multipart.buffer w
       +:+ written (Multipart.lastpart w) (Multipart.boundary w) [fieldPart key value].
Proof.
  simpl. rewrite orb_true_r. repeat split.
  unfold fieldPart. destruct (Multipart.lastpart w); simpl;
    rewrite !append_assoc, ?append_empty_r; reflexivity.
Qed.

Lemma flat_map_singleton {A B : Type} (f : A -> B) (l : list A) :
  flat_map (fun a => [f a]) l = map f l.
Proof. induction l as [|a l IH]; simpl; [reflexivity | now rewrite IH]. Qed.

Lemma layout_written (b : string) (ps : list string) :
  layout b ps
  = written false b ps +:+ Multipart.crlf +:+ "--" +:+ b +:+ "--" +:+ Multipart.crlf.
Proof.
  destruct ps as [|p ps]; [reflexivity |].
  unfold layout, written. now rewrite !append_assoc.
Qed.

Lemma writeFiles_parts (files : list MultipartFile) (w : Multipart.Writer) :
  Multipart.boundary (writeFiles files w) = Multipart.boundary w
  /\ Multipart.lastpart (writeFiles files w)
     = Multipart.lastpart w || nonempty (map filePart files)
  /\ Multipart.buffer (writeFiles files w)
     = Multipart.buffer w
       +:+ written (Multipart.lastpart w) (Multipart.boundary w) (map filePart files).
Proof.
  rewrite <- flat_map_singleton.
  apply (fold_parts _ (fun file => [filePart file])). apply file_step.
Qed.

Lemma writeFields_parts (values : Http.Values) (order : list string) (w : Multipart.Writer) :
  Multipart.boundary (writeFields values order w) = Multipart.boundary w
  /\ Multipart.buffer (writeFields values order w)
     = Multipart.buffer w
       +:+ written (Multipart.lastpart w) (Multipart.boundary w)
             (flat_map (fun key => map (fieldPart key) (default [] (values !! key))) order).
Proof.
  destruct (fold_parts
              (fun writer key =>
                 fold_left (fun writer value => Multipart.WriteField writer key value)
                   (default [] (values !! key)) writer)
              (fun key => map (fieldPart key) (default [] (values !! key)))) with (l := order) (w := w)
    as (Hb & _ & Hbuf).
  - intros w0 key. rewrite <- flat_map_singleton.
    apply (fold_parts _ (fun value => [fieldPart key value])). apply field_step.
  - split; assumption.
Qed.

(** [Request.MultipartData] in terms of the two loops. *)
Lemma MultipartData_writer (r : Request) (data : MultipartData) (boundary : string)
    (order : list string) :
  MultipartData_ r data boundary order
  = let writer :=
      Multipart.Close
        (match formValues data with
         | Some values => writeFields values order
                            (writeFiles (files data) (Multipart.NewWriter boundary))
         | None => writeFiles (files data) (Multipart.NewWriter boundary)
         end) in
    {| method := method r; path := path r;
       headers := Http.Set_ (headers r) "Content-Type" (Multipart.FormDataContentType writer);
       body := Some (Multipart.buffer writer) |}.
Proof. unfold MultipartData_. destruct (formValues data); reflexivity. Qed.
End MultipartFacts.

(** X21: the body [Request.MultipartData] builds is, for every data,
    boundary and key order, the parts one after the other, each behind a
    delimiter line [--boundary], closed by [--boundary--]: first the
    files in the order they were added (with their field and file names
    and the type [application/octet-stream]), then the form values, key
    by key in the order the keys are visited and, under one key, in the
    order the values were added.  With no file and no value the body is
    the closing delimiter alone.  The Content-Type names the boundary
    (between quotes if it holds a special character), and [Request.File]
    gives the body of a single file part. *)
Theorem X21_multipart_body_layout
    (r : Itf.Request) (data : Itf.MultipartData) (boundary : string) (order : list string)
    (fieldName fileName content : string) :
  Itf.body (Itf.MultipartData_ r data boundary order)
  = Some (ItfRequest.layout boundary (ItfRequest.parts data order))
  /\ Http.Get (Itf.headers (Itf.MultipartData_ r data boundary order)) "Content-Type"
     = "multipart/form-data; boundary="
       +:+ (if Multipart.ContainsAny boundary Multipart.tspecial
            then Multipart.quote +:+ boundary +:+ Multipart.quote
            else boundary)
  /\ Itf.body (Itf.MultipartData_ r Itf.NewMultipart boundary order)
     = Some (Multipart.crlf +:+ "--" +:+ boundary +:+ "--" +:+ Multipart.crlf)
  /\ Itf.body (ItfRequest.File r fieldName fileName content boundary)
     = Some ("--" +:+ boundary +:+ Multipart.crlf
             +:+ ItfRequest.filePart
                   {| Itf.FieldName := fieldName; Itf.FileName := fileName;
                      Itf.Content := content |}
             +:+ Multipart.crlf +:+ "--" +:+ boundary +:+ "--" +:+ Multipart.crlf).
Proof.
  rewrite !MultipartData_writer. unfold ItfRequest.File. rewrite MultipartData_writer.
  simpl.
  destruct (writeFiles_parts (Itf.files data) (Multipart.NewWriter boundary))
    as (Hb & Hl & Hbuf).
  simpl in Hb, Hl, Hbuf.
  assert (Hwriter :
    let writer :=
      match Itf.formValues data with
      | Some values =>
          ItfRequest.writeFields values order
            (ItfRequest.writeFiles (Itf.files data) (Multipart.NewWriter boundary))
      | None => ItfRequest.writeFiles (Itf.files data) (Multipart.NewWriter boundary)
      end in
    Multipart.boundary writer = boundary
    /\ Multipart.buffer writer
       = ItfRequest.written false boundary (ItfRequest.parts data order)).
  { unfold ItfRequest.parts. destruct (Itf.formValues data) as [values|]; cbv zeta.
    - destruct (writeFields_parts values order
                  (ItfRequest.writeFiles (Itf.files data) (Multipart.NewWriter boundary)))
        as (Hb' & Hbuf').
      rewrite Hb', Hbuf', Hb, Hl, Hbuf. split; [reflexivity |].
      now rewrite written_app.
    - rewrite Hb, Hbuf, app_nil_r. split; reflexivity. }
  destruct Hwriter as [Hboundary Hbuffer].
  split; [|split; [|split]].
  - rewrite layout_written, Hbuffer, Hboundary. now rewrite ?append_assoc.
  - rewrite Get_Set_eq. unfold Multipart.FormDataContentType. simpl. now rewrite Hboundary.
  - reflexivity.
  - unfold ItfRequest.filePart. simpl. f_equal. now rewrite ?append_assoc.
Qed.

Section AddFormFacts.
Import Itf ItfRequest.

Lemma valuesAdd_all (key : string) (values : list string) : forall (own : Http.Values) k,
  default [] (fold_left (fun own value => valuesAdd own key value) values own !! k)
  = default [] (own !! k) ++ (if decide (k = key) then values else []).
Proof.
  induction values as [|v values IH]; intros own k; simpl.
  - destruct (decide (k = key)); now rewrite app_nil_r.
  - rewrite IH. unfold valuesAdd.
    destruct (decide (k = key)) as [-> | Hk].
    + rewrite lookup_insert_eq. simpl. now rewrite <- app_assoc.
    + rewrite lookup_insert_ne by congruence. reflexivity.
Qed.

Lemma addForm_all (values : Http.Values) (order : list string) :
  NoDup order ->
  forall (own : Http.Values) k,
    default []
      (fold_left
         (fun own key =>
            fold_left (fun own value => valuesAdd own key value)
              (default [] (values !! key)) own)
         order own !! k)
    = default [] (own !! k)
      ++ (if decide (k ∈ order) then default [] (values !! k) else []).
Proof.
  induction 1 as [|key order Hfresh Hnodup IH]; intros own k; simpl.
  - now rewrite app_nil_r.
  - rewrite IH, valuesAdd_all, <- app_assoc. f_equal.
    destruct (decide (k = key)) as [-> | Hk].
    + rewrite decide_False by exact Hfresh.
      rewrite decide_True by apply list_elem_of_here. now rewrite app_nil_r.
    + simpl. destruct (decide (k ∈ order)) as [Hin | Hout].
      * rewrite decide_True by (now apply list_elem_of_further). reflexivity.
      * rewrite decide_False; [reflexivity |].
        intros Hin. apply elem_of_cons in Hin as [? | ?]; contradiction.
Qed.
End AddFormFacts.

(** X22: [MultipartData.AddForm] gives every key the values it had
    followed by the values passed in, in their order, and leaves the
    files alone, in whatever order the keys of the passed map are visited
    (each once). *)
Theorem X22_AddForm_merges_in_order
    (m : Itf.MultipartData) (values : Http.Values) (order : list string) (key : string) :
  NoDup order ->
  dom values ⊆ (list_to_set order : gset string) ->
  Itf.files (ItfRequest.AddForm m values order) = Itf.files m
  /\ exists merged,
       Itf.formValues (ItfRequest.AddForm m values order) = Some merged
       /\ default [] (merged !! key)
          = default [] (default ∅ (Itf.formValues m) !! key) ++ default [] (values !! key).
Proof.
  intros Hnodup Hkeys. split; [reflexivity |].
  eexists. split; [reflexivity |].
  rewrite (addForm_all values order Hnodup). f_equal.
  destruct (decide (key ∈ order)) as [_ | Hout]; [reflexivity |].
  destruct (values !! key) eqn:Hvalue; [|reflexivity].
  exfalso. apply Hout.
  assert (Hdom : key ∈ dom values) by (apply elem_of_dom; eauto).
  apply Hkeys in Hdom. now apply elem_of_list_to_set in Hdom.
Qed.

(** X22, on the upload with one note: a second note and a tag are added,
    the keys visited as [tag], [note]. *)
Lemma X22_AddForm_merges_in_order_witness :
  exists merged,
    Itf.formValues
      (ItfRequest.AddForm Fixtures.upload
         {[ "note"%string := ["y"%string]; "tag"%string := ["t"%string] ]}
         ["tag"%string; "note"%string])
    = Some merged
    /\ default [] (merged !! "note")
       = default [] (default ∅ (Itf.formValues Fixtures.upload) !! "note")
         ++ default []
              (({[ "note"%string := ["y"%string]; "tag"%string := ["t"%string] ]}
                : Http.Values) !! "note").
Proof.
  apply (X22_AddForm_merges_in_order Fixtures.upload
           {[ "note"%string := ["y"%string]; "tag"%string := ["t"%string] ]}
           ["tag"%string; "note"%string] "note").
  - apply (bool_decide_unpack _). vm_compute. exact I.
  - apply (bool_decide_unpack _). vm_compute. exact I.
Defined.

Section ValidJsonFacts.
Context `{Decoders}.
Import Middleware.

Lemma logRequestBody_valid_json opts fieldsLogger (w : Http.ResponseWriter)
    (r : Http.Request) b v :
  LogRequestBody opts = true ->
  Strings.Contains (Http.Get (Http.Header_ r) "Content-Type") "application/json" = true ->
  Http.Body r = Some (Http.NewBuffer b) ->
  json_Unmarshal b = inl v ->
  logRequestBody opts fieldsLogger w r
  = (w,
     [Logrus.Info (Logrus.WithField fieldsLogger "request-body" (Logrus.FAny v))
        "JSON request-body parsed"],
     Some (Http.with_body r (Some (Http.NewBuffer b)))).
Proof.
  intros Hopt Hct Hbody Hjson. unfold logRequestBody.
  rewrite Hopt, (shouldLogBody_json _ Hct), Hbody. simpl.
  now rewrite Hct, Hjson.
Qed.
End ValidJsonFacts.

(** X23: with request-body logging enabled, a request whose Content-Type
    contains [application/json] (also when it names other allow-list
    entries besides: the JSON branch is tried first) and whose body is
    valid JSON reaches the handler with nothing written to the sink, and
    the second event of the log is the info event
    [JSON request-body parsed] that carries the decoded value under
    [request-body]. *)
Theorem X23_valid_json_is_logged_and_served `{Decoders}
    (opts : Middleware.LoggerOptions) (conf : Middleware.Configuration)
    (next : Middleware.Handler) (env : Middleware.Env)
    (w : Http.ResponseWriter) (r : Http.Request) (b : string) (v : Any) :
  Middleware.LogRequestBody opts = true ->
  Strings.Contains (Http.Get (Http.Header_ r) "Content-Type") "application/json" = true ->
  Http.Body r = Some (Http.NewBuffer b) ->
  json_Unmarshal b = inl v ->
  exists wrapped request started parsed rest,
    Middleware.served (Middleware.WithLogger opts conf next env w r) = Some (wrapped, request)
    /\ Http.sent (Middleware.ResponseWriter wrapped) = Http.sent w
    /\ Http.body (Middleware.ResponseWriter wrapped) = Http.body w
    /\ Middleware.events (Middleware.WithLogger opts conf next env w r)
       = started :: parsed :: rest
    /\ Logrus.message parsed = "JSON request-body parsed"%string
    /\ Logrus.level parsed = Logrus.InfoLevel
    /\ Logrus.data parsed !! "request-body" = Some (Logrus.FAny v).
Proof.
  intros Hopt Hct Hbody Hjson.
  destruct (WithLogger_passed opts conf next env w r _ _ _
              (logRequestBody_valid_json opts _ w r b v Hopt Hct Hbody Hjson))
    as (wrapped & ctx & Hserved & Hsent & Hwritten & _).
  destruct (WithLogger_served_run opts conf next env w r _ _ Hserved)
    as (evs & r1 & started & completed & after & Hstep & _ & _ & _ & Hevents & _).
  rewrite (logRequestBody_valid_json opts _ w r b v Hopt Hct Hbody Hjson) in Hstep.
  injection Hstep as <- _.
  eexists wrapped, _, started, _, _.
  split; [exact Hserved |]. split; [exact Hsent |]. split; [exact Hwritten |].
  split; [exact Hevents |]. split; [reflexivity |]. split; [reflexivity |].
  simpl. unfold Logrus.WithField, Logrus.WithFields.
  apply lookup_union_Some_raw. left. apply lookup_singleton_eq.
Qed.

(** X23, on a recorder: a JSON POST with the body [true]. *)
Lemma X23_valid_json_is_logged_and_served_witness :
  exists wrapped request started parsed rest,
    Middleware.served
      (Middleware.WithLogger (H := Fixtures.decoders) Middleware.DefaultLoggerOptions
         Fixtures.conf Fixtures.created Fixtures.env Fixtures.recorder
         (Fixtures.post "application/json" (Http.NewBuffer "true")))
    = Some (wrapped, request)
    /\ Http.sent (Middleware.ResponseWriter wrapped) = Http.sent Fixtures.recorder
    /\ Http.body (Middleware.ResponseWriter wrapped) = Http.body Fixtures.recorder
    /\ Middleware.events
         (Middleware.WithLogger (H := Fixtures.decoders) Middleware.DefaultLoggerOptions
            Fixtures.conf Fixtures.created Fixtures.env Fixtures.recorder
            (Fixtures.post "application/json" (Http.NewBuffer "true")))
       = started :: parsed :: rest
    /\ Logrus.message parsed = "JSON request-body parsed"%string
    /\ Logrus.level parsed = Logrus.InfoLevel
    /\ Logrus.data parsed !! "request-body" = Some (Logrus.FAny (ABool true)).
Proof.
  apply (X23_valid_json_is_logged_and_served (H := Fixtures.decoders)
           Middleware.DefaultLoggerOptions Fixtures.conf Fixtures.created Fixtures.env
           Fixtures.recorder (Fixtures.post "application/json" (Http.NewBuffer "true"))
           "true" (ABool true));
    reflexivity.
Defined.
